(** * cline-ext: the Approval Decision Engine and the Architect orchestration loop

    A shallow embedding of
      - [src/core/approval/ApprovalOracle.ts]   (class [ApprovalOracle]),
      - [cline-extended/src/core/architect/ArchitectOrchestrator.ts]
        (class [ArchitectOrchestrator]),
      - [cline-extended/src/core/persona/PersonaLoader.ts] ([inject],
        [injectFromConfig]),
      - the [maxIterations] and the Domains field handlers of
        [ArchitectModeSection.tsx],
      - [cline-extended/src/core/context/LLMContextManager.ts] (the methods
        that work on the context in memory),
      - [src/core/architecture/ArchitectureAnalyzer.ts] (the naming check,
        the recommendation and the options),
    together with the part of the ECMAScript runtime these rely on: strings,
    [String.prototype.replace], [RegExp.prototype.test] and the regular
    expression syntax the source uses.

    Conventions.  A JavaScript string is modelled as a [string], i.e. a
    sequence of 8-bit code units; every character the source's regular
    expressions and string constants mention is ASCII.  A JavaScript [Map]
    used as a dictionary is a [gmap].  Code that can throw returns a [Result];
    code that mutates [this] or talks to an external service passes the state
    explicitly. *)

From Stdlib Require Import ZArith List Ascii String Bool Lia.
From stdpp Require Import gmap strings.

Local Open Scope char_scope.

(** ** JavaScript strings *)

Module Js.

Definition chars (s : string) : list ascii := list_ascii_of_string s.
Definition str (l : list ascii) : string := string_of_list_ascii l.

Definition code (c : ascii) : N := N_of_ascii c.

Definition between (lo hi : N) (c : ascii) : bool :=
  (lo <=? code c)%N && (code c <=? hi)%N.

Definition isDigit (c : ascii) : bool := between 48 57 c.
Definition isLower (c : ascii) : bool := between 97 122 c.
Definition isUpper (c : ascii) : bool := between 65 90 c.
Definition isWord (c : ascii) : bool :=
  isDigit c || isLower c || isUpper c || Ascii.eqb c "_".

(** LineTerminator: LF and CR (U+2028 and U+2029 lie outside the 8-bit range). *)
Definition isLineTerminator (c : ascii) : bool :=
  (code c =? 10)%N || (code c =? 13)%N.

(** WhiteSpace and LineTerminator, as used by [\s] and by [trim]:
    TAB, LF, VT, FF, CR, SP and NBSP. *)
Definition isSpace (c : ascii) : bool :=
  between 9 13 c || (code c =? 32)%N || (code c =? 160)%N.

Definition upper (c : ascii) : ascii :=
  if isLower c then ascii_of_N (code c - 32) else c.
Definition lower (c : ascii) : ascii :=
  if isUpper c then ascii_of_N (code c + 32) else c.

(** [String.prototype.toUpperCase] on the ASCII letters; the other code
    units are kept.  (No non-ASCII 8-bit character has an upper case that
    contains one of the letters A, P, R, O, V, E, D, which is all
    [isComplete] looks at.) *)
Definition toUpperCase (s : string) : string := str (map upper (chars s)).

Fixpoint dropSpace (l : list ascii) : list ascii :=
  match l with
  | c :: l' => if isSpace c then dropSpace l' else l
  | [] => []
  end.

(** [String.prototype.trim]. *)
Definition trim (s : string) : string :=
  str (rev (dropSpace (rev (dropSpace (chars s))))).

Fixpoint prefixb (p l : list ascii) : bool :=
  match p, l with
  | [], _ => true
  | a :: p', b :: l' => Ascii.eqb a b && prefixb p' l'
  | _ :: _, [] => false
  end.

(** [String.prototype.startsWith]. *)
Definition startsWith (s p : string) : bool := prefixb (chars p) (chars s).

(** The double quote character, which a string literal cannot hold. *)
Definition dq : string := String (ascii_of_N 34) EmptyString.

End Js.

(** ** Exceptions

    [Throw e] is an exception that leaves the function, [Ok a] a normal
    return. *)

Inductive Result (A : Type) : Type :=
| Ok (a : A)
| Throw (e : string).
Arguments Ok {A} a.
Arguments Throw {A} e.

(** ** ECMAScript regular expressions

    The syntax tree of the patterns the source uses, a backtracking matcher
    with the priorities of the ECMAScript specification (leftmost start,
    alternatives left to right, greedy or lazy quantifiers; captures are not
    reset between the iterations of a quantifier, which no pattern of the
    source depends on), and on top of it [test] and [replace]. *)

Module RegExp.

Inductive ClassEscape := EDigit | ENotDigit | ESpace | ENotSpace | EWord | ENotWord.

Inductive ClassItem :=
| CChar (c : ascii)
| CRange (lo hi : ascii)
| CEsc (e : ClassEscape).

Inductive Node :=
| NEmpty
| NChar (c : ascii)
| NAny                                    (* .  *)
| NEsc (e : ClassEscape)                  (* \d \s ... *)
| NClass (neg : bool) (items : list ClassItem)
| NBol                                    (* ^ *)
| NEol                                    (* $ *)
| NSeq (r1 r2 : Node)
| NAlt (r1 r2 : Node)
| NStar (greedy : bool) (r : Node)
| NPlus (greedy : bool) (r : Node)
| NOpt (greedy : bool) (r : Node)
| NGroup (idx : nat) (r : Node).

Record t := mk { node : Node; ignoreCase : bool; global : bool }.

Definition escMem (e : ClassEscape) (c : ascii) : bool :=
  match e with
  | EDigit => Js.isDigit c
  | ENotDigit => negb (Js.isDigit c)
  | ESpace => Js.isSpace c
  | ENotSpace => negb (Js.isSpace c)
  | EWord => Js.isWord c
  | ENotWord => negb (Js.isWord c)
  end.

Definition itemMem (c : ascii) (i : ClassItem) : bool :=
  match i with
  | CChar a => Ascii.eqb a c
  | CRange lo hi => Js.between (Js.code lo) (Js.code hi) c
  | CEsc e => escMem e c
  end.

(** With the [i] flag a character matches a set when some member of the set
    has the same canonical (upper case) form. *)
Definition setMem (icase : bool) (items : list ClassItem) (c : ascii) : bool :=
  existsb (itemMem c) items
  || (icase && (existsb (itemMem (Js.upper c)) items
                || existsb (itemMem (Js.lower c)) items)).

Definition charEq (icase : bool) (a c : ascii) : bool :=
  if icase then Ascii.eqb (Js.upper a) (Js.upper c) else Ascii.eqb a c.

Definition Captures := list (nat * list ascii).

Fixpoint capture (caps : Captures) (i : nat) : option (list ascii) :=
  match caps with
  | [] => None
  | (j, v) :: caps' => if Nat.eqb i j then Some v else capture caps' i
  end.

Section Matcher.
Context {A : Type}.
Variable icase : bool.
(** The length of the whole input: [^] holds only where nothing has been
    consumed, [$] only where nothing is left (no [m] flag). *)
Variable total : nat.

Definition one (p : ascii -> bool) (s : list ascii) (caps : Captures)
    (k : list ascii -> Captures -> option A) : option A :=
  match s with
  | c :: s' => if p c then k s' caps else None
  | [] => None
  end.

(** One more iteration of a quantified atom [step], which must consume
    something: an iteration that matches the empty string is rejected once the
    minimum count is reached, as in the specification's RepeatMatcher. *)
Definition progress (s : list ascii) (k : list ascii -> Captures -> option A)
    (s' : list ascii) (caps' : Captures) : option A :=
  if Nat.ltb (length s') (length s) then k s' caps' else None.

(** Zero or more iterations of [step] and then [k]; greedy tries one more
    iteration first, lazy tries [k] first.  Every iteration consumes at least
    one character, so [length s] iterations are enough. *)
Fixpoint repeat (step : list ascii -> Captures ->
                        (list ascii -> Captures -> option A) -> option A)
    (greedy : bool) (k : list ascii -> Captures -> option A)
    (fuel : nat) (s : list ascii) (caps : Captures) {struct fuel} : option A :=
  match fuel with
  | O => k s caps
  | S fuel' =>
      if greedy then
        match step s caps (progress s (repeat step greedy k fuel')) with
        | Some a => Some a
        | None => k s caps
        end
      else
        match k s caps with
        | Some a => Some a
        | None => step s caps (progress s (repeat step greedy k fuel'))
        end
  end.

(** [m r s caps k]: match [r] at the front of [s], then continue with [k]
    on what is left; [None] is failure and makes the caller backtrack. *)
Fixpoint m (r : Node) (s : list ascii) (caps : Captures)
    (k : list ascii -> Captures -> option A) {struct r} : option A :=
  match r with
  | NEmpty => k s caps
  | NChar a => one (charEq icase a) s caps k
  | NAny => one (fun c => negb (Js.isLineTerminator c)) s caps k
  | NEsc e => one (setMem icase [CEsc e]) s caps k
  | NClass neg items =>
      one (fun c => xorb neg (setMem icase items c)) s caps k
  | NBol => if Nat.eqb (length s) total then k s caps else None
  | NEol => match s with [] => k s caps | _ :: _ => None end
  | NSeq r1 r2 => m r1 s caps (fun s' caps' => m r2 s' caps' k)
  | NAlt r1 r2 =>
      match m r1 s caps k with
      | Some a => Some a
      | None => m r2 s caps k
      end
  | NGroup i r' =>
      m r' s caps (fun s' caps' =>
        k s' ((i, firstn (length s - length s') s) :: caps'))
  | NOpt greedy r' => repeat (m r') greedy k 1 s caps
  | NStar greedy r' => repeat (m r') greedy k (length s) s caps
  | NPlus greedy r' =>
      m r' s caps (fun s1 caps1 => repeat (m r') greedy k (length s1) s1 caps1)
  end.

End Matcher.

(** A successful match: the text before it, the matched text, the text after
    it, and the captures. *)
Record Match := mkMatch {
  before : list ascii;
  matched : list ascii;
  after : list ascii;
  captures : Captures
}.

(** Try the start positions from left to right ([skipped] holds, reversed,
    what lies between the place the search began and the current position). *)
Fixpoint search (icase : bool) (total : nat) (r : Node)
    (skipped : list ascii) (s : list ascii) {struct s} : option Match :=
  match m icase total r s []
          (fun s' caps =>
             Some (mkMatch (rev skipped) (firstn (length s - length s') s) s' caps)) with
  | Some res => Some res
  | None =>
      match s with
      | [] => None
      | c :: s' => search icase total r (c :: skipped) s'
      end
  end.

(** [RegExp.prototype.exec] from index 0. *)
Definition exec (re : t) (s : string) : option Match :=
  search (ignoreCase re) (String.length s) (node re) [] (Js.chars s).

(** [RegExp.prototype.test] for a regular expression without the [g] and [y]
    flags (every matcher of the engine is one): no [lastIndex] is kept. *)
Definition test (re : t) (s : string) : bool :=
  match exec re s with Some _ => true | None => false end.

Fixpoint groups (r : Node) : nat :=
  match r with
  | NSeq r1 r2 | NAlt r1 r2 => Nat.max (groups r1) (groups r2)
  | NStar _ r' | NPlus _ r' | NOpt _ r' => groups r'
  | NGroup i r' => Nat.max i (groups r')
  | _ => 0
  end.

(** GetSubstitution: [$$], [$&] and [$1] ... [$9] in a replacement string.
    [$n] stands for the n-th capture when the pattern has that many groups,
    and is literal text otherwise. *)
Fixpoint substitute (ngroups : nat) (mt : Match) (repl : list ascii) : list ascii :=
  match repl with
  | [] => []
  | c :: tail =>
      if Ascii.eqb c "$" then
        match tail with
        | [] => [c]
        | d :: rest =>
            if Ascii.eqb d "$" then "$" :: substitute ngroups mt rest
            else if Ascii.eqb d "&" then matched mt ++ substitute ngroups mt rest
            else if Js.between 49 57 d && Nat.leb (N.to_nat (Js.code d - 48)) ngroups then
              default [] (capture (captures mt) (N.to_nat (Js.code d - 48)))
              ++ substitute ngroups mt rest
            else c :: substitute ngroups mt tail
        end
      else c :: substitute ngroups mt tail
  end.

(** The loop of [replace] with the [g] flag: after a match the search goes on
    behind it; after an empty match it first steps over one character. *)
Fixpoint replaceLoop (fuel : nat) (icase : bool) (total : nat) (r : Node)
    (repl : list ascii) (s : list ascii) {struct fuel} : list ascii :=
  match fuel with
  | O => s
  | S fuel' =>
      match search icase total r [] s with
      | None => s
      | Some mt =>
          before mt ++ substitute (groups r) mt repl ++
          match matched mt, after mt with
          | [], [] => []
          | [], c :: rest => c :: replaceLoop fuel' icase total r repl rest
          | _ :: _, rest => replaceLoop fuel' icase total r repl rest
          end
      end
  end.

(** [String.prototype.replace(re, repl)] with a string replacement: the first
    match only, or every match when [re] has the [g] flag. *)
Definition replace (s : string) (re : t) (repl : string) : string :=
  let l := Js.chars s in
  if global re then
    Js.str (replaceLoop (S (length l)) (ignoreCase re) (length l) (node re) (Js.chars repl) l)
  else
    match search (ignoreCase re) (length l) (node re) [] l with
    | None => s
    | Some mt =>
        Js.str (before mt ++ substitute (groups (node re)) mt (Js.chars repl) ++ after mt)
    end.

(** The matches a loop [while ((match = re.exec(s)) !== null)] visits with a
    [g] regular expression: each search starts where the last match ended.
    (After an empty match the model steps over one character; the source
    runs such a loop only with a pattern that cannot match the empty
    string.) *)
Fixpoint execLoop (fuel : nat) (icase : bool) (total : nat) (r : Node)
    (s : list ascii) {struct fuel} : list Match :=
  match fuel with
  | O => []
  | S fuel' =>
      match search icase total r [] s with
      | None => []
      | Some mt =>
          mt :: match matched mt, after mt with
                | [], [] => []
                | [], _ :: rest => execLoop fuel' icase total r rest
                | _ :: _, rest => execLoop fuel' icase total r rest
                end
      end
  end.

Definition execAll (re : t) (s : string) : list Match :=
  let l := Js.chars s in
  execLoop (S (length l)) (ignoreCase re) (length l) (node re) l.

(** *** Reading a pattern

    The pattern syntax the source uses: literal characters, [.], [^], [$],
    escapes, character classes with ranges, capturing groups, alternation and
    the quantifiers [*], [+], [?] with their lazy forms.  Anything else
    (bounded repetition, look-around, back references, named groups) is outside
    this model and is refused like a syntax error. *)

Definition classEscape (x : ascii) : option ClassEscape :=
  if Ascii.eqb x "d" then Some EDigit
  else if Ascii.eqb x "D" then Some ENotDigit
  else if Ascii.eqb x "s" then Some ESpace
  else if Ascii.eqb x "S" then Some ENotSpace
  else if Ascii.eqb x "w" then Some EWord
  else if Ascii.eqb x "W" then Some ENotWord
  else None.

(** The character an escape [\x] denotes: a control escape, or [x] itself
    when [x] is a punctuation character. *)
Definition escapeChar (x : ascii) : option ascii :=
  if Ascii.eqb x "n" then Some (ascii_of_N 10)
  else if Ascii.eqb x "t" then Some (ascii_of_N 9)
  else if Ascii.eqb x "r" then Some (ascii_of_N 13)
  else if Ascii.eqb x "f" then Some (ascii_of_N 12)
  else if Ascii.eqb x "v" then Some (ascii_of_N 11)
  else if Ascii.eqb x "0" then Some (ascii_of_N 0)
  else if Js.isWord x then None
  else Some x.

Definition classAtom (s : list ascii) : option (ClassItem * list ascii) :=
  match s with
  | [] => None
  | c :: s' =>
      if Ascii.eqb c "\" then
        match s' with
        | [] => None
        | x :: s'' =>
            match classEscape x with
            | Some e => Some (CEsc e, s'')
            | None => a ← escapeChar x; Some (CChar a, s'')
            end
        end
      else Some (CChar c, s')
  end.

(** The items of a class up to the closing bracket. *)
Fixpoint parseClass (fuel : nat) (s : list ascii) : option (list ClassItem * list ascii) :=
  match fuel with
  | O => None
  | S fuel' =>
      match s with
      | [] => None
      | c :: s' =>
          if Ascii.eqb c "]" then Some ([], s')
          else
            '(a, s1) ← classAtom s;
            match a, s1 with
            | CChar lo, d :: e :: s2 =>
                if Ascii.eqb d "-" && negb (Ascii.eqb e "]") then
                  '(b, s3) ← classAtom (e :: s2);
                  match b with
                  | CChar hi =>
                      if (Js.code lo <=? Js.code hi)%N then
                        '(items, s4) ← parseClass fuel' s3;
                        Some (CRange lo hi :: items, s4)
                      else None
                  | _ => None
                  end
                else '(items, s3) ← parseClass fuel' s1; Some (a :: items, s3)
            | _, _ => '(items, s3) ← parseClass fuel' s1; Some (a :: items, s3)
            end
      end
  end.

(** A quantifier behind an atom, if there is one. *)
Definition quantified (a : Node) (s : list ascii) : Node * list ascii :=
  let lazy (mkq : bool -> Node) (s' : list ascii) :=
    match s' with
    | c :: s'' => if Ascii.eqb c "?" then (mkq false, s'') else (mkq true, s')
    | [] => (mkq true, s')
    end in
  match s with
  | c :: s' =>
      if Ascii.eqb c "*" then lazy (fun g => NStar g a) s'
      else if Ascii.eqb c "+" then lazy (fun g => NPlus g a) s'
      else if Ascii.eqb c "?" then lazy (fun g => NOpt g a) s'
      else (a, s)
  | [] => (a, s)
  end.

Definition isQuantifierStart (s : list ascii) : bool :=
  match s with
  | c :: _ => Ascii.eqb c "*" || Ascii.eqb c "+" || Ascii.eqb c "?" || Ascii.eqb c "{"
  | [] => false
  end.

(** Disjunction and Alternative of the pattern grammar; [g] counts the
    capturing groups opened so far (groups are numbered by their left
    parenthesis). *)
Fixpoint parseDisjunction (fuel : nat) (s : list ascii) (g : nat)
    : option (Node * list ascii * nat) :=
  match fuel with
  | O => None
  | S fuel' =>
      '(r1, s1, g1) ← parseAlternative fuel' s g;
      match s1 with
      | c :: s2 =>
          if Ascii.eqb c "|" then
            '(r2, s3, g2) ← parseDisjunction fuel' s2 g1;
            Some (NAlt r1 r2, s3, g2)
          else Some (r1, s1, g1)
      | [] => Some (r1, s1, g1)
      end
  end
with parseAlternative (fuel : nat) (s : list ascii) (g : nat)
    : option (Node * list ascii * nat) :=
  match fuel with
  | O => None
  | S fuel' =>
      match s with
      | [] => Some (NEmpty, s, g)
      | c :: s' =>
          if Ascii.eqb c "|" || Ascii.eqb c ")" then Some (NEmpty, s, g)
          else
            '(a, s1, g1) ←
              (if Ascii.eqb c "^" then
                 if isQuantifierStart s' then None else Some (NBol, s', g)
               else if Ascii.eqb c "$" then
                 if isQuantifierStart s' then None else Some (NEol, s', g)
               else if Ascii.eqb c "(" then
                 match s' with
                 | "?" :: _ => None
                 | _ =>
                     '(r, s1, g1) ← parseDisjunction fuel' s' (S g);
                     match s1 with
                     | ")" :: s2 => Some (quantified (NGroup (S g) r) s2, g1)
                     | _ => None
                     end
                 end
               else if Ascii.eqb c "[" then
                 match s' with
                 | "^" :: s'' =>
                     '(items, s1) ← parseClass (S (length s'')) s'';
                     Some (quantified (NClass true items) s1, g)
                 | _ =>
                     '(items, s1) ← parseClass (S (length s')) s';
                     Some (quantified (NClass false items) s1, g)
                 end
               else if Ascii.eqb c "\" then
                 match s' with
                 | [] => None
                 | x :: s'' =>
                     match classEscape x with
                     | Some e => Some (quantified (NEsc e) s'', g)
                     | None => a ← escapeChar x; Some (quantified (NChar a) s'', g)
                     end
                 end
               else if Ascii.eqb c "." then Some (quantified NAny s', g)
               else if isQuantifierStart s then None
               else Some (quantified (NChar c) s', g));
            if isQuantifierStart s1 then None
            else
              '(rest, s2, g2) ← parseAlternative fuel' s1 g1;
              Some (NSeq a rest, s2, g2)
      end
  end.

Definition parseFlags (flags : string) : option (bool * bool) :=
  foldl (fun acc c =>
           '(i, g) ← acc;
           if Ascii.eqb c "i" then (if i : bool then None else Some (true, g))
           else if Ascii.eqb c "g" then (if g : bool then None else Some (i, true))
           else None)
        (Some (false, false)) (Js.chars flags).

(** [new RegExp(pattern, flags)], which throws a SyntaxError on a pattern it
    cannot read. *)
Definition create (pattern flags : string) : Result t :=
  let s := Js.chars pattern in
  match parseDisjunction (2 * length s + 2) s 0, parseFlags flags with
  | Some (r, [], _), Some (i, g) => Ok (mk r i g)
  | _, _ => Throw "SyntaxError: Invalid regular expression"
  end.

(** A regular expression literal [/pattern/flags] of the source text; the
    literals of the source are all well formed (see [literals_well_formed]). *)
Definition lit (pattern flags : string) : t :=
  match create pattern flags with
  | Ok re => re
  | Throw _ => mk (NClass false []) false false
  end.

End RegExp.

Local Close Scope char_scope.

(** ** State and exceptions together

    A method that mutates its object or calls an external service is a
    function from the state before to a result and the state after; an
    exception keeps the state changes made before it was thrown, and [catch]
    is the [try { ... } catch (error) { ... }] statement. *)

Definition M (S A : Type) : Type := S -> Result A * S.

Definition ret {S A} (a : A) : M S A := fun s => (Ok a, s).
Definition bind {S A B} (c : M S A) (k : A -> M S B) : M S B :=
  fun s => match c s with
           | (Ok a, s') => k a s'
           | (Throw e, s') => (Throw e, s')
           end.
Definition catch {S A} (body : M S A) (handler : string -> M S A) : M S A :=
  fun s => match body s with
           | (Ok a, s') => (Ok a, s')
           | (Throw e, s') => handler e s'
           end.
Definition gets {S A} (f : S -> A) : M S A := fun s => (Ok (f s), s).
Definition modify {S} (f : S -> S) : M S unit := fun s => (Ok tt, f s).
Definition lift {S A} (r : Result A) : M S A := fun s => (r, s).

Declare Scope js_scope.
Delimit Scope js_scope with js.
Notation "'let*' x := c 'in' k" := (bind c (fun x => k))
  (at level 10, x name, c at level 100, k at level 200, only parsing) : js_scope.

(** ** Values read by [JSON.parse] *)

#[local] Unset Elimination Schemes.
Inductive JsValue :=
| JNull
| JBool (b : bool)
| JNumber (lexeme : string)
| JString (s : string)
| JArray (items : list JsValue)
| JObject (props : list (string * JsValue)).
#[local] Set Elimination Schemes.

(** The own property [k] of an object read from JSON; of two members with the
    same name the later one counts. *)
Fixpoint lookupProp (props : list (string * JsValue)) (k : string) : option JsValue :=
  match props with
  | [] => None
  | (k', v) :: rest =>
      match lookupProp rest k with
      | Some v' => Some v'
      | None => if String.eqb k k' then Some v else None
      end
  end.

(** [v.k] for one of the names [allow], [persist], [reasoning]: [None] is
    [undefined]; reading a property of [null] throws a TypeError. *)
Definition getProp (v : JsValue) (k : string) : Result (option JsValue) :=
  match v with
  | JNull => Throw "TypeError: Cannot read properties of null"
  | JObject props => Ok (lookupProp props k)
  | _ => Ok None
  end.

(** ** shared/architect-types: the approval types *)

Inductive Action := read | write | execute | browser | delete.

Definition actionString (a : Action) : string :=
  match a with
  | read => "read"
  | write => "write"
  | execute => "execute"
  | browser => "browser"
  | delete => "delete"
  end.

Inductive Persist := once | session | always.

Definition Persist_eqb (p q : Persist) : bool :=
  match p, q with
  | once, once | session, session | always, always => true
  | _, _ => false
  end.

Record ApprovalOracleConfig := {
  enabled : bool;
  showRoutineApprovals : bool;
  customAllowPatterns : list string;
  customDenyPatterns : list string
}.

Record ApprovalRequest := {
  action : Action;
  target : string;
  context : string;
  previousDecisions : gmap string string
}.

Record ApprovalDecision := {
  allow : bool;
  persist : Persist;
  reasoning : string
}.

(** ** The Anthropic client, as far as [askOpus] uses it *)

Record MessageParam := { role : string; content : string }.

Record MessageCreateParams := {
  model : string;
  max_tokens : Z;
  system : string;
  messages : list MessageParam
}.

(** A content block of a reply; only text blocks have a [text]. *)
Record ContentBlock := { text : option string }.

(** The reply; [blocks] is its [content] array. *)
Record Message := { blocks : list ContentBlock }.

(** ** src/core/approval/ApprovalOracle.ts *)

(** The fields of an [ApprovalOracle] instance.  [persistedRules] is the
    decision cache; the two matcher lists are filled by the constructor and
    never change afterwards. *)
Record ApprovalOracle := {
  persistedRules : gmap string bool;
  config : ApprovalOracleConfig;
  INSTANT_ALLOW : list RegExp.t;
  INSTANT_DENY : list RegExp.t
}.

(** What a method of the engine can read and change: the instance itself, the
    requests sent to the adjudicator so far (oldest first) and the lines
    written with [console.error]. *)
Record World := {
  this : ApprovalOracle;
  sent : list MessageCreateParams;
  console : list string
}.

Definition setRule (pattern : string) (b : bool) (w : World) : World :=
  {| this := {| persistedRules := <[pattern := b]> (persistedRules (this w));
                config := config (this w);
                INSTANT_ALLOW := INSTANT_ALLOW (this w);
                INSTANT_DENY := INSTANT_DENY (this w) |};
     sent := sent w;
     console := console w |}.

Definition logError (line : string) (w : World) : World :=
  {| this := this w; sent := sent w; console := console w ++ [line] |}.

Definition recordSent (p : MessageCreateParams) (w : World) : World :=
  {| this := this w; sent := sent w ++ [p]; console := console w |}.

(** Fast-path patterns - no Opus call needed: the initial value of
    [INSTANT_ALLOW]. *)
Definition default_INSTANT_ALLOW : list RegExp.t := [
  RegExp.lit "^read:" "";
  RegExp.lit "^write:.*\.(ts|js|tsx|jsx|py|rb|go|rs|java|kt|swift|c|cpp|h|hpp|md|json|yaml|yml|toml|css|scss|less|html|xml|sql|sh|bash|zsh|fish|ps1|dockerfile|makefile|txt|csv|env\.example)$" "i";
  RegExp.lit "^write:.*\/src\/" "";
  RegExp.lit "^write:.*\/lib\/" "";
  RegExp.lit "^write:.*\/test\/" "";
  RegExp.lit "^write:.*\/tests\/" "";
  RegExp.lit "^write:.*\/spec\/" "";
  RegExp.lit "^write:.*\/components\/" "";
  RegExp.lit "^write:.*\/pages\/" "";
  RegExp.lit "^write:.*\/app\/" "";
  RegExp.lit "^write:.*\/public\/" "";
  RegExp.lit "^write:.*\/assets\/" "";
  RegExp.lit "^write:.*\/styles\/" "";
  RegExp.lit "^write:.*\/utils\/" "";
  RegExp.lit "^write:.*\/hooks\/" "";
  RegExp.lit "^write:.*\/services\/" "";
  RegExp.lit "^write:.*\/api\/" "";
  RegExp.lit "^write:.*\/models\/" "";
  RegExp.lit "^write:.*\/types\/" "";
  RegExp.lit "^write:.*\/interfaces\/" "";
  RegExp.lit "^write:.*\/contracts\/" "";
  RegExp.lit "^write:.*\/\.cline\/" "";
  RegExp.lit "^execute:npm (install|ci|run|test|build|start|lint|format|typecheck|dev|preview)" "";
  RegExp.lit "^execute:npx " "";
  RegExp.lit "^execute:yarn " "";
  RegExp.lit "^execute:pnpm " "";
  RegExp.lit "^execute:bun " "";
  RegExp.lit "^execute:deno " "";
  RegExp.lit "^execute:cargo (build|run|test|check|clippy|fmt|add|remove)" "";
  RegExp.lit "^execute:go (build|run|test|mod|get|fmt|vet)" "";
  RegExp.lit "^execute:pip install" "";
  RegExp.lit "^execute:pip3 install" "";
  RegExp.lit "^execute:python " "";
  RegExp.lit "^execute:python3 " "";
  RegExp.lit "^execute:ruby " "";
  RegExp.lit "^execute:bundle " "";
  RegExp.lit "^execute:gem install" "";
  RegExp.lit "^execute:mix " "";
  RegExp.lit "^execute:elixir " "";
  RegExp.lit "^execute:dotnet " "";
  RegExp.lit "^execute:mvn " "";
  RegExp.lit "^execute:gradle " "";
  RegExp.lit "^execute:make($| )" "";
  RegExp.lit "^execute:cmake " "";
  RegExp.lit "^execute:git (status|diff|log|branch|checkout|add|commit|push|pull|fetch|stash|rebase|merge|clone|init|remote|tag|show|blame|reflog)" "";
  RegExp.lit "^execute:ls" "";
  RegExp.lit "^execute:ll" "";
  RegExp.lit "^execute:la" "";
  RegExp.lit "^execute:cat " "";
  RegExp.lit "^execute:head " "";
  RegExp.lit "^execute:tail " "";
  RegExp.lit "^execute:less " "";
  RegExp.lit "^execute:more " "";
  RegExp.lit "^execute:grep " "";
  RegExp.lit "^execute:find " "";
  RegExp.lit "^execute:echo " "";
  RegExp.lit "^execute:printf " "";
  RegExp.lit "^execute:mkdir " "";
  RegExp.lit "^execute:touch " "";
  RegExp.lit "^execute:cp " "";
  RegExp.lit "^execute:mv " "";
  RegExp.lit "^execute:cd " "";
  RegExp.lit "^execute:pwd" "";
  RegExp.lit "^execute:which " "";
  RegExp.lit "^execute:where " "";
  RegExp.lit "^execute:whoami" "";
  RegExp.lit "^execute:date" "";
  RegExp.lit "^execute:time " "";
  RegExp.lit "^execute:wc " "";
  RegExp.lit "^execute:sort " "";
  RegExp.lit "^execute:uniq " "";
  RegExp.lit "^execute:sed " "";
  RegExp.lit "^execute:awk " "";
  RegExp.lit "^execute:cut " "";
  RegExp.lit "^execute:tr " "";
  RegExp.lit "^execute:tee " "";
  RegExp.lit "^execute:xargs " "";
  RegExp.lit "^execute:env($| )" "";
  RegExp.lit "^execute:export " "";
  RegExp.lit "^execute:source " "";
  RegExp.lit "^execute:node " "";
  RegExp.lit "^execute:ts-node " "";
  RegExp.lit "^execute:tsx " "";
  RegExp.lit "^execute:esbuild " "";
  RegExp.lit "^execute:tsc($| )" "";
  RegExp.lit "^execute:eslint " "";
  RegExp.lit "^execute:prettier " "";
  RegExp.lit "^execute:jest " "";
  RegExp.lit "^execute:vitest " "";
  RegExp.lit "^execute:mocha " "";
  RegExp.lit "^execute:pytest " "";
  RegExp.lit "^execute:rspec " "";
  RegExp.lit "^execute:phpunit " "";
  RegExp.lit "^execute:docker (build|run|ps|images|logs|exec|stop|start|restart|pull|push|compose)" "";
  RegExp.lit "^execute:docker-compose " "";
  RegExp.lit "^execute:kubectl (get|describe|logs|apply|delete|exec|port-forward)" "";
  RegExp.lit "^execute:terraform (init|plan|apply|destroy|validate|fmt)" "";
  RegExp.lit "^execute:curl .* localhost" "";
  RegExp.lit "^execute:curl .* 127\.0\.0\.1" "";
  RegExp.lit "^execute:wget .* localhost" "";
  RegExp.lit "^execute:http " "";
  RegExp.lit "^browser:localhost" "";
  RegExp.lit "^browser:127\.0\.0\.1" "";
  RegExp.lit "^browser:file:\/\/" "";
  (* Windows-specific safe commands *)
  RegExp.lit "^execute:dir($| )" "";
  RegExp.lit "^execute:type " "";
  RegExp.lit "^execute:copy " "";
  RegExp.lit "^execute:move " "";
  RegExp.lit "^execute:md " "";
  RegExp.lit "^execute:rd " "";
  RegExp.lit "^execute:set($| )" ""
].

(** The initial value of [INSTANT_DENY]. *)
Definition default_INSTANT_DENY : list RegExp.t := [
  (* Catastrophic file operations *)
  RegExp.lit "^execute:rm -rf \/$" "";
  RegExp.lit "^execute:rm -rf \/\*$" "";
  RegExp.lit "^execute:rm -rf ~$" "";
  RegExp.lit "^execute:rm -rf ~\/\*$" "";
  RegExp.lit "^execute:rm -rf \.\.\/" "";
  RegExp.lit "^execute:dd if=.*of=\/dev\/" "";
  RegExp.lit "^execute:mkfs\." "";
  RegExp.lit "^execute:fdisk " "";
  RegExp.lit "^execute:parted " "";
  (* Windows catastrophic *)
  RegExp.lit "^execute:rd \/s \/q [a-zA-Z]:\\$" "";
  RegExp.lit "^execute:del \/f \/s \/q [a-zA-Z]:\\$" "";
  RegExp.lit "^execute:format [a-zA-Z]:" "";
  RegExp.lit "^execute:diskpart" "";
  (* System modification *)
  RegExp.lit "^execute:.*>\/etc\/" "";
  RegExp.lit "^execute:.*>\/usr\/" "";
  RegExp.lit "^execute:.*>\/bin\/" "";
  RegExp.lit "^execute:.*>\/sbin\/" "";
  RegExp.lit "^execute:.*>\/boot\/" "";
  RegExp.lit "^execute:.*>\/sys\/" "";
  RegExp.lit "^execute:.*>\/proc\/" "";
  RegExp.lit "^write:\/etc\/" "";
  RegExp.lit "^write:\/usr\/" "";
  RegExp.lit "^write:\/bin\/" "";
  RegExp.lit "^write:\/sbin\/" "";
  RegExp.lit "^write:\/boot\/" "";
  (* System paths (Windows) *)
  RegExp.lit "^write:[a-zA-Z]:\\Windows\\" "i";
  RegExp.lit "^write:[a-zA-Z]:\\Program Files" "i";
  RegExp.lit "^write:[a-zA-Z]:\\System" "i";
  (* Credential/secret files *)
  RegExp.lit "^write:.*\/\.env$" "";
  RegExp.lit "^write:.*\/\.env\.local$" "";
  RegExp.lit "^write:.*\/\.env\.production$" "";
  RegExp.lit "^write:.*\/\.ssh\/" "";
  RegExp.lit "^write:.*\/\.aws\/" "";
  RegExp.lit "^write:.*\/\.gcp\/" "";
  RegExp.lit "^write:.*\/\.azure\/" "";
  RegExp.lit "^write:.*\/credentials" "i";
  RegExp.lit "^write:.*\/secrets" "i";
  RegExp.lit "^write:.*\/\.netrc$" "";
  RegExp.lit "^write:.*\/\.npmrc$" "";
  RegExp.lit "^write:.*\/\.pypirc$" "";
  (* Dangerous patterns *)
  RegExp.lit "^execute:curl.*\|.*sh$" "";
  RegExp.lit "^execute:curl.*\|.*bash$" "";
  RegExp.lit "^execute:wget.*\|.*sh$" "";
  RegExp.lit "^execute:wget.*\|.*bash$" "";
  RegExp.lit "^execute:powershell.*-enc" "i";
  RegExp.lit "^execute:powershell.*downloadstring" "i";
  RegExp.lit "^execute:chmod 777" "";
  RegExp.lit "^execute:chmod -R 777" "";
  RegExp.lit "^execute:chown.*:.*\/" "";
  RegExp.lit "^execute:sudo " "";
  RegExp.lit "^execute:su " "";
  RegExp.lit "^execute:passwd" "";
  RegExp.lit "^execute:visudo" "";
  RegExp.lit "^execute:runas " "i";
  (* Network exfiltration patterns *)
  RegExp.lit "^execute:.*\| curl" "";
  RegExp.lit "^execute:.*\| nc " "";
  RegExp.lit "^execute:.*\| netcat" "";
  RegExp.lit "^execute:scp .* .*@.*:" "";
  RegExp.lit "^execute:rsync .* .*@.*:" "";
  (* Crypto/wallet *)
  RegExp.lit "^write:.*wallet" "i";
  RegExp.lit "^write:.*\.key$" "";
  RegExp.lit "^write:.*\.pem$" "";
  RegExp.lit "^write:.*private.*key" "i"
].

(** [Partial<ApprovalOracleConfig>]: every field may be missing. *)
Record PartialApprovalOracleConfig := {
  p_enabled : option bool;
  p_showRoutineApprovals : option bool;
  p_customAllowPatterns : option (list string);
  p_customDenyPatterns : option (list string)
}.

(** [patterns.map((p) => new RegExp(p))]: the first pattern that cannot be
    read throws. *)
Fixpoint compilePatterns (patterns : list string) : Result (list RegExp.t) :=
  match patterns with
  | [] => Ok []
  | p :: rest =>
      match RegExp.create p "" with
      | Throw e => Throw e
      | Ok re =>
          match compilePatterns rest with
          | Throw e => Throw e
          | Ok res => Ok (re :: res)
          end
      end
  end.

(** The constructor: the defaults overridden by [config], an empty cache, and
    the custom patterns appended behind the built-in ones (allow first, as in
    the source). *)
Definition new_ApprovalOracle (cfg : PartialApprovalOracleConfig) : Result ApprovalOracle :=
  let config := {| enabled := default true (p_enabled cfg);
                   showRoutineApprovals := default false (p_showRoutineApprovals cfg);
                   customAllowPatterns := default [] (p_customAllowPatterns cfg);
                   customDenyPatterns := default [] (p_customDenyPatterns cfg) |} in
  match compilePatterns (customAllowPatterns config) with
  | Throw e => Throw e
  | Ok allows =>
      match compilePatterns (customDenyPatterns config) with
      | Throw e => Throw e
      | Ok denies =>
          Ok {| persistedRules := ∅;
                config := config;
                INSTANT_ALLOW := default_INSTANT_ALLOW ++ allows;
                INSTANT_DENY := default_INSTANT_DENY ++ denies |}
      end
  end.

(** The chain of [replace] calls of [extractPattern], which turns a target
    into its generalized form. *)
Definition generalize (target : string) : string :=
  let t := RegExp.replace target (RegExp.lit "\\" "g") "/" in
  (* File extensions *)
  let t := RegExp.replace t
    (RegExp.lit "\/[^\/]+\.(ts|js|tsx|jsx|py|rb|go|rs|java|kt|json|yaml|yml|md|css|html)$" "i")
    "/*.$1" in
  (* Common directories *)
  let t := RegExp.replace t (RegExp.lit "\/node_modules\/.*" "") "/node_modules/*" in
  let t := RegExp.replace t (RegExp.lit "\/dist\/.*" "") "/dist/*" in
  let t := RegExp.replace t (RegExp.lit "\/build\/.*" "") "/build/*" in
  let t := RegExp.replace t (RegExp.lit "\/\.next\/.*" "") "/.next/*" in
  let t := RegExp.replace t (RegExp.lit "\/target\/.*" "") "/target/*" in
  let t := RegExp.replace t (RegExp.lit "\/vendor\/.*" "") "/vendor/*" in
  let t := RegExp.replace t (RegExp.lit "\/__pycache__\/.*" "") "/__pycache__/*" in
  (* Numbers (ports, IDs) *)
  let t := RegExp.replace t (RegExp.lit ":\d+" "") ":*" in
  RegExp.replace t (RegExp.lit "\/\d+" "g") "/*".

Definition extractPattern (request : ApprovalRequest) : string :=
  actionString (action request) +:+ ":" +:+ generalize (target request).

(** The string the matchers are tested on: the action and the target with
    its path separators normalized, not generalized. *)
Definition literalOf (request : ApprovalRequest) : string :=
  (* Normalize path separators for consistent matching *)
  let normalizedTarget := RegExp.replace (target request) (RegExp.lit "\\" "g") "/" in
  actionString (action request) +:+ ":" +:+ normalizedTarget.

Definition persistOfString (s : string) : option Persist :=
  if String.eqb s "once" then Some once
  else if String.eqb s "session" then Some session
  else if String.eqb s "always" then Some always
  else None.

Definition failOpen (why : string) : ApprovalDecision :=
  {| allow := true; persist := once; reasoning := why |}.

(** [text.replace(/```json\n?|\n?```/g, "").trim()]: the reply without its
    code fence. *)
Definition cleanText (text : string) : string :=
  Js.trim (RegExp.replace text (RegExp.lit "```json\n?|\n?```" "g") "").

Section Engine.

(** [this.client.messages.create]: the adjudicator.  Its reply may depend on
    everything that was sent to it before; it may also throw. *)
Variable client_messages_create :
  list MessageCreateParams -> MessageCreateParams -> Result Message.

(** [JSON.parse], which throws a SyntaxError on text that is not JSON. *)
Variable JSON_parse : string -> Result JsValue.

(** [response.content[0]?.text || ""]. *)
Definition responseText (response : Message) : string :=
  match blocks response with
  | b :: _ => match text b with Some t => t | None => "" end
  | [] => ""
  end.

(** The body of the [try] block of [parseResponse]. *)
Definition parseBody (response : Message) : Result ApprovalDecision :=
  let clean := cleanText (responseText response) in
  match JSON_parse clean with
  | Throw e => Throw e
  | Ok parsed =>
      (* Validate structure *)
      match getProp parsed "allow" with
      | Throw e => Throw e
      | Ok (Some (JBool a)) =>
          let p :=
            match getProp parsed "persist" with
            | Ok (Some (JString s)) => default once (persistOfString s)
            | _ => once
            end in
          let r :=
            match getProp parsed "reasoning" with
            | Ok (Some (JString s)) => s
            | _ => "No reason provided"
            end in
          Ok {| allow := a; persist := p; reasoning := r |}
      | Ok _ => Throw "Missing allow field"
      end
  end.

Definition parseResponse (response : Message) : ApprovalDecision :=
  match parseBody response with
  | Ok parsed => parsed
  | Throw _ => failOpen "Parse failed, allowing once"
  end.

Definition askOpusSystem : string :=
  "You approve/deny actions for an autonomous coding agent.

Principles:
- Optimize for efficiency. Prefer " +:+ Js.dq +:+ "always" +:+ Js.dq +:+ " for recurring safe patterns.
- Use " +:+ Js.dq +:+ "once" +:+ Js.dq +:+ " for sensitive or one-off actions.
- Deny genuinely dangerous actions: credential access, system modification, data exfiltration.
- When uncertain, allow with " +:+ Js.dq +:+ "once" +:+ Js.dq +:+ ".
- Be concise.

Respond ONLY with valid JSON, no markdown:
{" +:+ Js.dq +:+ "allow" +:+ Js.dq +:+ ":true," +:+ Js.dq +:+ "persist" +:+ Js.dq +:+ ":"
   +:+ Js.dq +:+ "always" +:+ Js.dq +:+ "," +:+ Js.dq +:+ "reasoning" +:+ Js.dq +:+ ":"
   +:+ Js.dq +:+ "brief reason" +:+ Js.dq +:+ "}".

Definition askOpusParams (request : ApprovalRequest) (pattern : string) : MessageCreateParams :=
  {| model := "claude-opus-4-5-20251101";
     max_tokens := 300;
     system := askOpusSystem;
     messages := [ {| role := "user";
                      content := "Action: " +:+ actionString (action request) +:+ "
Target: " +:+ target request +:+ "
Context: " +:+ context request +:+ "
Generalized pattern: " +:+ pattern +:+ "

Decide." |} ] |}.

(** [await this.client.messages.create(params)]. *)
Definition callClient (params : MessageCreateParams) : M World Message :=
  fun w => (client_messages_create (sent w) params, recordSent params w).

Definition askOpus (request : ApprovalRequest) (pattern : string) : M World ApprovalDecision :=
  catch
    (let* response := callClient (askOpusParams request pattern) in
     let decision := parseResponse response in
     let* _ := (if Persist_eqb (persist decision) always
                then modify (setRule pattern (allow decision))
                else ret tt) in
     ret decision)%js
    (fun error =>
       (* On API error, allow once (fail open for usability) *)
       (let* _ := modify (logError ("ApprovalOracle API error: " +:+ error)) in
        ret (failOpen "API error, allowing once"))%js).

Definition decide (request : ApprovalRequest) : M World ApprovalDecision :=
  let pattern := extractPattern request in
  let literal := literalOf request in
  (let* rules := gets (fun w => persistedRules (this w)) in
   (* Check persisted rules first *)
   match rules !! pattern with
   | Some cached =>
       ret {| allow := cached; persist := always; reasoning := "Cached rule" |}
   | None =>
       let* denies := gets (fun w => INSTANT_DENY (this w)) in
       let* allows := gets (fun w => INSTANT_ALLOW (this w)) in
       (* Fast-path deny (check first for security) *)
       if existsb (fun re => RegExp.test re literal) denies then
         let* _ := modify (setRule pattern false) in
         ret {| allow := false; persist := always; reasoning := "Blocked pattern" |}
       (* Fast-path allow *)
       else if existsb (fun re => RegExp.test re literal) allows then
         let* _ := modify (setRule pattern true) in
         ret {| allow := true; persist := always; reasoning := "Safe pattern" |}
       (* Opus decides ambiguous cases *)
       else askOpus request pattern
   end)%js.

(** Public API for debugging/UI *)
Definition getPersistedRules (w : World) : gmap string bool := persistedRules (this w).

Definition clearPersistedRules : M World unit :=
  modify (fun w => {| this := {| persistedRules := ∅;
                                 config := config (this w);
                                 INSTANT_ALLOW := INSTANT_ALLOW (this w);
                                 INSTANT_DENY := INSTANT_DENY (this w) |};
                      sent := sent w; console := console w |}).

Definition exportRules (w : World) : gmap string bool := persistedRules (this w).

(** [importRules] sets every entry of [rules], keeping what else is cached. *)
Definition importRules (rules : gmap string bool) : M World unit :=
  modify (fun w => {| this := {| persistedRules := rules ∪ persistedRules (this w);
                                 config := config (this w);
                                 INSTANT_ALLOW := INSTANT_ALLOW (this w);
                                 INSTANT_DENY := INSTANT_DENY (this w) |};
                      sent := sent w; console := console w |}).

(** [decide] called on each request of a list in turn, errors aside (there
    are none, see [decide_decides]): the world afterwards. *)
Fixpoint decideAll (requests : list ApprovalRequest) (w : World) : World :=
  match requests with
  | [] => w
  | request :: rest => decideAll rest (snd (decide request w))
  end.

(** [ArchitectOrchestrator.requestApproval]: the request goes to the engine
    when one is configured ([approvalOracle] is its world) and is allowed once
    otherwise. *)
Definition requestApproval (approvalOracle : option World) (action : Action)
    (target context : string) : Result ApprovalDecision * option World :=
  match approvalOracle with
  | None =>
      (* No oracle, auto-approve *)
      (Ok {| allow := true; persist := once; reasoning := "Oracle disabled" |}, None)
  | Some w =>
      let '(r, w') := decide {| action := action; target := target; context := context;
                               previousDecisions := ∅ |} w in
      (r, Some w')
  end.

End Engine.

(** *** Adjudicators and requests the examples use *)

Definition quoted (s : string) : string := Js.dq +:+ s +:+ Js.dq.

(** The JSON text of a reply: an object with the three members. *)
Definition replyText (allow persist reasoning : string) : string :=
  "{" +:+ quoted "allow" +:+ ":" +:+ allow +:+ ","
      +:+ quoted "persist" +:+ ":" +:+ quoted persist +:+ ","
      +:+ quoted "reasoning" +:+ ":" +:+ quoted reasoning +:+ "}".

(** An adjudicator whose every reply is one text block. *)
Definition replying (reply : string) : list MessageCreateParams -> MessageCreateParams -> Result Message :=
  fun _ _ => Ok {| blocks := [ {| text := Some reply |} ] |}.

(** An adjudicator that cannot be reached. *)
Definition unreachable : list MessageCreateParams -> MessageCreateParams -> Result Message :=
  fun _ _ => Throw "Connection error.".

Definition requestOf (a : Action) (t : string) : ApprovalRequest :=
  {| action := a; target := t; context := "..."; previousDecisions := ∅ |}.

(** ** [JSON.parse]

    A reader for JSON texts over 8-bit characters, used where a concrete
    adjudicator reply is evaluated.  Numbers are kept as their lexeme; a
    [\u] escape above U+00FF has no 8-bit character and is refused. *)

Module Json.

Local Open Scope char_scope.

Definition isWs (c : ascii) : bool :=
  Ascii.eqb c " " || (Js.code c =? 9)%N || (Js.code c =? 10)%N || (Js.code c =? 13)%N.

Fixpoint skipWs (s : list ascii) : list ascii :=
  match s with
  | c :: s' => if isWs c then skipWs s' else s
  | [] => []
  end.

Definition hexVal (c : ascii) : option N :=
  if Js.isDigit c then Some (Js.code c - 48)%N
  else if Js.between 97 102 c then Some (Js.code c - 87)%N
  else if Js.between 65 70 c then Some (Js.code c - 55)%N
  else None.

(** The characters of a string literal behind its opening quote. *)
Fixpoint stringBody (s : list ascii) : option (list ascii * list ascii) :=
  match s with
  | [] => None
  | c :: s' =>
      if (Js.code c =? 34)%N then Some ([], s')
      else if (Js.code c <? 32)%N then None
      else if Ascii.eqb c "\" then
        match s' with
        | "u" :: h1 :: h2 :: h3 :: h4 :: s'' =>
            a ← hexVal h1; b ← hexVal h2; c3 ← hexVal h3; d ← hexVal h4;
            if ((a =? 0) && (b =? 0))%N then
              '(body, rest) ← stringBody s'';
              Some (ascii_of_N (16 * c3 + d) :: body, rest)
            else None
        | x :: s'' =>
            e ← (if (Js.code x =? 34)%N then Some x
                 else if Ascii.eqb x "\" then Some x
                 else if Ascii.eqb x "/" then Some x
                 else if Ascii.eqb x "b" then Some (ascii_of_N 8)
                 else if Ascii.eqb x "f" then Some (ascii_of_N 12)
                 else if Ascii.eqb x "n" then Some (ascii_of_N 10)
                 else if Ascii.eqb x "r" then Some (ascii_of_N 13)
                 else if Ascii.eqb x "t" then Some (ascii_of_N 9)
                 else None);
            '(body, rest) ← stringBody s'';
            Some (e :: body, rest)
        | [] => None
        end
      else '(body, rest) ← stringBody s'; Some (c :: body, rest)
  end.

Fixpoint digits (s : list ascii) : list ascii * list ascii :=
  match s with
  | c :: s' => if Js.isDigit c then let '(d, r) := digits s' in (c :: d, r) else ([], s)
  | [] => ([], [])
  end.

(** A number: [-]? int frac? exp?. *)
Definition number (s : list ascii) : option (list ascii * list ascii) :=
  let '(sign, s1) := match s with "-" :: s' => (["-"], s') | _ => ([], s) end in
  '(int, s2) ← match s1 with
                | "0" :: s' => Some (["0"], s')
                | _ => match digits s1 with ([], _) => None | r => Some r end
                end;
  '(frac, s3) ← match s2 with
                 | "." :: s' => match digits s' with ([], _) => None | (d, r) => Some ("." :: d, r) end
                 | _ => Some ([], s2)
                 end;
  '(exp, s4) ← match s3 with
                | e :: s' =>
                    if Ascii.eqb e "e" || Ascii.eqb e "E" then
                      let '(sg, s'') := match s' with
                                        | "+" :: t => (["+"], t)
                                        | "-" :: t => (["-"], t)
                                        | _ => ([], s')
                                        end in
                      match digits s'' with ([], _) => None | (d, r) => Some (e :: sg ++ d, r) end
                    else Some ([], s3)
                | [] => Some ([], s3)
                end;
  Some (sign ++ int ++ frac ++ exp, s4).

Definition keyword (k : string) (s : list ascii) : option (list ascii) :=
  if Js.prefixb (Js.chars k) s then Some (drop (String.length k) s) else None.

(** One JSON value, with the white space around it. *)
Fixpoint value (fuel : nat) (s : list ascii) : option (JsValue * list ascii) :=
  match fuel with
  | O => None
  | S fuel' =>
      '(v, rest) ←
        match skipWs s with
        | [] => None
        | c :: s' =>
            if (Js.code c =? 34)%N then
              '(body, rest) ← stringBody s'; Some (JString (Js.str body), rest)
            else if Ascii.eqb c "[" then
              match skipWs s' with
              | "]" :: rest => Some (JArray [], rest)
              | _ => '(items, rest) ← elements fuel' s'; Some (JArray items, rest)
              end
            else if Ascii.eqb c "{" then
              match skipWs s' with
              | "}" :: rest => Some (JObject [], rest)
              | _ => '(props, rest) ← members fuel' s'; Some (JObject props, rest)
              end
            else if Ascii.eqb c "t" then rest ← keyword "rue" s'; Some (JBool true, rest)
            else if Ascii.eqb c "f" then rest ← keyword "alse" s'; Some (JBool false, rest)
            else if Ascii.eqb c "n" then rest ← keyword "ull" s'; Some (JNull, rest)
            else '(lexeme, rest) ← number (c :: s'); Some (JNumber (Js.str lexeme), rest)
        end;
      Some (v, skipWs rest)
  end
with elements (fuel : nat) (s : list ascii) : option (list JsValue * list ascii) :=
  match fuel with
  | O => None
  | S fuel' =>
      '(v, s1) ← value fuel' s;
      match s1 with
      | "," :: s2 => '(vs, s3) ← elements fuel' s2; Some (v :: vs, s3)
      | "]" :: s2 => Some ([v], s2)
      | _ => None
      end
  end
with members (fuel : nat) (s : list ascii) : option (list (string * JsValue) * list ascii) :=
  match fuel with
  | O => None
  | S fuel' =>
      match skipWs s with
      | q :: s1 =>
          if (Js.code q =? 34)%N then
            '(k, s2) ← stringBody s1;
            match skipWs s2 with
            | ":" :: s3 =>
                '(v, s4) ← value fuel' s3;
                match s4 with
                | "," :: s5 => '(ps, s6) ← members fuel' s5; Some ((Js.str k, v) :: ps, s6)
                | "}" :: s5 => Some ([(Js.str k, v)], s5)
                | _ => None
                end
            | _ => None
            end
          else None
      | [] => None
      end
  end.

Definition parse (text : string) : Result JsValue :=
  match value (S (String.length text)) (Js.chars text) with
  | Some (v, []) => Ok v
  | _ => Throw "SyntaxError: Unexpected token in JSON"
  end.

End Json.

(** ** cline-extended/src/core/persona/PersonaLoader.ts *)

Module PersonaLoader.

Inductive Role := architect | editor.
Inductive ApplyTo := toArchitect | toEditor | both.
Inductive Position := prepend | append.

Record PersonaConfig := {
  enabled : bool;
  markdown : string;
  applyTo : ApplyTo;
  position : Position
}.

Definition isEmpty (s : string) : bool :=
  match s with EmptyString => true | String _ _ => false end.

(** Inject persona into system prompt *)
Definition inject (systemPrompt persona : string) (position : Position) : string :=
  if isEmpty (Js.trim persona) then systemPrompt
  else
    let wrapped := "<persona>
" +:+ Js.trim persona +:+ "
</persona>" in
    match position with
    | prepend => wrapped +:+ "

" +:+ systemPrompt
    | append => systemPrompt +:+ "

" +:+ wrapped
    end.

Definition applies (a : ApplyTo) (r : Role) : bool :=
  match a, r with
  | toArchitect, architect | toEditor, editor | both, _ => true
  | _, _ => false
  end.

(** Inject persona based on config *)
Definition injectFromConfig (systemPrompt : string) (config : option PersonaConfig)
    (role : Role) : string :=
  match config with
  | None => systemPrompt
  | Some c =>
      if negb (enabled c) || isEmpty (markdown c) then systemPrompt
      else if applies (applyTo c) role then inject systemPrompt (markdown c) (position c)
      else systemPrompt
  end.

End PersonaLoader.

(** ** The advisory collaborator

    [ArchitectureAnalyzer] reads the workspace and YAML files; the
    orchestrator uses two of its methods, taken here as given.  The answer of
    [analyzeChange] may depend on when it is asked ([now] counts the role calls
    made so far), and it may throw. *)

Record ArchitectureReview := {
  needsReview : bool;
  signals : list string;
  recommendation : string;
  options : list string
}.

Record ArchitectureAnalyzer := {
  getTypesContext : string;
  analyzeChange : nat -> string -> string -> Result ArchitectureReview
}.

(** ** shared/architect-types: the orchestration types *)

Inductive Phase := planning | implementing | evaluating | complete | failed.

Record ArchitectState := {
  phase : Phase;
  currentIteration : Z;
  plan : option string;
  implementation : option string;
  evaluation : option string;
  thinkingContent : option string
}.

Inductive ArchitectUpdate :=
| phase_update (phase : Phase) (iteration : Z)
| thinking_update (content : string)
| plan_update (content : string) (thinking : string)
| implementation_update (content : string)
| evaluation_update (content : string) (thinking : string)
| approval_request_update (action : string) (target : string) (decision : ApprovalDecision)
| architecture_review_update (message : string) (options : list string)
| complete_update (iterations : Z)
| max_iterations_update (iterations : Z).

(** The fields of [ArchitectConfig] the orchestration loop reads (the model
    and provider identifiers and the token budgets only configure the role
    backends). *)
Record ArchitectConfig := {
  maxIterations : Z;
  persona : option PersonaLoader.PersonaConfig
}.

(** ** The role backends *)

Inductive Handler := architectHandler | editorHandler.

(** A chunk of the stream [createMessage] returns; the orchestrator keeps the
    text and reasoning chunks and skips the others (usage reports). *)
Inductive ApiStreamChunk :=
| text_chunk (text : string)
| reasoning_chunk (reasoning : string)
| other_chunk.

Inductive Block :=
| text_block (text : string)
| thinking_block (thinking : string).

Record RoleCall := {
  handler : Handler;
  systemPrompt : string;
  history : list MessageParam
}.

(** ** cline-extended/src/core/architect/ArchitectOrchestrator.ts *)

(** What a run can read and change: the orchestrator's [state], the role
    calls made so far (oldest first) and the updates yielded so far. *)
Record RunState := {
  state : ArchitectState;
  calls : list RoleCall;
  emitted : list ArchitectUpdate
}.

Definition initialState : ArchitectState :=
  {| phase := planning;
     currentIteration := 0;
     plan := None;
     implementation := None;
     evaluation := None;
     thinkingContent := None |}.

Definition setState (f : ArchitectState -> ArchitectState) : M RunState unit :=
  modify (fun s => {| state := f (state s); calls := calls s; emitted := emitted s |}).

(** [yield update]. *)
Definition yield (u : ArchitectUpdate) : M RunState unit :=
  modify (fun s => {| state := state s; calls := calls s; emitted := emitted s ++ [u] |}).

Definition setPhase (p : Phase) (st : ArchitectState) : ArchitectState :=
  {| phase := p; currentIteration := currentIteration st; plan := plan st;
     implementation := implementation st; evaluation := evaluation st;
     thinkingContent := thinkingContent st |}.

Definition incrementIteration (st : ArchitectState) : ArchitectState :=
  {| phase := phase st; currentIteration := currentIteration st + 1; plan := plan st;
     implementation := implementation st; evaluation := evaluation st;
     thinkingContent := thinkingContent st |}.

Definition setPlan (content thinking : string) (st : ArchitectState) : ArchitectState :=
  {| phase := phase st; currentIteration := currentIteration st; plan := Some content;
     implementation := implementation st; evaluation := evaluation st;
     thinkingContent := Some thinking |}.

Definition setImplementation (content : string) (st : ArchitectState) : ArchitectState :=
  {| phase := phase st; currentIteration := currentIteration st; plan := plan st;
     implementation := Some content; evaluation := evaluation st;
     thinkingContent := thinkingContent st |}.

Definition setEvaluation (content : string) (st : ArchitectState) : ArchitectState :=
  {| phase := phase st; currentIteration := currentIteration st; plan := plan st;
     implementation := implementation st; evaluation := Some content;
     thinkingContent := thinkingContent st |}.

Definition planSystemPrompt : string :=
  "You are the Architect. Your role is to reason deeply about the task and produce a detailed implementation plan.

You will NOT write code. You will:
1. Analyze the task requirements thoroughly
2. Identify the files that need to be created or modified
3. Specify the exact changes needed in each file
4. Anticipate edge cases and failure modes
5. Provide clear, unambiguous instructions for the Editor

Your plan will be passed to a separate Editor model that will implement it.
The Editor cannot see your thinking process, only your final plan.
Be precise and explicit.

Format your plan as:
## Analysis
[Your understanding of the task]

## Files to Modify
[List each file with what needs to change]

## Implementation Steps
[Numbered steps the Editor should follow]

## Edge Cases
[What could go wrong and how to handle it]

## Acceptance Criteria
[How to verify the implementation is correct]".

Definition editorSystemPrompt : string :=
  "You are the Editor. Your role is to implement the Architect's plan precisely.

You will:
1. Follow the plan exactly as specified
2. Write clean, working code
3. Make only the changes specified in the plan
4. Include all necessary imports and dependencies
5. Handle the edge cases mentioned in the plan

If the plan is ambiguous on a specific point, make your best judgment and note it clearly.

Output your implementation as a series of file changes:

<file path=" +:+ Js.dq +:+ "path/to/file.ts" +:+ Js.dq +:+ ">
[complete file contents]
</file>

<file path=" +:+ Js.dq +:+ "path/to/other.ts" +:+ Js.dq +:+ ">
[complete file contents]
</file>

Include the complete file contents, not diffs.".

Definition evaluateSystemPrompt (architectureContext : string) : string :=
  "You are the Architect reviewing the Editor's implementation.

Evaluate thoroughly:
1. Does the implementation match the plan?
2. Does it satisfy the original task requirements?
3. Are there bugs, edge cases, or issues?
4. Is the code clean, maintainable, and follows best practices?
5. Are naming conventions consistent?
6. Are all acceptance criteria met?

" +:+ architectureContext +:+ "

If the implementation is acceptable, respond starting with: " +:+ Js.dq +:+ "APPROVED: " +:+ Js.dq +:+ " followed by a brief summary.

If changes are needed, respond starting with: " +:+ Js.dq +:+ "REVISION NEEDED: " +:+ Js.dq +:+ " followed by:
- Specific issues found
- Exact corrections required
- Any clarifications to the plan".

Definition isComplete (evaluation : string) : bool :=
  let normalized := Js.toUpperCase (Js.trim evaluation) in
  Js.startsWith normalized "APPROVED".

Definition updateContext (context implementation evaluation : string) : string :=
  context +:+ "

---

## Previous Iteration

### Implementation Attempt
" +:+ implementation +:+ "

### Architect Feedback
" +:+ evaluation +:+ "

---

Address the feedback above in the next iteration.".

Definition extractThinkingAndContent (response : list Block) : string * string :=
  foldl (fun '(thinking, content) block =>
           match block with
           | thinking_block t => (thinking +:+ t, content)
           | text_block t => (thinking, content +:+ t)
           end) ("", "") response.

Definition extractContent (response : list Block) : string :=
  String.concat ""
    (omap (fun b => match b with text_block t => Some t | thinking_block _ => None end)
          response).

(** The pattern of [reviewArchitecture], with its two groups: the path and
    the contents of a file element. *)
Definition filePattern : RegExp.t :=
  RegExp.lit ("<file path=" +:+ Js.dq +:+ "([^" +:+ Js.dq +:+ "]+)" +:+ Js.dq
              +:+ ">([\s\S]*?)<\/file>") "g".

Definition issueText (filePath : string) (review : ArchitectureReview) : string :=
  filePath +:+ ":
  Signals: " +:+ String.concat ", " (signals review) +:+ "
  Recommendation: " +:+ recommendation review.

(** The blocks [collectStreamResponse] collects from a stream: text and
    reasoning chunks, in their order. *)
Definition blocksOf (stream : list ApiStreamChunk) : list Block :=
  omap (fun chunk =>
          match chunk with
          | text_chunk t => Some (text_block t)
          | reasoning_chunk r => Some (thinking_block r)
          | other_chunk => None
          end) stream.

Definition recordCall (call : RoleCall) (s : RunState) : RunState :=
  {| state := state s; calls := calls s ++ [call]; emitted := emitted s |}.

Section Orchestrator.

(** [handler.createMessage(systemPrompt, messages)], drained to its end: the
    chunks of the stream, or the exception the call or the stream throws.
    The answer may depend on the calls made before. *)
Variable createMessage : list RoleCall -> RoleCall -> Result (list ApiStreamChunk).

Variable config : ArchitectConfig.
Variable architectureAnalyzer : option ArchitectureAnalyzer.

Definition collectStreamResponse (h : Handler) (systemPrompt : string)
    (messages : list MessageParam) : M RunState (list Block) :=
  fun s =>
    let call := {| handler := h; systemPrompt := systemPrompt; history := messages |} in
    match createMessage (calls s) call with
    | Throw e => (Throw e, recordCall call s)
    | Ok stream => (Ok (blocksOf stream), recordCall call s)
    end.

(** The system prompt and the message of [architectPlan]. *)
Definition planSystem : string :=
  (* Inject persona if configured for architect *)
  PersonaLoader.injectFromConfig planSystemPrompt (persona config) PersonaLoader.architect.

Definition planMessages (task context : string) : list MessageParam :=
  [ {| role := "user"; content := "Context:
" +:+ context +:+ "

Task:
" +:+ task +:+ "

Provide your implementation plan." |} ].

Definition architectPlan (task context : string) : M RunState (string * string) :=
  (let* response :=
     collectStreamResponse architectHandler planSystem (planMessages task context) in
   ret (extractThinkingAndContent response))%js.

(** The system prompt and the message of [editorImplement]. *)
Definition editorSystem : string :=
  (* Inject persona if configured for editor *)
  PersonaLoader.injectFromConfig editorSystemPrompt (persona config) PersonaLoader.editor.

Definition editorMessages (plan context : string) : list MessageParam :=
  [ {| role := "user"; content := "Context:
" +:+ context +:+ "

---

Architect's Plan:
" +:+ plan +:+ "

Implement this plan now." |} ].

Definition editorImplement (plan context : string) : M RunState string :=
  (let* response :=
     collectStreamResponse editorHandler editorSystem (editorMessages plan context) in
   ret (extractContent response))%js.

(** The system prompt and the message of [architectEvaluate]. *)
Definition evaluateSystem : string :=
  (* Get architecture context if available *)
  let architectureContext :=
    match architectureAnalyzer with
    | Some analyzer =>
        if PersonaLoader.isEmpty (getTypesContext analyzer) then ""
        else "

" +:+ getTypesContext analyzer +:+ "

Verify the implementation follows these type definitions and naming conventions."
    | None => ""
    end in
  (* Inject persona if configured for architect *)
  PersonaLoader.injectFromConfig (evaluateSystemPrompt architectureContext)
    (persona config) PersonaLoader.architect.

Definition evaluateMessages (task plan implementation context : string) : list MessageParam :=
  [ {| role := "user"; content := "Original Task:
" +:+ task +:+ "

---

Plan:
" +:+ plan +:+ "

---

Implementation:
" +:+ implementation +:+ "

---

Context:
" +:+ context +:+ "

Evaluate the implementation." |} ].

Definition architectEvaluate (task plan implementation context : string)
    : M RunState (string * string) :=
  (let* response :=
     collectStreamResponse architectHandler evaluateSystem
       (evaluateMessages task plan implementation context) in
   ret (extractThinkingAndContent response))%js.

(** The loop of [reviewArchitecture] over the file elements found; [now] is
    the number of role calls made so far. *)
Fixpoint collectIssues (analyzer : ArchitectureAnalyzer) (now : nat)
    (found : list RegExp.Match) : Result (list string) :=
  match found with
  | [] => Ok []
  | mt :: rest =>
      let filePath := Js.str (default [] (RegExp.capture (RegExp.captures mt) 1)) in
      let content := Js.str (default [] (RegExp.capture (RegExp.captures mt) 2)) in
      match analyzeChange analyzer now filePath content with
      | Throw e => Throw e
      | Ok review =>
          match collectIssues analyzer now rest with
          | Throw e => Throw e
          | Ok issues =>
              Ok (if needsReview review then issueText filePath review :: issues else issues)
          end
      end
  end.

(** [reviewArchitecture] at a given moment. *)
Definition architectureReview (now : nat) (implementation : string)
    : Result (option ArchitectUpdate) :=
  match architectureAnalyzer with
  | None => Ok None
  | Some analyzer =>
      (* Parse implementation to find file paths and contents *)
      match collectIssues analyzer now (RegExp.execAll filePattern implementation) with
      | Throw e => Throw e
      | Ok [] => Ok None
      | Ok (issue :: issues) =>
          Ok (Some (architecture_review_update
                      ("Architectural concerns detected:

" +:+ String.concat "

" (issue :: issues))
                      ["Proceed with current implementation"; "Revise to address concerns"]))
      end
  end.

Definition reviewArchitecture (implementation : string) : M RunState (option ArchitectUpdate) :=
  (let* now := gets (fun s => length (calls s)) in
   lift (architectureReview now implementation))%js.

(** How a pass of the loop ends: with [return] after the completion update,
    or at the end of the loop body with the context for the next pass. *)
Inductive PassResult :=
| Converged
| Continue (codebaseContext : string).

Definition iterationNow : M RunState Z := gets (fun s => currentIteration (state s)).

(** The body of the [while] loop of [run]. *)
Definition pass (task codebaseContext : string) : M RunState PassResult :=
  (let* _ := setState incrementIteration in

   (* Phase 1: Architect plans *)
   let* _ := setState (setPhase planning) in
   let* iteration := iterationNow in
   let* _ := yield (phase_update planning iteration) in
   let* plan := architectPlan task codebaseContext in
   let plan_thinking := fst plan in
   let plan_content := snd plan in
   let* _ := setState (setPlan plan_content plan_thinking) in
   let* _ := (if PersonaLoader.isEmpty plan_thinking then ret tt
              else yield (thinking_update plan_thinking)) in
   let* _ := yield (plan_update plan_content plan_thinking) in

   (* Phase 2: Editor implements *)
   let* _ := setState (setPhase implementing) in
   let* iteration := iterationNow in
   let* _ := yield (phase_update implementing iteration) in
   let* implementation := editorImplement plan_content codebaseContext in
   let* _ := setState (setImplementation implementation) in
   let* _ := yield (implementation_update implementation) in

   (* Phase 2.5: Architecture review (if enabled) *)
   let* review := reviewArchitecture implementation in
   let* _ := match review with Some u => yield u | None => ret tt end in

   (* Phase 3: Architect evaluates *)
   let* _ := setState (setPhase evaluating) in
   let* iteration := iterationNow in
   let* _ := yield (phase_update evaluating iteration) in
   let* evaluation := architectEvaluate task plan_content implementation codebaseContext in
   let evaluation_thinking := fst evaluation in
   let evaluation_content := snd evaluation in
   let* _ := setState (setEvaluation evaluation_content) in
   let* _ := (if PersonaLoader.isEmpty evaluation_thinking then ret tt
              else yield (thinking_update evaluation_thinking)) in
   let* _ := yield (evaluation_update evaluation_content evaluation_thinking) in

   (* Check if complete *)
   if isComplete evaluation_content then
     let* _ := setState (setPhase complete) in
     let* iteration := iterationNow in
     let* _ := yield (complete_update iteration) in
     ret Converged
   else
     (* Feed evaluation back for next iteration *)
     ret (Continue (updateContext codebaseContext implementation evaluation_content)))%js.

(** What follows the loop: the budget is used up. *)
Definition exhausted : M RunState unit :=
  (let* _ := setState (setPhase failed) in
   let* iteration := iterationNow in
   yield (max_iterations_update iteration))%js.

(** The [while] loop of [run].  [fuel] bounds the number of passes; [None]
    means the bound was too small ([run] gives enough, see [run_total]). *)
Fixpoint runLoop (fuel : nat) (task codebaseContext : string) (s : RunState)
    : option (Result unit * RunState) :=
  if (currentIteration (state s) <? maxIterations config)%Z then
    match fuel with
    | O => None
    | S fuel' =>
        match pass task codebaseContext s with
        | (Throw e, s') => Some (Throw e, s')
        | (Ok Converged, s') => Some (Ok tt, s')
        | (Ok (Continue codebaseContext'), s') => runLoop fuel' task codebaseContext' s'
        end
    end
  else Some (exhausted s).

(** Inject types context if available *)
Definition withTypesContext (codebaseContext : string) : string :=
  match architectureAnalyzer with
  | Some analyzer =>
      if PersonaLoader.isEmpty (getTypesContext analyzer) then codebaseContext
      else getTypesContext analyzer +:+ "

" +:+ codebaseContext
  | None => codebaseContext
  end.

(** [run(task, codebaseContext)], consumed to its end: the updates it yields
    are collected in [emitted]; [Throw] is an exception that leaves the
    generator. *)
Definition run (task codebaseContext : string) (s : RunState)
    : option (Result unit * RunState) :=
  runLoop (Z.to_nat (maxIterations config - currentIteration (state s)))
          task (withTypesContext codebaseContext) s.

(** Expose state for UI *)
Definition getState (s : RunState) : ArchitectState := state s.

End Orchestrator.

(** A newly constructed orchestrator that has made no call and yielded
    nothing. *)
Definition newRun : RunState :=
  {| state := initialState; calls := []; emitted := [] |}.

(** ** webview-ui: the Max Iterations field of ArchitectModeSection

    [parseInt(e.target.value) || 5] and then
    [Math.max(1, Math.min(10, val))]; [None] is the [NaN] that [parseInt]
    returns for text that does not start with a number. *)
Definition maxIterationsOnChange (parsed : option Z) : Z :=
  let val : Z := match parsed with
                 | None => 5
                 | Some v => if v =? 0 then 5 else v
                 end%Z in
  Z.max 1 (Z.min 10 val).

Definition noConfig : PartialApprovalOracleConfig :=
  {| p_enabled := None; p_showRoutineApprovals := None;
     p_customAllowPatterns := None; p_customDenyPatterns := None |}.

(** The engine [new ApprovalOracle(apiKey)] builds: default rules, empty
    cache, no custom patterns. *)
Definition freshOracle : ApprovalOracle :=
  {| persistedRules := ∅;
     config := {| enabled := true; showRoutineApprovals := false;
                  customAllowPatterns := []; customDenyPatterns := [] |};
     INSTANT_ALLOW := default_INSTANT_ALLOW;
     INSTANT_DENY := default_INSTANT_DENY |}.

Definition freshWorld : World := {| this := freshOracle; sent := []; console := [] |}.

(** A request reaches the adjudicator when its Pattern is not cached and its
    literal matches neither list. *)
Definition escalates (request : ApprovalRequest) (w : World) : Prop :=
  persistedRules (this w) !! extractPattern request = None
  /\ existsb (fun re => RegExp.test re (literalOf request)) (INSTANT_DENY (this w)) = false
  /\ existsb (fun re => RegExp.test re (literalOf request)) (INSTANT_ALLOW (this w)) = false.

(** A reply fails to parse when its text, the code fence taken off, is not
    JSON, or is JSON without a boolean [allow]. *)
Definition parseFails (JSON_parse : string -> Result JsValue) (response : Message) : Prop :=
  let clean := cleanText (responseText response) in
  (exists e, JSON_parse clean = Throw e)
  \/ (exists parsed, JSON_parse clean = Ok parsed
                     /\ forall a, getProp parsed "allow" <> Ok (Some (JBool a))).

(** The paths through [decide]: it takes one of six, told apart by the cache,
    the matcher lists and the adjudicator (see [decide_decides]). *)
Section Paths.

Variable client : list MessageCreateParams -> MessageCreateParams -> Result Message.
Variable JSON_parse : string -> Result JsValue.

Inductive decides (request : ApprovalRequest) (w : World)
    : ApprovalDecision -> World -> Prop :=
| path_cached cached :
    persistedRules (this w) !! extractPattern request = Some cached ->
    decides request w
      {| allow := cached; persist := always; reasoning := "Cached rule" |} w
| path_denied :
    persistedRules (this w) !! extractPattern request = None ->
    existsb (fun re => RegExp.test re (literalOf request)) (INSTANT_DENY (this w)) = true ->
    decides request w
      {| allow := false; persist := always; reasoning := "Blocked pattern" |}
      (setRule (extractPattern request) false w)
| path_allowed :
    persistedRules (this w) !! extractPattern request = None ->
    existsb (fun re => RegExp.test re (literalOf request)) (INSTANT_DENY (this w)) = false ->
    existsb (fun re => RegExp.test re (literalOf request)) (INSTANT_ALLOW (this w)) = true ->
    decides request w
      {| allow := true; persist := always; reasoning := "Safe pattern" |}
      (setRule (extractPattern request) true w)
| path_api_error e :
    escalates request w ->
    client (sent w) (askOpusParams request (extractPattern request)) = Throw e ->
    decides request w (failOpen "API error, allowing once")
      (logError ("ApprovalOracle API error: " +:+ e)
                (recordSent (askOpusParams request (extractPattern request)) w))
| path_answer_kept response :
    escalates request w ->
    client (sent w) (askOpusParams request (extractPattern request)) = Ok response ->
    persist (parseResponse JSON_parse response) = always ->
    decides request w (parseResponse JSON_parse response)
      (setRule (extractPattern request) (allow (parseResponse JSON_parse response))
               (recordSent (askOpusParams request (extractPattern request)) w))
| path_answer_once response :
    escalates request w ->
    client (sent w) (askOpusParams request (extractPattern request)) = Ok response ->
    persist (parseResponse JSON_parse response) <> always ->
    decides request w (parseResponse JSON_parse response)
      (recordSent (askOpusParams request (extractPattern request)) w).

End Paths.

(** *** The updates of one cycle

    One Planning/Implementing/Evaluating cycle of iteration [n], as a
    consumer of [run] sees it: the three phase updates in order, each followed
    by what the phase produced; a thinking update only for a non-empty
    reasoning trace, an advisory update only when the analyzer raised one. *)

Definition thinkingUpdates (thinking : string) : list ArchitectUpdate :=
  if PersonaLoader.isEmpty thinking then [] else [thinking_update thinking].

Definition advisoryUpdates (review : option ArchitectUpdate) : list ArchitectUpdate :=
  match review with Some u => [u] | None => [] end.

Definition cycleUpdates (n : Z) (plan : string * string) (implementation : string)
    (review : option ArchitectUpdate) (evaluation : string * string)
    : list ArchitectUpdate :=
  [phase_update planning n] ++ thinkingUpdates (fst plan)
  ++ [plan_update (snd plan) (fst plan)]
  ++ [phase_update implementing n; implementation_update implementation]
  ++ advisoryUpdates review
  ++ [phase_update evaluating n] ++ thinkingUpdates (fst evaluation)
  ++ [evaluation_update (snd evaluation) (fst evaluation)].

Definition isAdvisory (review : option ArchitectUpdate) : Prop :=
  match review with
  | None => True
  | Some (architecture_review_update _ _) => True
  | Some _ => False
  end.

(** [updates] is one full cycle of iteration [n]. *)
Definition isCycle (n : Z) (updates : list ArchitectUpdate) : Prop :=
  exists plan implementation review evaluation,
    isAdvisory review
    /\ updates = cycleUpdates n plan implementation review evaluation.

(** [x] occurs in [s] verbatim. *)
Definition occursIn (x s : string) : Prop := exists before after, s = before +:+ x +:+ after.

(** [s] begins with [p]. *)
Definition beginsWith (s p : string) : Prop := exists rest, s = p +:+ rest.

Section RoleCalls.

Variable config : ArchitectConfig.
Variable architectureAnalyzer : option ArchitectureAnalyzer.

(** The three role calls of a pass. *)
Definition planCall (task context : string) : RoleCall :=
  {| handler := architectHandler;
     systemPrompt := planSystem config;
     history := planMessages task context |}.

Definition editorCall (plan context : string) : RoleCall :=
  {| handler := editorHandler;
     systemPrompt := editorSystem config;
     history := editorMessages plan context |}.

Definition evaluateCall (task plan implementation context : string) : RoleCall :=
  {| handler := architectHandler;
     systemPrompt := evaluateSystem config architectureAnalyzer;
     history := evaluateMessages task plan implementation context |}.

End RoleCalls.

(** *** Role backends the examples use *)

Definition budget (n : Z) : ArchitectConfig := {| maxIterations := n; persona := None |}.

(** Backends that always answer: the editor with [implText], the architect
    with [verdict] when asked to evaluate and with [planText] otherwise. *)
Definition roleBackends (planText implText verdict : string)
    : list RoleCall -> RoleCall -> Result (list ApiStreamChunk) :=
  fun _ call =>
    match handler call with
    | editorHandler => Ok [text_chunk implText]
    | architectHandler =>
        if String.eqb (systemPrompt call) (evaluateSystem (budget 0) None)
        then Ok [reasoning_chunk "Comparing the implementation with the plan.";
                 text_chunk verdict]
        else Ok [text_chunk planText]
    end.

Definition approving : list RoleCall -> RoleCall -> Result (list ApiStreamChunk) :=
  roleBackends "1. Add src/parser.ts" "export const parse = JSON.parse"
               "  approved: matches the plan".

Definition revising : list RoleCall -> RoleCall -> Result (list ApiStreamChunk) :=
  roleBackends "1. Add src/parser.ts" "export const parse = JSON.parse"
               "REVISION NEEDED: handle empty input".

(** Backends whose architect asks for a revision in the first evaluation
    (the third role call) and approves from then on. *)
Definition approvingSecond : list RoleCall -> RoleCall -> Result (list ApiStreamChunk) :=
  fun h call =>
    if Nat.ltb (length h) 3 then revising h call
    else roleBackends "1. Guard the empty input" "export const parse = safeParse"
                      "APPROVED: empty input handled" h call.

(** *** Sample targets

    Every target made of at most [n] pieces out of a slash, a backslash, a
    colon, a digit, a letter and a known extension. *)
Fixpoint sampleTargets (n : nat) : list string :=
  match n with
  | O => [""]
  | S n' =>
      "" :: flat_map (fun w => map (fun piece => piece +:+ w)
                                   ["/"; "\"; ":"; "7"; "a"; ".ts"])
                     (sampleTargets n')
  end.

(** ** Further definitions the properties below are stated with *)

(** *** Path separators

    What the first [replace] of [extractPattern] and of [decide] does to a
    character: a backslash becomes a slash. *)
Definition toSlash (c : ascii) : ascii :=
  if Ascii.eqb c "\"%char then "/"%char else c.

(** The target with every backslash turned into a slash. *)
Definition normalizeSeparators (target : string) : string :=
  Js.str (map toSlash (Js.chars target)).


(** The text before the first backslash and the text behind it. *)
Fixpoint splitAtBackslash (s : list ascii) : option (list ascii * list ascii) :=
  match s with
  | [] => None
  | c :: s' =>
      if Ascii.eqb c "\"%char then Some ([], s')
      else match splitAtBackslash s' with
           | Some (p, q) => Some (c :: p, q)
           | None => None
           end
  end.

(** *** Matchers that begin with a literal

    The first character a matcher of the form [/^c.../] asks for, and the
    syntax tree of a literal text. *)
Definition anchoredFirst (r : RegExp.Node) : option ascii :=
  match r with
  | RegExp.NSeq RegExp.NBol (RegExp.NSeq (RegExp.NChar c) _) => Some c
  | _ => None
  end.

Definition literalNode (p : list ascii) : RegExp.Node :=
  fold_right (fun c r => RegExp.NSeq (RegExp.NChar c) r) RegExp.NEmpty p.

(** No matcher of the list can match a text that begins with [c]: each one is
    anchored and asks for another first character. *)
Definition noneStartsWith (c : ascii) (matchers : list RegExp.t) : bool :=
  forallb (fun re =>
             match anchoredFirst (RegExp.node re) with
             | Some a => negb (RegExp.charEq (RegExp.ignoreCase re) a c)
             | None => false
             end) matchers.

(** *** Parts of a request and of an engine that can be exchanged *)

Definition withPreviousDecisions (request : ApprovalRequest) (decisions : gmap string string)
    : ApprovalRequest :=
  {| action := action request; target := target request; context := context request;
     previousDecisions := decisions |}.

Definition withConfig (cfg : ApprovalOracleConfig) (w : World) : World :=
  {| this := {| persistedRules := persistedRules (this w);
                config := cfg;
                INSTANT_ALLOW := INSTANT_ALLOW (this w);
                INSTANT_DENY := INSTANT_DENY (this w) |};
     sent := sent w; console := console w |}.

(** *** Code fences

    A reply wrapped in a JSON code fence, a text without a backtick, and the
    syntax tree of the pattern [parseResponse] removes fences with. *)
Definition fenced (body : string) : string :=
  "```json
" +:+ body +:+ "
```".

Definition noBacktick (s : string) : bool :=
  forallb (fun c => negb (Ascii.eqb c "`"%char)) (Js.chars s).

Definition textReply (reply : string) : Message :=
  {| blocks := [ {| text := Some reply |} ] |}.

Definition fenceNode : RegExp.Node :=
  Eval vm_compute in RegExp.node (RegExp.lit "```json\n?|\n?```" "g").

Definition startsWithBacktick (s : list ascii) : bool :=
  match s with
  | c :: _ => Ascii.eqb c "`"%char
  | [] => false
  end.

(** *** Terminal updates and phases *)

Definition isTerminalUpdate (u : ArchitectUpdate) : bool :=
  match u with
  | complete_update _ | max_iterations_update _ => true
  | _ => false
  end.

Definition noTerminalUpdate (updates : list ArchitectUpdate) : bool :=
  forallb (fun u => negb (isTerminalUpdate u)) updates.

(** The phases of a pass that is under way. *)
Definition inProgress (p : Phase) : bool :=
  match p with
  | planning | implementing | evaluating => true
  | complete | failed => false
  end.

(** *** Blank text *)

(** Every character of [s] is white space (so [s.trim()] is empty). *)
Definition allSpace (s : string) : bool := forallb Js.isSpace (Js.chars s).

(** The path and the contents of a file element found by [filePattern]. *)
Definition matchPath (mt : RegExp.Match) : string :=
  Js.str (default [] (RegExp.capture (RegExp.captures mt) 1)).

Definition matchContent (mt : RegExp.Match) : string :=
  Js.str (default [] (RegExp.capture (RegExp.captures mt) 2)).

Definition reviewOptions : list string :=
  ["Proceed with current implementation"; "Revise to address concerns"].

(** *** More collaborators for the examples *)

(** An analyzer whose [analyzeChange] throws (as [checkDomainMixing] does on
    a domain name that is no regular expression). *)
Definition throwingAnalyzer : ArchitectureAnalyzer :=
  {| getTypesContext := "";
     analyzeChange := fun _ _ _ => Throw "SyntaxError: Invalid regular expression" |}.

(** An analyzer that flags the files whose path begins with [src/legacy/]. *)
Definition legacyAnalyzer : ArchitectureAnalyzer :=
  {| getTypesContext := "";
     analyzeChange := fun _ filePath _ =>
       if Js.startsWith filePath "src/legacy/"
       then Ok {| needsReview := true; signals := ["File exceeds 500 lines (812 lines)"];
                  recommendation := "Consider extracting to a separate module.";
                  options := ["Extract to new module"] |}
       else Ok {| needsReview := false; signals := []; recommendation := "";
                  options := [] |} |}.

(** An implementation with one file element. *)
Definition oneFile (filePath contents : string) : string :=
  "<file path=" +:+ Js.dq +:+ filePath +:+ Js.dq +:+ ">" +:+ contents +:+ "</file>".

(** Backends whose editor is out of reach. *)
Definition editorDown : list RoleCall -> RoleCall -> Result (list ApiStreamChunk) :=
  fun _ call =>
    match handler call with
    | editorHandler => Throw "503 Service Unavailable"
    | architectHandler => Ok [text_chunk "1. Add src/parser.ts"]
    end.

(** ** cline-extended/src/core/context/LLMContextManager.ts

    The methods of [LLMContextManager] that work on the context held in
    memory.  ([load], [save] and [initializeIfNeeded] read and write the
    workspace and are left out, with the members of [LLMContext] that only
    they and [addDecision] and [addDebt] touch.)  An optional member is an
    [option]; [Some None] is JavaScript's [null]. *)

Module LLMContextManager.

Record Blocker := {
  task : string;
  reason : string
}.

Record ContextState := {
  active_task : option (option string);
  blocked : option (list Blocker);
  next_tasks : option (list string);
  git_branch : option string;
  last_session : option string;
  last_action : option string
}.

Record ContextFiles := {
  hot : option (list string);
  modified_this_session : option (list string);
  do_not_modify : option (list string)
}.

Record Momentum := {
  velocity : option string;
  blockers_count : option nat;
  risk : option (option string)
}.

Record LLMContext := {
  state : option ContextState;
  files : option ContextFiles;
  momentum : option Momentum
}.

(** The empty object [{}]. *)
Definition emptyState : ContextState :=
  {| active_task := None; blocked := None; next_tasks := None; git_branch := None;
     last_session := None; last_action := None |}.

Definition emptyFiles : ContextFiles :=
  {| hot := None; modified_this_session := None; do_not_modify := None |}.

Definition emptyMomentum : Momentum :=
  {| velocity := None; blockers_count := None; risk := None |}.

Definition setBlocked (l : list Blocker) (st : ContextState) : ContextState :=
  {| active_task := active_task st; blocked := Some l; next_tasks := next_tasks st;
     git_branch := git_branch st; last_session := last_session st;
     last_action := last_action st |}.

Definition setHot (l : list string) (fl : ContextFiles) : ContextFiles :=
  {| hot := Some l; modified_this_session := modified_this_session fl;
     do_not_modify := do_not_modify fl |}.

(** Mark a task as blocked *)
Definition addBlocker (task reason : string) (c : LLMContext) : LLMContext :=
  let st := default emptyState (state c) in
  let l := default [] (blocked st) in
  {| state := Some (setBlocked (l ++ [ {| task := task; reason := reason |} ]) st);
     files := files c; momentum := momentum c |}.

(** Remove a blocker *)
Definition removeBlocker (t : string) (c : LLMContext) : LLMContext :=
  match state c with
  | Some st =>
      match blocked st with
      | Some l =>
          {| state := Some (setBlocked (List.filter (fun b => negb (String.eqb (task b) t)) l) st);
             files := files c; momentum := momentum c |}
      | None => c
      end
  | None => c
  end.

(** [array.slice(-n)]: the last [n] elements. *)
Definition lastN {A} (n : nat) (l : list A) : list A := skipn (length l - n) l.

(** Add a file to the hot files list *)
Definition addHotFile (filePath : string) (c : LLMContext) : LLMContext :=
  let fl := default emptyFiles (files c) in
  let l := default [] (hot fl) in
  let l' :=
    if existsb (String.eqb filePath) l then l
    else
      let pushed := l ++ [filePath] in
      (* Keep only last 10 hot files *)
      if 10 <? length pushed then lastN 10 pushed else pushed in
  {| state := state c; files := Some (setHot l' fl); momentum := momentum c |}.

Inductive Velocity := low | medium | high.

Definition velocityString (v : Velocity) : string :=
  match v with low => "low" | medium => "medium" | high => "high" end.

(** Update momentum indicators *)
Definition updateMomentum (v : Velocity) (r : option string) (c : LLMContext) : LLMContext :=
  {| state := state c; files := files c;
     momentum :=
       Some {| velocity := Some (velocityString v);
               risk := Some (match r with
                             | Some text => if PersonaLoader.isEmpty text then None else Some text
                             | None => None
                             end);
               blockers_count :=
                 Some (match state c with
                       | Some st => match blocked st with Some l => length l | None => 0 end
                       | None => 0
                       end) |} |}.

(** [this.context.files?.hot ?? []] and [this.context.state?.blocked ?? []]. *)
Definition hotFiles (c : LLMContext) : list string :=
  default [] (hot (default emptyFiles (files c))).

Definition blockers (c : LLMContext) : list Blocker :=
  default [] (blocked (default emptyState (state c))).

End LLMContextManager.

(** ** src/core/architecture/ArchitectureAnalyzer.ts

    The parts of the analyzer that compute on texts: the naming check and
    the recommendation and the options built from the signals.  (What
    reads the workspace, [loadTypes], [loadContracts] and
    [checkDirectorySize], is not modelled; the naming conventions read from
    [types.yaml] are an argument.) *)

Module Analyzer.

Inductive ArchitectureStyle := monolith | modular_monolith | microservices | serverless.

Definition isMonolith (style : ArchitectureStyle) : bool :=
  match style with monolith => true | _ => false end.

Definition isMicroservices (style : ArchitectureStyle) : bool :=
  match style with microservices => true | _ => false end.

(** [String.prototype.includes]. *)
Fixpoint includesFrom (l p : list ascii) : bool :=
  Js.prefixb p l
  || match l with
     | [] => false
     | _ :: l' => includesFrom l' p
     end.

Definition includes (s sub : string) : bool := includesFrom (Js.chars s) (Js.chars sub).

Record NamingConventions := {
  case : option string;
  ids : option string;
  timestamps : option string;
  money : option string
}.

Definition camelCasePattern : RegExp.t :=
  RegExp.lit ("[" +:+ Js.dq +:+ "']([a-z]+[A-Z][a-zA-Z]*)['" +:+ Js.dq +:+ "]\s*:") "g".

Definition badIdPattern : RegExp.t :=
  RegExp.lit ("[" +:+ Js.dq +:+ "']([a-z]+Id)['" +:+ Js.dq +:+ "]") "g".

(** [content.match(re)] for a [g] pattern: the matched texts, in order
    ([[]] stands for [null]). *)
Definition matchAll (re : RegExp.t) (content : string) : list string :=
  map (fun mt => Js.str (RegExp.matched mt)) (RegExp.execAll re content).

(** [matches.slice(0, 3).join(", ")]. *)
Definition firstThree (matches : list string) : string :=
  String.concat ", " (firstn 3 matches).

(** [conventions]: [this.types?.namingConventions]. *)
Definition checkNamingConventions (conventions : option NamingConventions)
    (content : string) : list string :=
  match conventions with
  | None => []
  | Some conventions =>
      (* Check case convention *)
      (match case conventions with
       | Some convention =>
           if String.eqb convention "snake_case" then
             (* Look for camelCase in likely identifier positions *)
             match matchAll camelCasePattern content with
             | [] => []
             | matches =>
                 ["Found camelCase identifiers (expected snake_case): "
                  +:+ firstThree matches +:+ "..."]
             end
           else []
       | None => []
       end)
      (* Check ID naming *)
      ++ (match ids conventions with
          | Some expected =>
              if PersonaLoader.isEmpty expected then []
              else if includes expected "_id" then
                (* Look for entityId pattern instead of entity_id *)
                match matchAll badIdPattern content with
                | [] => []
                | matches =>
                    ["Found incorrect ID format (expected *_id): "
                     +:+ firstThree matches +:+ "..."]
                end
              else []
          | None => []
          end)
  end.

Definition generalRecommendation : string :=
  "Review the signals and decide on appropriate action.".

Definition buildRecommendation (style : ArchitectureStyle) (signals : list string)
    (filePath : string) : string :=
  if isMonolith style then
    "Monolith style: Consider refactoring for clarity but no extraction needed."
  else if existsb (fun s => includes s "exceeds" || includes s "files") signals then
    if isMicroservices style then "Consider extracting to a separate service."
    else "Consider extracting to a separate module."
  else if existsb (fun s => includes s "domain imports") signals then
    "Domain boundary violation. Consider moving shared logic to a common module or defining an interface."
  else if existsb (fun s => includes s "naming") signals then
    "Naming convention violation. Update to match types.yaml definitions."
  else generalRecommendation.

Definition buildOptions (style : ArchitectureStyle) (signals : list string)
    (filePath : string) : list string :=
  (if existsb (fun s => includes s "exceeds" || includes s "files") signals then
     ["Extract to new module"]
     ++ (if isMicroservices style then ["Extract to new service"] else [])
     ++ ["Refactor into submodules"; "Keep as-is with justification"]
   else [])
  ++ (if existsb (fun s => includes s "domain imports") signals then
        ["Move shared code to common/"; "Define interface/contract";
         "Accept coupling with justification"]
      else [])
  ++ (if existsb (fun s => includes s "naming") signals then
        ["Fix naming to match conventions"; "Update types.yaml to allow this pattern"]
      else []).

(** The words [buildRecommendation] and [buildOptions] look for. *)
Definition keywords : list string := ["exceeds"; "files"; "domain imports"; "naming"].

End Analyzer.


(** *** Signals without a keyword *)

(** A text that holds none of the words the analyzer looks for. *)
Definition quiet (s : string) : bool :=
  forallb (fun word => negb (Analyzer.includes s word)) Analyzer.keywords.

(** Naming conventions that ask for both checks. *)
Definition snakeCaseConventions : Analyzer.NamingConventions :=
  {| Analyzer.case := Some "snake_case"; Analyzer.ids := Some "{entity}_id";
     Analyzer.timestamps := None; Analyzer.money := None |}.

(** ** webview-ui: the Domains field of ArchitectModeSection

    [e.target.value.split(",").map((d) => d.trim()).filter(Boolean)], and
    the text the field shows, [domains.join(", ")]. *)

(** [l.split(sep)] for a separator of one character. *)
Fixpoint splitChars (sep : ascii) (l : list ascii) : list (list ascii) :=
  match l with
  | [] => [[]]
  | c :: l' =>
      if Ascii.eqb c sep then [] :: splitChars sep l'
      else match splitChars sep l' with
           | first :: rest => (c :: first) :: rest
           | [] => [[c]]
           end
  end.

Definition domainsOnChange (value : string) : list string :=
  List.filter (fun d => negb (PersonaLoader.isEmpty d))
         (map (fun d => Js.trim (Js.str d)) (splitChars ","%char (Js.chars value))).

Definition domainsValue (domains : list string) : string := String.concat ", " domains.

(** * Properties of the Approval Decision Engine *)

Lemma new_ApprovalOracle_default : new_ApprovalOracle noConfig = Ok freshOracle.
Proof. vm_compute. reflexivity. Qed.

(** Every regular expression literal of the matcher lists is read without a
    syntax error: none of them is the fallback of [RegExp.lit]. *)
Lemma literals_well_formed :
  forallb (fun re => match RegExp.node re with
                     | RegExp.NClass false [] => false
                     | _ => true
                     end)
          (default_INSTANT_ALLOW ++ default_INSTANT_DENY) = true.
Proof. vm_compute. reflexivity. Qed.

(** So are the literals of [extractPattern], [decide], [parseResponse] and
    [reviewArchitecture]. *)
Lemma other_literals_well_formed :
  forallb (fun '(pattern, flags) =>
             match RegExp.create pattern flags with Ok _ => true | Throw _ => false end)
    [("\\", "g");
     ("\/[^\/]+\.(ts|js|tsx|jsx|py|rb|go|rs|java|kt|json|yaml|yml|md|css|html)$", "i");
     ("\/node_modules\/.*", ""); ("\/dist\/.*", ""); ("\/build\/.*", "");
     ("\/\.next\/.*", ""); ("\/target\/.*", ""); ("\/vendor\/.*", "");
     ("\/__pycache__\/.*", ""); (":\d+", ""); ("\/\d+", "g");
     ("```json\n?|\n?```", "g");
     ("<file path=" +:+ Js.dq +:+ "([^" +:+ Js.dq +:+ "]+)" +:+ Js.dq
      +:+ ">([\s\S]*?)<\/file>", "g")] = true.
Proof. vm_compute. reflexivity. Qed.

Section EngineFacts.

Variable client : list MessageCreateParams -> MessageCreateParams -> Result Message.
Variable JSON_parse : string -> Result JsValue.

Lemma decide_cached request w cached :
  persistedRules (this w) !! extractPattern request = Some cached ->
  decide client JSON_parse request w =
    (Ok {| allow := cached; persist := always; reasoning := "Cached rule" |}, w).
Proof.
  intros Hhit. unfold decide, bind, gets, ret. cbn beta iota.
  now rewrite Hhit.
Qed.

Lemma decide_denied request w :
  persistedRules (this w) !! extractPattern request = None ->
  existsb (fun re => RegExp.test re (literalOf request)) (INSTANT_DENY (this w)) = true ->
  decide client JSON_parse request w =
    (Ok {| allow := false; persist := always; reasoning := "Blocked pattern" |},
     setRule (extractPattern request) false w).
Proof.
  intros Hmiss Hdeny. unfold decide, bind, gets, ret, modify. cbn beta iota.
  now rewrite Hmiss, Hdeny.
Qed.

Lemma decide_allowed request w :
  persistedRules (this w) !! extractPattern request = None ->
  existsb (fun re => RegExp.test re (literalOf request)) (INSTANT_DENY (this w)) = false ->
  existsb (fun re => RegExp.test re (literalOf request)) (INSTANT_ALLOW (this w)) = true ->
  decide client JSON_parse request w =
    (Ok {| allow := true; persist := always; reasoning := "Safe pattern" |},
     setRule (extractPattern request) true w).
Proof.
  intros Hmiss Hdeny Hallow. unfold decide, bind, gets, ret, modify. cbn beta iota.
  now rewrite Hmiss, Hdeny, Hallow.
Qed.

Lemma decide_escalated request w :
  escalates request w ->
  decide client JSON_parse request w = askOpus client JSON_parse request (extractPattern request) w.
Proof.
  intros (Hmiss & Hdeny & Hallow). unfold decide, bind, gets. cbn beta iota.
  now rewrite Hmiss, Hdeny, Hallow.
Qed.

Lemma askOpus_throws request pattern w e :
  client (sent w) (askOpusParams request pattern) = Throw e ->
  askOpus client JSON_parse request pattern w =
    (Ok (failOpen "API error, allowing once"),
     logError ("ApprovalOracle API error: " +:+ e)
              (recordSent (askOpusParams request pattern) w)).
Proof.
  intros Hthrow. unfold askOpus, catch, bind, callClient, modify, ret.
  now rewrite Hthrow.
Qed.

Lemma askOpus_answers request pattern w response :
  client (sent w) (askOpusParams request pattern) = Ok response ->
  askOpus client JSON_parse request pattern w =
    (Ok (parseResponse JSON_parse response),
     if Persist_eqb (persist (parseResponse JSON_parse response)) always
     then setRule pattern (allow (parseResponse JSON_parse response))
                  (recordSent (askOpusParams request pattern) w)
     else recordSent (askOpusParams request pattern) w).
Proof.
  intros Hok. unfold askOpus, catch, bind, callClient, modify, ret.
  rewrite Hok. now destruct (Persist_eqb _ _).
Qed.

Lemma parseResponse_failure response e :
  parseBody JSON_parse response = Throw e ->
  parseResponse JSON_parse response = failOpen "Parse failed, allowing once".
Proof. intros H. unfold parseResponse. now rewrite H. Qed.

(** The [try] block of [parseResponse] throws exactly when the reply fails
    to parse. *)
Lemma parseBody_throws response :
  (exists e, parseBody JSON_parse response = Throw e) <-> parseFails JSON_parse response.
Proof.
  unfold parseBody, parseFails. cbv zeta.
  destruct (JSON_parse (cleanText (responseText response))) as [parsed|e].
  - destruct (getProp parsed "allow") as [[[]|]|e'] eqn:Hallow; split.
    all: try (intros [e0 H]; discriminate H).
    all: try (intros _; eexists; reflexivity).
    all: try (intros _; right; exists parsed; split; [reflexivity|]; intros a; congruence).
    intros [[e0 H]|(parsed' & Hp & Hno)]; [discriminate H|].
    inversion Hp; subst. exfalso. exact (Hno _ Hallow).
  - split; [intros _; left; eexists; reflexivity|intros _; eexists; reflexivity].
Qed.

End EngineFacts.

Section EngineTheorems.

Variable client : list MessageCreateParams -> MessageCreateParams -> Result Message.
Variable JSON_parse : string -> Result JsValue.

(** C1 (deny precedence).  For every request whose Pattern is not in the
    decision cache and whose literal [action:target] matches some deny matcher
    and some allow matcher, [decide] returns [allow = false] with persist
    [always] and reasoning "Blocked pattern" (and caches [false] under the
    Pattern): the deny list is tested before the allow list.  This holds for
    every engine, whatever custom patterns were appended to its lists. *)
Theorem deny_precedence (request : ApprovalRequest) (w : World) :
  persistedRules (this w) !! extractPattern request = None ->
  (exists re, In re (INSTANT_DENY (this w)) /\ RegExp.test re (literalOf request) = true) ->
  (exists re, In re (INSTANT_ALLOW (this w)) /\ RegExp.test re (literalOf request) = true) ->
  decide client JSON_parse request w =
    (Ok {| allow := false; persist := always; reasoning := "Blocked pattern" |},
     setRule (extractPattern request) false w).
Proof.
  intros Hmiss Hdeny _.
  apply decide_denied; [exact Hmiss|].
  apply existsb_exists. exact Hdeny.
Qed.

(** C2 (fail-open atomicity).  For every request that reaches the
    adjudicator, if the adjudicator call throws or its reply fails to parse
    (its text is not JSON or has no boolean [allow]), [decide] returns normally
    with [allow = true], persist [once] and a reasoning string that names the
    failure; no exception leaves [decide], and the engine instance, its
    decision cache included, is what it was before the call. *)
Theorem fail_open_atomicity (request : ApprovalRequest) (w : World) :
  escalates request w ->
  ((exists e, client (sent w) (askOpusParams request (extractPattern request)) = Throw e)
   \/ (exists response,
         client (sent w) (askOpusParams request (extractPattern request)) = Ok response
         /\ parseFails JSON_parse response)) ->
  exists why w',
    decide client JSON_parse request w =
      (Ok {| allow := true; persist := once; reasoning := why |}, w')
    /\ (why = "API error, allowing once" \/ why = "Parse failed, allowing once")
    /\ this w' = this w
    /\ persistedRules (this w') = persistedRules (this w).
Proof.
  intros Hesc Hfail. rewrite (decide_escalated _ _ _ _ Hesc).
  destruct Hfail as [[e He] | (response & Hresp & Hfails)].
  - rewrite (askOpus_throws _ _ _ _ _ _ He).
    eexists _, _. split; [reflexivity|]. split; [now left|]. split; reflexivity.
  - rewrite (askOpus_answers _ _ _ _ _ _ Hresp).
    apply parseBody_throws in Hfails. destruct Hfails as [e Hparse].
    rewrite (parseResponse_failure _ _ _ Hparse). cbn.
    eexists _, _. split; [reflexivity|]. split; [now right|]. split; reflexivity.
Qed.

End EngineTheorems.

(** ** [decide] never throws and follows one of the paths *)

Section DecidePaths.

Variable client : list MessageCreateParams -> MessageCreateParams -> Result Message.
Variable JSON_parse : string -> Result JsValue.

Lemma Persist_eqb_always p : Persist_eqb p always = true <-> p = always.
Proof. destruct p; cbn; split; congruence. Qed.

(** [decide] returns normally on every request, along one of the paths. *)
Lemma decide_decides request w :
  exists d w', decide client JSON_parse request w = (Ok d, w') /\ decides client JSON_parse request w d w'.
Proof.
  destruct (persistedRules (this w) !! extractPattern request) as [cached|] eqn:Hrule.
  { eexists _, _. split; [apply decide_cached, Hrule|]. now constructor. }
  destruct (existsb (fun re => RegExp.test re (literalOf request)) (INSTANT_DENY (this w)))
    eqn:Hdeny.
  { eexists _, _. split; [apply decide_denied; assumption|]. now constructor. }
  destruct (existsb (fun re => RegExp.test re (literalOf request)) (INSTANT_ALLOW (this w)))
    eqn:Hallow.
  { eexists _, _. split; [apply decide_allowed; assumption|]. now constructor. }
  assert (Hesc : escalates request w) by (repeat split; assumption).
  rewrite (decide_escalated _ _ _ _ Hesc).
  destruct (client (sent w) (askOpusParams request (extractPattern request)))
    as [response|e] eqn:Hcall.
  - rewrite (askOpus_answers _ _ _ _ _ _ Hcall).
    destruct (Persist_eqb (persist (parseResponse JSON_parse response)) always) eqn:Hp.
    + eexists _, _. split; [reflexivity|].
      apply path_answer_kept; [assumption..|]. now apply Persist_eqb_always.
    + eexists _, _. split; [reflexivity|].
      apply path_answer_once; [assumption..|].
      intros Heq. apply Persist_eqb_always in Heq. congruence.
  - rewrite (askOpus_throws _ _ _ _ _ _ Hcall).
    eexists _, _. split; [reflexivity|]. now apply path_api_error.
Qed.

Lemma decide_inv request w d w' :
  decide client JSON_parse request w = (Ok d, w') -> decides client JSON_parse request w d w'.
Proof.
  intros Heq. destruct (decide_decides request w) as (d0 & w0 & Heq0 & Hpath).
  rewrite Heq in Heq0. now inversion Heq0; subst.
Qed.

(** A decision with persist [always] is in the cache afterwards, under the
    request's Pattern. *)
Lemma decides_always_cached request w d w' :
  decides client JSON_parse request w d w' ->
  persist d = always ->
  persistedRules (this w') !! extractPattern request = Some (allow d).
Proof.
  intros Hpath Hp. destruct Hpath; cbn in *; try discriminate; try congruence;
    try (now rewrite lookup_insert_eq).
Qed.

(** What is cached stays cached, with the same value, over a [decide]. *)
Lemma decides_keeps_cached request w d w' pattern b :
  decides client JSON_parse request w d w' ->
  persistedRules (this w) !! pattern = Some b ->
  persistedRules (this w') !! pattern = Some b.
Proof.
  intros Hpath Hin.
  assert (Hne : persistedRules (this w) !! extractPattern request = None ->
                extractPattern request <> pattern) by congruence.
  destruct Hpath as [| ? | ? | ? [? _] | ? [? _] | ]; cbn; try assumption;
    rewrite lookup_insert_ne; auto.
Qed.

(** A [decide] sends at most one request to the adjudicator. *)
Lemma decides_sent request w d w' :
  decides client JSON_parse request w d w' ->
  sent w' = sent w
  \/ sent w' = sent w ++ [askOpusParams request (extractPattern request)].
Proof. intros Hpath. destruct Hpath; cbn; auto. Qed.

End DecidePaths.

Section CacheTheorems.

Variable client : list MessageCreateParams -> MessageCreateParams -> Result Message.
Variable JSON_parse : string -> Result JsValue.

Lemma decide_keeps_cached request w pattern b :
  persistedRules (this w) !! pattern = Some b ->
  persistedRules (this (snd (decide client JSON_parse request w))) !! pattern = Some b.
Proof.
  intros Hin. destruct (decide_decides client JSON_parse request w) as (d & w' & Heq & Hpath).
  rewrite Heq. cbn. eapply decides_keeps_cached; eassumption.
Qed.

Lemma decideAll_keeps_cached requests w pattern b :
  persistedRules (this w) !! pattern = Some b ->
  persistedRules (this (decideAll client JSON_parse requests w)) !! pattern = Some b.
Proof.
  revert w. induction requests as [|request rest IH]; intros w Hin; cbn; [assumption|].
  apply IH. now apply decide_keeps_cached.
Qed.

(** C10 (cache shadowing).  Once the cache holds a boolean for a Pattern,
    every later [decide] on a request with that Pattern, after any number of
    [decide] calls in between, returns the cached boolean with persist
    [always] and reasoning "Cached rule" and changes nothing: neither list of
    matchers has a say, whatever the literal target of the later request
    matches, and the adjudicator is not called. *)
Theorem cache_shadowing (w : World) (pattern : string) (b : bool)
    (between : list ApprovalRequest) (later : ApprovalRequest) :
  persistedRules (this w) !! pattern = Some b ->
  extractPattern later = pattern ->
  decide client JSON_parse later (decideAll client JSON_parse between w) =
    (Ok {| allow := b; persist := always; reasoning := "Cached rule" |},
     decideAll client JSON_parse between w).
Proof.
  intros Hin Hpat. apply decide_cached. rewrite Hpat.
  now apply decideAll_keeps_cached.
Qed.

(** How a boolean gets into the cache through [decide]: every decision with
    persist [always] (a cache hit, a fast-path match, an always-scoped answer
    of the adjudicator) is cached under the request's Pattern. *)
Lemma decide_always_cached request w d w' :
  decide client JSON_parse request w = (Ok d, w') ->
  persist d = always ->
  persistedRules (this w') !! extractPattern request = Some (allow d).
Proof.
  intros Heq Hp. eapply decides_always_cached; [|exact Hp].
  eapply decide_inv; eassumption.
Qed.

Lemma decide_sends_at_most_one request w :
  length (sent (snd (decide client JSON_parse request w))) <= length (sent w) + 1.
Proof.
  destruct (decide_decides client JSON_parse request w) as (d & w' & Heq & Hpath).
  rewrite Heq. cbn. destruct (decides_sent _ _ _ _ _ _ Hpath) as [-> | ->].
  - lia.
  - rewrite length_app. cbn. lia.
Qed.

(** C4, as amended (cache idempotence).  For two requests whose targets
    generalize to the same Pattern, if the first [decide] returns a decision
    with persist [always] (a cache hit, a fast-path match, or an adjudicator
    answer of scope [always]), then the second [decide] does not call the
    adjudicator, so both calls together call it at most once. *)
Theorem cache_idempotence_when_persisted (r1 r2 : ApprovalRequest) (w w1 : World)
    (d1 : ApprovalDecision) :
  extractPattern r1 = extractPattern r2 ->
  decide client JSON_parse r1 w = (Ok d1, w1) ->
  persist d1 = always ->
  sent (snd (decide client JSON_parse r2 w1)) = sent w1
  /\ length (sent (snd (decide client JSON_parse r2 w1))) <= length (sent w) + 1.
Proof.
  intros Hpat Heq Hp.
  pose proof (decide_always_cached _ _ _ _ Heq Hp) as Hcached.
  rewrite Hpat in Hcached. rewrite (decide_cached _ _ _ _ _ Hcached). cbn.
  split; [reflexivity|].
  pose proof (decide_sends_at_most_one r1 w) as Hone. rewrite Heq in Hone. exact Hone.
Qed.

(** Whatever the scopes, two calls invoke the adjudicator at most twice. *)
Lemma two_decides_send_at_most_two r1 r2 w :
  length (sent (snd (decide client JSON_parse r2 (snd (decide client JSON_parse r1 w)))))
  <= length (sent w) + 2.
Proof.
  pose proof (decide_sends_at_most_one r1 w).
  pose proof (decide_sends_at_most_one r2 (snd (decide client JSON_parse r1 w))).
  lia.
Qed.

(** C9 (Scenario A).  On a newly constructed engine with the default rules,
    [decide] on a write to /project/src/app.ts returns allow, persist
    [always], reasoning "Safe pattern"; nothing is sent to the adjudicator,
    and the Pattern write:/project/src/*.ts is cached as allowed. *)
Theorem scenario_A (ctx : string) (previous : gmap string string) :
  let request := {| action := write; target := "/project/src/app.ts";
                    context := ctx; previousDecisions := previous |} in
  new_ApprovalOracle noConfig = Ok freshOracle
  /\ decide client JSON_parse request freshWorld =
       (Ok {| allow := true; persist := always; reasoning := "Safe pattern" |},
        setRule "write:/project/src/*.ts" true freshWorld)
  /\ sent (snd (decide client JSON_parse request freshWorld)) = [].
Proof.
  intros request.
  assert (Hdec : decide client JSON_parse request freshWorld =
       (Ok {| allow := true; persist := always; reasoning := "Safe pattern" |},
        setRule "write:/project/src/*.ts" true freshWorld)).
  { change "write:/project/src/*.ts" with (extractPattern request).
    apply decide_allowed; vm_compute; reflexivity. }
  split; [exact new_ApprovalOracle_default|].
  split; [exact Hdec|]. now rewrite Hdec.
Qed.

End CacheTheorems.

(** ** The engine on concrete requests *)

(** A write of a TypeScript file named secrets matches the deny matcher
    [/^write:.*\/secrets/i] and the allow matcher for the [.ts] extension; on
    a new engine it is blocked. *)
Lemma deny_precedence_witness :
  decide unreachable Json.parse (requestOf write "/proj/secrets.ts") freshWorld =
    (Ok {| allow := false; persist := always; reasoning := "Blocked pattern" |},
     setRule (extractPattern (requestOf write "/proj/secrets.ts")) false freshWorld).
Proof.
  apply deny_precedence.
  - vm_compute. reflexivity.
  - apply existsb_exists. vm_compute. reflexivity.
  - apply existsb_exists. vm_compute. reflexivity.
Defined.

(** A delete request matches neither list; with the adjudicator out of reach
    the engine allows it once and caches nothing. *)
Lemma fail_open_atomicity_witness :
  exists why w',
    decide unreachable Json.parse (requestOf delete "/var/data/report.bin") freshWorld =
      (Ok {| allow := true; persist := once; reasoning := why |}, w')
    /\ (why = "API error, allowing once" \/ why = "Parse failed, allowing once")
    /\ this w' = this freshWorld
    /\ persistedRules (this w') = persistedRules (this freshWorld).
Proof.
  apply fail_open_atomicity.
  - repeat split; vm_compute; reflexivity.
  - left. exists "Connection error.". reflexivity.
Defined.

(** A reply that is not JSON fails open as well. *)
Example fail_open_on_prose :
  decide (replying "I would allow this.") Json.parse
         (requestOf delete "/var/data/report.bin") freshWorld =
    (Ok (failOpen "Parse failed, allowing once"),
     recordSent (askOpusParams (requestOf delete "/var/data/report.bin")
                               "delete:/var/data/report.bin") freshWorld).
Proof. vm_compute. reflexivity. Qed.

(** After /proj/app.ts was allowed by the extension matcher, a write of
    /proj/secrets.ts, which has the same Pattern and matches a deny matcher, is
    allowed from the cache, also with another decision in between. *)
Lemma cache_shadowing_witness :
  let w := snd (decide unreachable Json.parse (requestOf write "/proj/app.ts") freshWorld) in
  let between := [requestOf execute "rm -rf /"] in
  let later := requestOf write "/proj/secrets.ts" in
  existsb (fun re => RegExp.test re (literalOf later)) default_INSTANT_DENY = true
  /\ decide unreachable Json.parse later (decideAll unreachable Json.parse between w) =
       (Ok {| allow := true; persist := always; reasoning := "Cached rule" |},
        decideAll unreachable Json.parse between w).
Proof.
  split.
  - vm_compute. reflexivity.
  - apply (cache_shadowing unreachable Json.parse _ "write:/proj/*.ts" true).
    + vm_compute. reflexivity.
    + vm_compute. reflexivity.
Defined.

(** An adjudicator answer of scope [always] for /var/data/1 settles
    /var/data/2 as well: one invocation for both. *)
Lemma cache_idempotence_when_persisted_witness :
  let client := replying (replyText "false" "always" "never delete data") in
  let w1 := snd (decide client Json.parse (requestOf delete "/var/data/1") freshWorld) in
  sent (snd (decide client Json.parse (requestOf delete "/var/data/2") w1)) = sent w1
  /\ length (sent (snd (decide client Json.parse (requestOf delete "/var/data/2") w1)))
     <= length (sent freshWorld) + 1.
Proof.
  intros client w1.
  apply (cache_idempotence_when_persisted client Json.parse
           (requestOf delete "/var/data/1") (requestOf delete "/var/data/2") freshWorld w1
           {| allow := false; persist := always; reasoning := "never delete data" |}).
  - vm_compute. reflexivity.
  - vm_compute. reflexivity.
  - reflexivity.
Defined.

(** C4 as stated fails: when the adjudicator answers with scope [once], the
    answer is not cached, and a second [decide] on the very same request
    invokes the adjudicator again: two invocations, not at most one. *)
Lemma cache_idempotence_counterexample :
  let client := replying (replyText "true" "once" "one-off") in
  let r := requestOf delete "/var/data/report.bin" in
  let w1 := snd (decide client Json.parse r freshWorld) in
  let w2 := snd (decide client Json.parse r w1) in
  extractPattern r = extractPattern r
  /\ fst (decide client Json.parse r freshWorld) =
       Ok {| allow := true; persist := once; reasoning := "one-off" |}
  /\ length (sent freshWorld) = 0
  /\ length (sent w2) = 2
  /\ ~ (length (sent w2) <= length (sent freshWorld) + 1).
Proof.
  cbv zeta. repeat split; try (vm_compute; reflexivity).
  vm_compute. intros H. inversion H as [|? H']. inversion H'.
Qed.

(** Scenario B of the specification: the catastrophic delete is blocked. *)
Example scenario_B :
  fst (decide unreachable Json.parse (requestOf execute "rm -rf /") freshWorld) =
    Ok {| allow := false; persist := always; reasoning := "Blocked pattern" |}.
Proof. vm_compute. reflexivity. Qed.

(** Scenario C: a write below .ssh is blocked by the credential matcher. *)
Example scenario_C :
  fst (decide unreachable Json.parse (requestOf write "/home/u/.ssh/id_rsa") freshWorld) =
    Ok {| allow := false; persist := always; reasoning := "Blocked pattern" |}.
Proof. vm_compute. reflexivity. Qed.

(** A custom pattern that is no regular expression makes the constructor
    throw. *)
Example invalid_custom_pattern :
  new_ApprovalOracle {| p_enabled := None; p_showRoutineApprovals := None;
                        p_customAllowPatterns := None;
                        p_customDenyPatterns := Some ["^write:.*\.(lock"] |} =
    Throw "SyntaxError: Invalid regular expression".
Proof. vm_compute. reflexivity. Qed.

(** With the [g] flag of its neighbour the colon rule would take both
    groups at once. *)
Example colon_rule_with_g_flag :
  RegExp.replace "localhost:3000/proxy:8080" (RegExp.lit ":\d+" "g") ":*"
  = "localhost:*/proxy:*".
Proof. vm_compute. reflexivity. Qed.

(** Apart from the colon rule the chain is stable: on the sample targets, a
    second pass changes nothing whenever the first pass left no colon followed
    by a digit. *)
Lemma generalize_stable_on_samples :
  forallb (fun x =>
             implb (negb (RegExp.test (RegExp.lit ":\d" "") (generalize x)))
                   (String.eqb (generalize (generalize x)) (generalize x)))
          (sampleTargets 4) = true.
Proof. vm_compute. reflexivity. Qed.

(** C3 fails on the code: [extractPattern] replaces only the first
    colon-and-digits group (its [replace] has no [g] flag, unlike the one for
    slash-and-digits on the next line), so a target with two such groups has
    one of them left after the first pass and none after the second. *)
Theorem generalize_not_idempotent :
  let x := "localhost:3000/proxy:8080" in
  generalize x = "localhost:*/proxy:8080"
  /\ generalize (generalize x) = "localhost:*/proxy:*"
  /\ generalize (generalize x) <> generalize x
  /\ extractPattern (requestOf browser (generalize x)) <> extractPattern (requestOf browser x).
Proof.
  cbv zeta. repeat split; try (vm_compute; reflexivity); vm_compute; discriminate.
Qed.

(** * Properties of the orchestration loop *)

Section PassFacts.
Variable createMessage : list RoleCall -> RoleCall -> Result (list ApiStreamChunk).
Variable config : ArchitectConfig.
Variable architectureAnalyzer : option ArchitectureAnalyzer.

Lemma architectPlan_call task ctx s :
  architectPlan createMessage config task ctx s =
    (match createMessage (calls s) (planCall config task ctx) with
     | Ok stream => Ok (extractThinkingAndContent (blocksOf stream))
     | Throw e => Throw e
     end, recordCall (planCall config task ctx) s).
Proof.
  unfold architectPlan, bind, collectStreamResponse, ret, planCall.
  now destruct (createMessage _ _).
Qed.

Lemma editorImplement_call plan ctx s :
  editorImplement createMessage config plan ctx s =
    (match createMessage (calls s) (editorCall config plan ctx) with
     | Ok stream => Ok (extractContent (blocksOf stream))
     | Throw e => Throw e
     end, recordCall (editorCall config plan ctx) s).
Proof.
  unfold editorImplement, bind, collectStreamResponse, ret, editorCall.
  now destruct (createMessage _ _).
Qed.

Lemma architectEvaluate_call task plan impl ctx s :
  architectEvaluate createMessage config architectureAnalyzer task plan impl ctx s =
    (match createMessage (calls s) (evaluateCall config architectureAnalyzer task plan impl ctx) with
     | Ok stream => Ok (extractThinkingAndContent (blocksOf stream))
     | Throw e => Throw e
     end, recordCall (evaluateCall config architectureAnalyzer task plan impl ctx) s).
Proof.
  unfold architectEvaluate, bind, collectStreamResponse, ret, evaluateCall.
  now destruct (createMessage _ _).
Qed.

Lemma pass_ok task ctx s stream1 stream2 review stream3 :
  let n := (currentIteration (state s) + 1)%Z in
  let c1 := planCall config task ctx in
  let plan := extractThinkingAndContent (blocksOf stream1) in
  let c2 := editorCall config (snd plan) ctx in
  let impl := extractContent (blocksOf stream2) in
  let c3 := evaluateCall config architectureAnalyzer task (snd plan) impl ctx in
  let ev := extractThinkingAndContent (blocksOf stream3) in
  createMessage (calls s) c1 = Ok stream1 ->
  createMessage (calls s ++ [c1]) c2 = Ok stream2 ->
  architectureReview architectureAnalyzer (length (calls s ++ [c1; c2])) impl = Ok review ->
  createMessage (calls s ++ [c1; c2]) c3 = Ok stream3 ->
  pass createMessage config architectureAnalyzer task ctx s =
   (Ok (if isComplete (snd ev) then Converged else Continue (updateContext ctx impl (snd ev))),
    {| state := {| phase := if isComplete (snd ev) then complete else evaluating;
                   currentIteration := n; plan := Some (snd plan);
                   implementation := Some impl; evaluation := Some (snd ev);
                   thinkingContent := Some (fst plan) |};
       calls := calls s ++ [c1; c2; c3];
       emitted := emitted s ++ cycleUpdates n plan impl review ev
                  ++ (if isComplete (snd ev) then [complete_update n] else []) |}).
Proof.
  intros n c1 plan c2 impl c3 ev H1 H2 Hr H3.
  unfold pass, bind, setState, yield, modify, iterationNow, gets, reviewArchitecture, lift, ret.
  rewrite architectPlan_call. cbn [state calls emitted recordCall].
  fold c1. rewrite H1. fold plan.
  destruct (PersonaLoader.isEmpty (fst plan)) eqn:Hpt.
  all: rewrite editorImplement_call; cbn [state calls emitted recordCall setPhase setPlan incrementIteration currentIteration].
  all: fold c2; rewrite H2; fold impl.
  all: unfold bind, gets; cbn [state calls emitted].
  all: rewrite <- (app_assoc (calls s)); change ([c1] ++ [c2]) with [c1; c2]; rewrite Hr.
  all: destruct review as [u|]; cbn [state calls emitted].
  all: rewrite architectEvaluate_call; cbn [state calls emitted recordCall].
  all: fold c3; rewrite H3; fold ev.
  all: destruct (PersonaLoader.isEmpty (fst ev)) eqn:Het; cbn [state calls emitted].
  all: destruct (isComplete (snd ev)); cbn [state calls emitted].
  all: unfold cycleUpdates, thinkingUpdates, advisoryUpdates; rewrite ?Hpt, ?Het.
  all: unfold setPhase, setEvaluation, setImplementation, setPlan, incrementIteration;
       cbn [phase currentIteration plan implementation evaluation thinkingContent].
  all: rewrite <- ?app_assoc; cbn [app]; fold n.
  all: try reflexivity.
Qed.

(** Whatever happens in a pass, the iteration count goes up by one and the
    updates yielded before stay where they are. *)
Lemma pass_shape task ctx s :
  currentIteration (state (snd (pass createMessage config architectureAnalyzer task ctx s)))
    = (currentIteration (state s) + 1)%Z
  /\ exists updates,
       emitted (snd (pass createMessage config architectureAnalyzer task ctx s))
         = emitted s ++ updates.
Proof.
  unfold pass, bind, setState, yield, modify, iterationNow, gets, reviewArchitecture, lift, ret.
  rewrite architectPlan_call. cbn [state calls emitted recordCall].
  destruct (createMessage _ (planCall _ _ _)) as [stream1|e1];
    [|cbn; split; [reflexivity|eexists; reflexivity]].
  destruct (PersonaLoader.isEmpty _).
  all: rewrite editorImplement_call; cbn [state calls emitted recordCall].
  all: destruct (createMessage _ (editorCall _ _ _)) as [stream2|e2];
    [|cbn; split; [reflexivity|eexists; rewrite <- ?app_assoc; reflexivity]].
  all: unfold bind, gets; cbn [state calls emitted].
  all: destruct (architectureReview _ _ _) as [[u|]|e];
    [| |cbn; split; [reflexivity|eexists; rewrite <- ?app_assoc; reflexivity]].
  all: cbn [state calls emitted].
  all: rewrite architectEvaluate_call; cbn [state calls emitted recordCall].
  all: destruct (createMessage _ (evaluateCall _ _ _ _ _ _)) as [stream3|e3];
    [|cbn; split; [reflexivity|eexists; rewrite <- ?app_assoc; reflexivity]].
  all: destruct (PersonaLoader.isEmpty _); cbn [state calls emitted].
  all: destruct (isComplete _); cbn.
  all: split; [reflexivity|eexists; rewrite <- ?app_assoc; reflexivity].
Qed.

(** The advisory update, when there is one, is an architecture review. *)
Lemma architectureReview_advisory now impl review :
  architectureReview architectureAnalyzer now impl = Ok review -> isAdvisory review.
Proof.
  unfold architectureReview. destruct architectureAnalyzer as [analyzer|].
  - destruct (collectIssues _ _ _) as [[|issue issues]|e]; intros H; inversion H; exact I.
  - intros H; inversion H; exact I.
Qed.

(** [run] gives its loop enough fuel: it always comes to an end, with a
    result or with the exception of a collaborator. *)
Lemma runLoop_total fuel task ctx s :
  (Z.to_nat (maxIterations config - currentIteration (state s)) <= fuel)%nat ->
  exists r, runLoop createMessage config architectureAnalyzer fuel task ctx s = Some r.
Proof.
  revert ctx s. induction fuel as [|fuel IH]; intros ctx s Hfuel; cbn [runLoop].
  - destruct (Z.ltb_spec (currentIteration (state s)) (maxIterations config)); [lia|].
    eexists; reflexivity.
  - destruct (Z.ltb_spec (currentIteration (state s)) (maxIterations config));
      [|eexists; reflexivity].
    destruct (pass_shape task ctx s) as [Hiter _].
    destruct (pass _ _ _ task ctx s) as [[[|ctx']|e] s'] eqn:Hpass; cbn [snd] in Hiter;
      try (eexists; reflexivity).
    apply IH. lia.
Qed.

Theorem run_total task ctx s :
  exists r, run createMessage config architectureAnalyzer task ctx s = Some r.
Proof. apply runLoop_total. lia. Qed.

Lemma exhausted_shape s :
  exhausted s =
    (Ok tt, {| state := setPhase failed (state s); calls := calls s;
               emitted := emitted s ++ [max_iterations_update (currentIteration (state s))] |}).
Proof. reflexivity. Qed.

(** The updates already yielded are never taken back. *)
Lemma runLoop_extends fuel task ctx s r s' :
  runLoop createMessage config architectureAnalyzer fuel task ctx s = Some (r, s') ->
  exists updates, emitted s' = emitted s ++ updates.
Proof.
  revert ctx s. induction fuel as [|fuel IH]; intros ctx s; cbn [runLoop].
  - destruct (_ <? _)%Z; [discriminate|]. rewrite exhausted_shape.
    intros H; inversion H; subst; cbn. eexists; reflexivity.
  - destruct (_ <? _)%Z;
      [|rewrite exhausted_shape; intros H; inversion H; subst; cbn; eexists; reflexivity].
    destruct (pass_shape task ctx s) as [_ [us Hus]].
    destruct (pass _ _ _ task ctx s) as [[[|ctx']|e] s1] eqn:Hpass; cbn [snd] in Hus.
    + intros H; inversion H; subst. eexists; eassumption.
    + intros H. destruct (IH _ _ H) as [us' Hus']. rewrite Hus', Hus.
      rewrite <- app_assoc. eexists; reflexivity.
    + intros H; inversion H; subst. eexists; eassumption.
Qed.

End PassFacts.

Lemma append_assoc (a b c : string) : (a +:+ b) +:+ c = a +:+ (b +:+ c).
Proof.
  induction a as [|x a IH]; [reflexivity|].
  change (String x ((a +:+ b) +:+ c) = String x (a +:+ (b +:+ c))). now rewrite IH.
Qed.

(** [updateContext] keeps the context as a prefix and puts the
    implementation and the evaluation behind it, verbatim. *)
Lemma updateContext_contains ctx impl ev :
  beginsWith (updateContext ctx impl ev) ctx
  /\ occursIn impl (updateContext ctx impl ev)
  /\ occursIn ev (updateContext ctx impl ev).
Proof.
  unfold updateContext, beginsWith, occursIn.
  set (a := "

---

## Previous Iteration

### Implementation Attempt
").
  set (b := "

### Architect Feedback
").
  set (c := "

---

Address the feedback above in the next iteration.").
  split; [|split].
  - exists (a +:+ impl +:+ b +:+ ev +:+ c). reflexivity.
  - exists (ctx +:+ a), (b +:+ ev +:+ c). now rewrite append_assoc.
  - exists (ctx +:+ a +:+ impl +:+ b), c. now rewrite !append_assoc.
Qed.

Section LoopTheorems.
Variable createMessage : list RoleCall -> RoleCall -> Result (list ApiStreamChunk).
Variable config : ArchitectConfig.
Variable architectureAnalyzer : option ArchitectureAnalyzer.

(** C6 (convergence on the first pass).  On a new orchestrator with a budget
    of at least one iteration (so that there is an iteration 1), if the three
    role calls of iteration 1 succeed and the evaluation, trimmed and upper
    cased, starts with APPROVED, then [run] yields exactly the updates of one
    Planning/Implementing/Evaluating cycle followed by the completion update
    with iterations = 1, leaves the phase at [complete], makes no further role
    call and returns. *)
Theorem convergence_first_pass (task codebaseContext : string)
    (stream1 stream2 stream3 : list ApiStreamChunk) (review : option ArchitectUpdate) :
  let ctx := withTypesContext architectureAnalyzer codebaseContext in
  let c1 := planCall config task ctx in
  let plan := extractThinkingAndContent (blocksOf stream1) in
  let c2 := editorCall config (snd plan) ctx in
  let impl := extractContent (blocksOf stream2) in
  let c3 := evaluateCall config architectureAnalyzer task (snd plan) impl ctx in
  let ev := extractThinkingAndContent (blocksOf stream3) in
  (0 < maxIterations config)%Z ->
  createMessage [] c1 = Ok stream1 ->
  createMessage [c1] c2 = Ok stream2 ->
  architectureReview architectureAnalyzer 2 impl = Ok review ->
  createMessage [c1; c2] c3 = Ok stream3 ->
  isComplete (snd ev) = true ->
  run createMessage config architectureAnalyzer task codebaseContext newRun =
    Some (Ok tt,
          {| state := {| phase := complete; currentIteration := 1;
                         plan := Some (snd plan); implementation := Some impl;
                         evaluation := Some (snd ev); thinkingContent := Some (fst plan) |};
             calls := [c1; c2; c3];
             emitted := cycleUpdates 1 plan impl review ev ++ [complete_update 1] |}).
Proof.
  intros ctx c1 plan c2 impl c3 ev Hmax H1 H2 Hr H3 Hdone.
  unfold run. change (currentIteration (state newRun)) with 0%Z.
  destruct (Z.to_nat (maxIterations config - 0)) as [|fuel] eqn:Hfuel; [lia|].
  cbn [runLoop]. change (currentIteration (state newRun)) with 0%Z.
  destruct (Z.ltb_spec 0 (maxIterations config)); [|lia]. fold ctx.
  rewrite (pass_ok createMessage config architectureAnalyzer task ctx newRun
             stream1 stream2 review stream3 H1 H2 Hr H3).
  fold ev. rewrite Hdone. reflexivity.
Qed.

(** C8 (context accumulation).  For every pass N of the loop (N is
    [currentIteration + 1]) whose role calls succeed and whose evaluation does
    not approve, the loop goes on into pass N+1 with a context that begins
    with the context of pass N, unshortened, and contains the implementation
    text and the evaluation text of pass N verbatim. *)
Theorem context_accumulation (task ctx : string) (s : RunState)
    (stream1 stream2 stream3 : list ApiStreamChunk) (review : option ArchitectUpdate) :
  let c1 := planCall config task ctx in
  let plan := extractThinkingAndContent (blocksOf stream1) in
  let c2 := editorCall config (snd plan) ctx in
  let impl := extractContent (blocksOf stream2) in
  let c3 := evaluateCall config architectureAnalyzer task (snd plan) impl ctx in
  let ev := extractThinkingAndContent (blocksOf stream3) in
  (currentIteration (state s) < maxIterations config)%Z ->
  createMessage (calls s) c1 = Ok stream1 ->
  createMessage (calls s ++ [c1]) c2 = Ok stream2 ->
  architectureReview architectureAnalyzer (length (calls s ++ [c1; c2])) impl = Ok review ->
  createMessage (calls s ++ [c1; c2]) c3 = Ok stream3 ->
  isComplete (snd ev) = false ->
  exists ctx' s',
    pass createMessage config architectureAnalyzer task ctx s = (Ok (Continue ctx'), s')
    /\ (forall fuel,
          runLoop createMessage config architectureAnalyzer (S fuel) task ctx s =
          runLoop createMessage config architectureAnalyzer fuel task ctx' s')
    /\ currentIteration (state s') = (currentIteration (state s) + 1)%Z
    /\ beginsWith ctx' ctx
    /\ occursIn impl ctx'
    /\ occursIn (snd ev) ctx'.
Proof.
  intros c1 plan c2 impl c3 ev Hlt H1 H2 Hr H3 Hrev.
  pose proof (pass_ok createMessage config architectureAnalyzer task ctx s
                stream1 stream2 review stream3 H1 H2 Hr H3) as Hpass.
  cbv zeta in Hpass. fold c1 plan c2 impl c3 ev in Hpass. rewrite Hrev in Hpass.
  eexists _, _. split; [exact Hpass|]. split; [|split; [reflexivity|]].
  - intros fuel. cbn [runLoop].
    destruct (Z.ltb_spec (currentIteration (state s)) (maxIterations config)); [|lia].
    now rewrite Hpass.
  - apply updateContext_contains.
Qed.

(** A pass whose role calls succeed and whose evaluation does not approve
    yields one full cycle and goes on. *)
Lemma pass_revision task ctx s :
  (forall h c, exists stream, createMessage h c = Ok stream) ->
  (forall now impl, exists review, architectureReview architectureAnalyzer now impl = Ok review) ->
  (forall h c stream,
      systemPrompt c = evaluateSystem config architectureAnalyzer ->
      createMessage h c = Ok stream ->
      isComplete (snd (extractThinkingAndContent (blocksOf stream))) = false) ->
  exists cycle ctx' s',
    pass createMessage config architectureAnalyzer task ctx s = (Ok (Continue ctx'), s')
    /\ isCycle (currentIteration (state s) + 1) cycle
    /\ emitted s' = emitted s ++ cycle
    /\ currentIteration (state s') = (currentIteration (state s) + 1)%Z.
Proof.
  intros Hcalls Hreviews Hnever.
  destruct (Hcalls (calls s) (planCall config task ctx)) as [stream1 H1].
  set (plan := extractThinkingAndContent (blocksOf stream1)).
  destruct (Hcalls (calls s ++ [planCall config task ctx]) (editorCall config (snd plan) ctx))
    as [stream2 H2].
  set (impl := extractContent (blocksOf stream2)).
  destruct (Hreviews (length (calls s ++ [planCall config task ctx;
                                          editorCall config (snd plan) ctx])) impl)
    as [review Hr].
  destruct (Hcalls (calls s ++ [planCall config task ctx; editorCall config (snd plan) ctx])
                   (evaluateCall config architectureAnalyzer task (snd plan) impl ctx))
    as [stream3 H3].
  pose proof (Hnever _ (evaluateCall config architectureAnalyzer task (snd plan) impl ctx) _
                     eq_refl H3) as Hrev.
  pose proof (pass_ok createMessage config architectureAnalyzer task ctx s
                stream1 stream2 review stream3 H1 H2 Hr H3) as Hpass.
  cbv zeta in Hpass. fold plan impl in Hpass. rewrite Hrev in Hpass.
  eexists _, _, _. split; [exact Hpass|]. cbn [state emitted currentIteration].
  split; [|split; [now rewrite app_nil_r|reflexivity]].
  eexists _, _, _, _. split; [|reflexivity].
  eapply architectureReview_advisory. exact Hr.
Qed.

(** C7 (budget exhaustion).  With [maxIterations = 3], role calls and
    advisory reviews that succeed, and an evaluating role that never answers
    with an approval, [run] on a new orchestrator yields exactly three full
    cycles, of iterations 1, 2 and 3, then the max-iterations update with
    iterations = 3, and returns normally in phase [failed]. *)
Theorem budget_exhaustion (task codebaseContext : string) :
  maxIterations config = 3%Z ->
  (forall h c, exists stream, createMessage h c = Ok stream) ->
  (forall now impl, exists review, architectureReview architectureAnalyzer now impl = Ok review) ->
  (forall h c stream,
      systemPrompt c = evaluateSystem config architectureAnalyzer ->
      createMessage h c = Ok stream ->
      isComplete (snd (extractThinkingAndContent (blocksOf stream))) = false) ->
  exists cycle1 cycle2 cycle3 s',
    run createMessage config architectureAnalyzer task codebaseContext newRun = Some (Ok tt, s')
    /\ isCycle 1 cycle1 /\ isCycle 2 cycle2 /\ isCycle 3 cycle3
    /\ emitted s' = cycle1 ++ cycle2 ++ cycle3 ++ [max_iterations_update 3]
    /\ phase (state s') = failed
    /\ currentIteration (state s') = 3%Z.
Proof.
  intros Hmax Hcalls Hreviews Hnever.
  unfold run. change (currentIteration (state newRun)) with 0%Z. rewrite Hmax.
  change (Z.to_nat (3 - 0)) with 3%nat.
  set (ctx := withTypesContext architectureAnalyzer codebaseContext).
  destruct (pass_revision task ctx newRun Hcalls Hreviews Hnever)
    as (cycle1 & ctx1 & s1 & Hp1 & Hc1 & He1 & Hi1).
  destruct (pass_revision task ctx1 s1 Hcalls Hreviews Hnever)
    as (cycle2 & ctx2 & s2 & Hp2 & Hc2 & He2 & Hi2).
  destruct (pass_revision task ctx2 s2 Hcalls Hreviews Hnever)
    as (cycle3 & ctx3 & s3 & Hp3 & Hc3 & He3 & Hi3).
  change (currentIteration (state newRun)) with 0%Z in *.
  rewrite Hi1 in *. rewrite Hi2 in *. cbn in Hc1, Hc2, Hc3, Hi1, Hi2, Hi3.
  exists cycle1, cycle2, cycle3. eexists.
  split.
  - cbn [runLoop]. change (currentIteration (state newRun)) with 0%Z.
    rewrite Hmax, Hp1, Hi1, Hp2, Hi2, Hp3, Hi3. cbn. reflexivity.
  - cbn [state emitted phase currentIteration setPhase].
    repeat split; try assumption.
    rewrite He3, He2, He1. cbn [emitted newRun]. rewrite Hi3.
    rewrite <- !app_assoc. reflexivity.
Qed.

Lemma clamp_range parsed : (1 <= maxIterationsOnChange parsed <= 10)%Z.
Proof. unfold maxIterationsOnChange. lia. Qed.

(** With a budget of at least one, a run on a new orchestrator whose first
    three role calls succeed yields a full first cycle, whatever comes after. *)
Lemma run_first_cycle (task codebaseContext : string)
    (stream1 stream2 stream3 : list ApiStreamChunk) (review : option ArchitectUpdate) :
  let ctx := withTypesContext architectureAnalyzer codebaseContext in
  let c1 := planCall config task ctx in
  let plan := extractThinkingAndContent (blocksOf stream1) in
  let c2 := editorCall config (snd plan) ctx in
  let impl := extractContent (blocksOf stream2) in
  let c3 := evaluateCall config architectureAnalyzer task (snd plan) impl ctx in
  let ev := extractThinkingAndContent (blocksOf stream3) in
  (1 <= maxIterations config)%Z ->
  createMessage [] c1 = Ok stream1 ->
  createMessage [c1] c2 = Ok stream2 ->
  architectureReview architectureAnalyzer 2 impl = Ok review ->
  createMessage [c1; c2] c3 = Ok stream3 ->
  exists r s' rest,
    run createMessage config architectureAnalyzer task codebaseContext newRun = Some (r, s')
    /\ emitted s' = cycleUpdates 1 plan impl review ev ++ rest.
Proof.
  intros ctx c1 plan c2 impl c3 ev Hmax H1 H2 Hr H3.
  destruct (run_total createMessage config architectureAnalyzer task codebaseContext newRun)
    as [[r s'] Hrun].
  exists r, s'. rewrite Hrun.
  unfold run in Hrun. change (currentIteration (state newRun)) with 0%Z in Hrun.
  destruct (Z.to_nat (maxIterations config - 0)) as [|fuel] eqn:Hfuel; [lia|].
  cbn [runLoop] in Hrun. change (currentIteration (state newRun)) with 0%Z in Hrun.
  destruct (Z.ltb_spec 0 (maxIterations config)); [|lia]. fold ctx in Hrun.
  rewrite (pass_ok createMessage config architectureAnalyzer task ctx newRun
             stream1 stream2 review stream3 H1 H2 Hr H3) in Hrun.
  fold plan impl ev in Hrun. cbn [emitted newRun app] in Hrun.
  change (currentIteration (state newRun) + 1)%Z with 1%Z in Hrun.
  destruct (isComplete (snd ev)).
  - inversion Hrun; subst. cbn [emitted]. eexists. split; reflexivity.
  - apply runLoop_extends in Hrun. destruct Hrun as [us Hus]. cbn [emitted] in Hus.
    rewrite app_nil_r in Hus. exists us. split; [reflexivity|exact Hus].
Qed.

(** C5, as amended (iteration budget).  The clamp is in the settings field,
    not in the engine: whatever is entered there, zero and negative numbers
    and text that is no number included, the value stored lies in 1..10, and
    with a budget stored by that field a run on a new orchestrator whose
    first cycle's role calls succeed yields a full
    Planning/Implementing/Evaluating cycle of iteration 1 before anything
    else, so before it reaches a terminal state.  ([run] itself compares
    with [maxIterations] as configured, see [run_without_budget].) *)
Theorem clamped_budget_runs_a_cycle (parsed : option Z) (task codebaseContext : string)
    (stream1 stream2 stream3 : list ApiStreamChunk) (review : option ArchitectUpdate) :
  let ctx := withTypesContext architectureAnalyzer codebaseContext in
  let c1 := planCall config task ctx in
  let plan := extractThinkingAndContent (blocksOf stream1) in
  let c2 := editorCall config (snd plan) ctx in
  let impl := extractContent (blocksOf stream2) in
  let c3 := evaluateCall config architectureAnalyzer task (snd plan) impl ctx in
  let ev := extractThinkingAndContent (blocksOf stream3) in
  maxIterations config = maxIterationsOnChange parsed ->
  createMessage [] c1 = Ok stream1 ->
  createMessage [c1] c2 = Ok stream2 ->
  architectureReview architectureAnalyzer 2 impl = Ok review ->
  createMessage [c1; c2] c3 = Ok stream3 ->
  (1 <= maxIterations config <= 10)%Z
  /\ exists r s' rest,
       run createMessage config architectureAnalyzer task codebaseContext newRun = Some (r, s')
       /\ emitted s' = cycleUpdates 1 plan impl review ev ++ rest.
Proof.
  intros ctx c1 plan c2 impl c3 ev Hcfg H1 H2 Hr H3.
  pose proof (clamp_range parsed) as Hrange. rewrite <- Hcfg in Hrange.
  split; [exact Hrange|].
  apply run_first_cycle; [lia|assumption..].
Qed.

(** Without the clamp of the settings field the engine takes the budget as
    it is: with a budget of zero or less there is no cycle at all. *)
Lemma run_without_budget (task codebaseContext : string) :
  (maxIterations config <= 0)%Z ->
  run createMessage config architectureAnalyzer task codebaseContext newRun =
    Some (Ok tt, {| state := setPhase failed initialState; calls := [];
                    emitted := [max_iterations_update 0] |}).
Proof.
  intros Hmax. unfold run. change (currentIteration (state newRun)) with 0%Z.
  replace (Z.to_nat (maxIterations config - 0)) with 0%nat by lia.
  cbn [runLoop]. change (currentIteration (state newRun)) with 0%Z.
  destruct (Z.ltb_spec 0 (maxIterations config)); [lia|]. reflexivity.
Qed.

End LoopTheorems.

(** ** The loop on concrete backends *)

(** An evaluating role that approves at once, in lower case and behind
    blanks. *)
Lemma convergence_first_pass_witness :
  exists s',
    run approving (budget 2) None "Add a parser" "repo" newRun = Some (Ok tt, s')
    /\ emitted s' =
         [phase_update planning 1;
          plan_update "1. Add src/parser.ts" "";
          phase_update implementing 1;
          implementation_update "export const parse = JSON.parse";
          phase_update evaluating 1;
          thinking_update "Comparing the implementation with the plan.";
          evaluation_update "  approved: matches the plan"
                            "Comparing the implementation with the plan.";
          complete_update 1]
    /\ phase (state s') = complete.
Proof.
  eexists. split; [|split].
  - apply (convergence_first_pass approving (budget 2) None "Add a parser" "repo"
             [text_chunk "1. Add src/parser.ts"]
             [text_chunk "export const parse = JSON.parse"]
             [reasoning_chunk "Comparing the implementation with the plan.";
              text_chunk "  approved: matches the plan"]
             None).
    + reflexivity.
    + reflexivity.
    + reflexivity.
    + reflexivity.
    + reflexivity.
    + reflexivity.
  - reflexivity.
  - reflexivity.
Defined.

Lemma revising_never_approves h c stream :
  systemPrompt c = evaluateSystem (budget 3) None ->
  revising h c = Ok stream ->
  isComplete (snd (extractThinkingAndContent (blocksOf stream))) = false.
Proof.
  intros Hsys Hcall. unfold revising, roleBackends in Hcall. rewrite Hsys in Hcall.
  destruct (handler c).
  - change (evaluateSystem (budget 3) None) with (evaluateSystem (budget 0) None) in Hcall.
    rewrite String.eqb_refl in Hcall. inversion Hcall. reflexivity.
  - inversion Hcall. reflexivity.
Defined.

Lemma roleBackends_answer planText implText verdict h c :
  exists stream, roleBackends planText implText verdict h c = Ok stream.
Proof.
  unfold roleBackends. destruct (handler c); [destruct (String.eqb _ _)|]; eexists; reflexivity.
Defined.

(** An evaluating role that always asks for a revision, and a budget of
    three. *)
Lemma budget_exhaustion_witness :
  exists cycle1 cycle2 cycle3 s',
    run revising (budget 3) None "Add a parser" "repo" newRun = Some (Ok tt, s')
    /\ isCycle 1 cycle1 /\ isCycle 2 cycle2 /\ isCycle 3 cycle3
    /\ emitted s' = cycle1 ++ cycle2 ++ cycle3 ++ [max_iterations_update 3]
    /\ phase (state s') = failed
    /\ currentIteration (state s') = 3%Z.
Proof.
  apply (budget_exhaustion revising (budget 3) None "Add a parser" "repo").
  - reflexivity.
  - intros h c. apply roleBackends_answer.
  - intros now impl. exists None. reflexivity.
  - apply revising_never_approves.
Defined.

(** The first pass of the same run: the context of the second pass. *)
Lemma context_accumulation_witness :
  exists ctx' s',
    pass revising (budget 3) None "Add a parser" "repo" newRun = (Ok (Continue ctx'), s')
    /\ (forall fuel,
          runLoop revising (budget 3) None (S fuel) "Add a parser" "repo" newRun =
          runLoop revising (budget 3) None fuel "Add a parser" ctx' s')
    /\ currentIteration (state s') = (currentIteration (state newRun) + 1)%Z
    /\ beginsWith ctx' "repo"
    /\ occursIn "export const parse = JSON.parse" ctx'
    /\ occursIn "REVISION NEEDED: handle empty input" ctx'.
Proof.
  apply (context_accumulation revising (budget 3) None "Add a parser" "repo" newRun
           [text_chunk "1. Add src/parser.ts"]
           [text_chunk "export const parse = JSON.parse"]
           [reasoning_chunk "Comparing the implementation with the plan.";
            text_chunk "REVISION NEEDED: handle empty input"]
           None).
  - reflexivity.
  - reflexivity.
  - reflexivity.
  - reflexivity.
  - reflexivity.
  - reflexivity.
Defined.

(** The settings field turns an entered -4 into 1, and the run has its cycle. *)
Lemma clamped_budget_runs_a_cycle_witness :
  (1 <= maxIterations (budget (maxIterationsOnChange (Some (-4)%Z))) <= 10)%Z
  /\ exists r s' rest,
       run revising (budget (maxIterationsOnChange (Some (-4)%Z))) None
           "Add a parser" "repo" newRun = Some (r, s')
       /\ emitted s' =
            cycleUpdates 1 ("", "1. Add src/parser.ts") "export const parse = JSON.parse" None
              ("Comparing the implementation with the plan.",
               "REVISION NEEDED: handle empty input") ++ rest.
Proof.
  apply (clamped_budget_runs_a_cycle revising (budget (maxIterationsOnChange (Some (-4)%Z)))
           None (Some (-4)%Z) "Add a parser" "repo"
           [text_chunk "1. Add src/parser.ts"]
           [text_chunk "export const parse = JSON.parse"]
           [reasoning_chunk "Comparing the implementation with the plan.";
            text_chunk "REVISION NEEDED: handle empty input"]
           None).
  - reflexivity.
  - reflexivity.
  - reflexivity.
  - reflexivity.
  - reflexivity.
Defined.

(** C5 as stated fails: the engine does not clamp.  With [maxIterations]
    zero or negative, [run] on a new orchestrator makes no role call and
    yields no phase update, only the max-iterations update with
    iterations = 0, and ends in phase [failed]. *)
Lemma engine_does_not_clamp :
  run approving (budget 0) None "Add a parser" "repo" newRun =
    Some (Ok tt, {| state := setPhase failed initialState; calls := [];
                    emitted := [max_iterations_update 0] |})
  /\ run approving (budget (-3)) None "Add a parser" "repo" newRun =
    Some (Ok tt, {| state := setPhase failed initialState; calls := [];
                    emitted := [max_iterations_update 0] |})
  /\ ~ (exists r s' cycle rest,
          run approving (budget 0) None "Add a parser" "repo" newRun = Some (r, s')
          /\ isCycle 1 cycle /\ emitted s' = cycle ++ rest).
Proof.
  split; [reflexivity|]. split; [reflexivity|].
  intros (r & s' & cycle & rest & Hrun & (p & i & rv & e & _ & Hcycle) & Hem).
  change (run approving (budget 0) None "Add a parser" "repo" newRun)
    with (Some (Ok tt, {| state := setPhase failed initialState; calls := [];
                          emitted := [max_iterations_update 0] |})) in Hrun.
  inversion Hrun; subst. cbn in Hem. discriminate Hem.
Qed.

(** Scenario D of the specification: with a budget of two and an approval in
    the second pass, the run ends with the completion update of iteration 2. *)
Example scenario_D :
  exists s',
    run approvingSecond (budget 2) None "Add a parser" "repo" newRun = Some (Ok tt, s')
    /\ last (emitted s') = Some (complete_update 2)
    /\ length (emitted s') = 15%nat
    /\ phase (state s') = complete.
Proof.
  eexists. split; [vm_compute; reflexivity|].
  split; [vm_compute; reflexivity|].
  split; vm_compute; reflexivity.
Qed.

(** The approval token is looked for behind leading blanks and in any case;
    elsewhere in the text it does not count. *)
Example isComplete_examples :
  isComplete "APPROVED: fine" = true
  /\ isComplete "
   Approved, with thanks" = true
  /\ isComplete "REVISION NEEDED: not APPROVED" = false
  /\ isComplete "" = false.
Proof. repeat split; reflexivity. Qed.

(** * More properties of the Approval Decision Engine *)

(** ** Path separators *)

Lemma length_chars s : length (Js.chars s) = String.length s.
Proof. unfold Js.chars. induction s as [|c s IH]; cbn; [reflexivity|]. f_equal. exact IH. Qed.

Lemma chars_str l : Js.chars (Js.str l) = l.
Proof. apply list_ascii_of_string_of_list_ascii. Qed.

Lemma str_chars s : Js.str (Js.chars s) = s.
Proof. apply string_of_list_ascii_of_string. Qed.

Lemma chars_append a b : Js.chars (a +:+ b) = Js.chars a ++ Js.chars b.
Proof.
  unfold Js.chars. induction a as [|c a IH]; [reflexivity|].
  change (c :: list_ascii_of_string (a +:+ b)
          = c :: list_ascii_of_string a ++ list_ascii_of_string b). now rewrite IH.
Qed.

Lemma str_app a b : Js.str (a ++ b) = Js.str a +:+ Js.str b.
Proof.
  unfold Js.str. induction a as [|c a IH]; [reflexivity|].
  change (String c (string_of_list_ascii (a ++ b))
          = String c (string_of_list_ascii a +:+ string_of_list_ascii b)). now rewrite IH.
Qed.

Lemma splitAtBackslash_some s p q :
  splitAtBackslash s = Some (p, q) ->
  s = p ++ "\"%char :: q /\ map toSlash p = p /\ length q < length s.
Proof.
  revert p q. induction s as [|c s IH]; intros p q; cbn; [discriminate|].
  destruct (Ascii.eqb c "\") eqn:Hc.
  - intros H; inversion H; subst. apply Ascii.eqb_eq in Hc. subst. cbn. repeat split; lia.
  - destruct (splitAtBackslash s) as [[p' q']|]; [|discriminate].
    intros H; inversion H; subst. destruct (IH _ _ eq_refl) as (-> & Hp & Hlen).
    cbn. unfold toSlash at 1. rewrite Hc, Hp. repeat split. cbn in *. lia.
Qed.

Lemma splitAtBackslash_none s : splitAtBackslash s = None -> map toSlash s = s.
Proof.
  induction s as [|c s IH]; cbn; [reflexivity|].
  destruct (Ascii.eqb c "\") eqn:Hc; [discriminate|].
  destruct (splitAtBackslash s) as [[p q]|]; [discriminate|].
  intros _. unfold toSlash at 1. rewrite Hc. now rewrite IH.
Qed.

(** The search for a backslash finds the first one. *)
Lemma search_backslash total skipped s :
  RegExp.search false total (RegExp.NSeq (RegExp.NChar "\"%char) RegExp.NEmpty) skipped s =
    match splitAtBackslash s with
    | Some (p, q) => Some (RegExp.mkMatch (rev skipped ++ p) ["\"%char] q [])
    | None => None
    end.
Proof.
  revert skipped. induction s as [|c s IH]; intros skipped; [reflexivity|].
  cbn [RegExp.search RegExp.m RegExp.one RegExp.charEq splitAtBackslash].
  rewrite Ascii.eqb_sym. destruct (Ascii.eqb c "\") eqn:Hc.
  - apply Ascii.eqb_eq in Hc. subst.
    replace (length ("\"%char :: s) - length s) with 1 by (cbn; lia).
    cbn. now rewrite app_nil_r.
  - rewrite IH. destruct (splitAtBackslash s) as [[p q]|]; [|reflexivity].
    cbn. now rewrite <- app_assoc.
Qed.

Lemma replaceLoop_backslash fuel total s :
  length s < fuel ->
  RegExp.replaceLoop fuel false total (RegExp.NSeq (RegExp.NChar "\"%char) RegExp.NEmpty)
                     ["/"%char] s = map toSlash s.
Proof.
  revert s. induction fuel as [|fuel IH]; intros s Hlen; [lia|].
  cbn [RegExp.replaceLoop]. rewrite search_backslash.
  destruct (splitAtBackslash s) as [[p q]|] eqn:Hsplit.
  - destruct (splitAtBackslash_some _ _ _ Hsplit) as (-> & Hp & Hq).
    cbn [RegExp.before RegExp.matched RegExp.after rev app].
    rewrite IH by lia. rewrite map_app, Hp. reflexivity.
  - symmetry. now apply splitAtBackslash_none.
Qed.

(** [target.replace(/\\/g, "/")] turns every backslash into a slash and
    leaves the rest. *)
Lemma replace_separators target :
  RegExp.replace target (RegExp.lit "\\" "g") "/" = normalizeSeparators target.
Proof.
  change (RegExp.lit "\\" "g")
    with (RegExp.mk (RegExp.NSeq (RegExp.NChar "\"%char) RegExp.NEmpty) false true).
  unfold RegExp.replace, normalizeSeparators. cbn [RegExp.global RegExp.ignoreCase RegExp.node].
  change (Js.chars "/") with ["/"%char].
  now rewrite replaceLoop_backslash by lia.
Qed.





(** ** Anchored matchers *)

(** Past the first position [^] fails. *)
Lemma search_bol_later icase total r skipped s :
  length s < total ->
  RegExp.search icase total (RegExp.NSeq RegExp.NBol r) skipped s = None.
Proof.
  revert skipped. induction s as [|c s IH]; intros skipped Hlen.
  - cbn [RegExp.search RegExp.m].
    destruct (Nat.eqb_spec (length (@nil ascii)) total); [cbn in *; lia|reflexivity].
  - cbn [RegExp.search RegExp.m].
    destruct (Nat.eqb_spec (length (c :: s)) total); [lia|].
    apply IH. cbn in Hlen. lia.
Qed.

Lemma test_first_mismatch re a c s :
  anchoredFirst (RegExp.node re) = Some a ->
  RegExp.charEq (RegExp.ignoreCase re) a c = false ->
  RegExp.test re (String c s) = false.
Proof.
  intros Hnode Hne. unfold RegExp.test, RegExp.exec.
  destruct (RegExp.node re) as [| | | | | | |r1 r2| | | | |]; try discriminate.
  destruct r1; try discriminate. destruct r2 as [| | | | | | |r3 r4| | | | |]; try discriminate.
  destruct r3; try discriminate. cbn in Hnode. inversion Hnode; subst.
  change (Js.chars (String c s)) with (c :: Js.chars s).
  cbn [RegExp.search RegExp.m RegExp.one]. cbn [length String.length].
  rewrite length_chars, Nat.eqb_refl, Hne.
  rewrite search_bol_later; [reflexivity|]. rewrite length_chars. lia.
Qed.

Lemma noneStartsWith_test c matchers s :
  noneStartsWith c matchers = true ->
  existsb (fun re => RegExp.test re (String c s)) matchers = false.
Proof.
  unfold noneStartsWith. induction matchers as [|re rest IH]; cbn; [reflexivity|].
  intros H. apply andb_true_iff in H. destruct H as [Hre Hrest].
  rewrite (IH Hrest), orb_false_r.
  destruct (anchoredFirst (RegExp.node re)) as [a|] eqn:Ha; [|discriminate].
  apply negb_true_iff in Hre. eapply test_first_mismatch; eassumption.
Qed.

Lemma m_literal {A} total p rest caps (k : list ascii -> RegExp.Captures -> option A) :
  RegExp.m false total (literalNode p) (p ++ rest) caps k = k rest caps.
Proof.
  induction p as [|c p IH]; [reflexivity|].
  cbn [literalNode fold_right app RegExp.m RegExp.one RegExp.charEq].
  rewrite Ascii.eqb_refl. exact IH.
Qed.

Lemma search_unfold icase total r skipped s :
  RegExp.search icase total r skipped s =
    match RegExp.m icase total r s []
            (fun s' caps =>
               Some (RegExp.mkMatch (rev skipped) (firstn (length s - length s') s) s' caps)) with
    | Some res => Some res
    | None =>
        match s with
        | [] => None
        | c :: s' => RegExp.search icase total r (c :: skipped) s'
        end
    end.
Proof. destruct s; reflexivity. Qed.

(** A matcher [/^p/] for a literal text [p] matches every text that begins
    with [p]. *)
Lemma test_literal_prefix re p rest :
  RegExp.node re = RegExp.NSeq RegExp.NBol (literalNode p) ->
  RegExp.ignoreCase re = false ->
  RegExp.test re (Js.str (p ++ rest)) = true.
Proof.
  intros Hnode Hcase. unfold RegExp.test, RegExp.exec. rewrite Hnode, Hcase, chars_str.
  rewrite search_unfold. cbn [RegExp.m].
  rewrite <- length_chars, chars_str, Nat.eqb_refl, m_literal. reflexivity.
Qed.

(** ** What [decide] does and does not do *)





Section MoreEngine.

Variable client : list MessageCreateParams -> MessageCreateParams -> Result Message.
Variable JSON_parse : string -> Result JsValue.


(** X4 (effect on the cache).  [decide] never throws, and all it does to the
    engine is this: a decision with persist [always] is stored under the
    request's Pattern, any other decision leaves the cache as it was; the
    matcher lists and the configuration are never touched. *)
Theorem decide_cache_effect (request : ApprovalRequest) (w : World) :
  exists d w',
    decide client JSON_parse request w = (Ok d, w')
    /\ persistedRules (this w') =
         (if Persist_eqb (persist d) always
          then <[extractPattern request := allow d]> (persistedRules (this w))
          else persistedRules (this w))
    /\ INSTANT_ALLOW (this w') = INSTANT_ALLOW (this w)
    /\ INSTANT_DENY (this w') = INSTANT_DENY (this w)
    /\ config (this w') = config (this w).
Proof.
  destruct (decide_decides client JSON_parse request w) as (d & w' & Heq & Hpath).
  exists d, w'. split; [exact Heq|].
  destruct Hpath as [cached Hhit| | | | response ? ? Hp|response ? ? Hp]; cbn.
  - rewrite insert_id by exact Hhit. repeat split.
  - repeat split.
  - repeat split.
  - repeat split.
  - rewrite Hp. cbn. repeat split.
  - destruct (Persist_eqb _ always) eqn:Heqb; [|repeat split].
    apply Persist_eqb_always in Heqb. contradiction.
Qed.

(** X5 (use of the adjudicator).  [decide] turns to the adjudicator only for
    a request whose Pattern is not cached and whose literal matches neither
    list, and then exactly once, with a message made of the request's action,
    target and context and its Pattern; in every other case nothing is sent. *)
Theorem decide_adjudicator_use (request : ApprovalRequest) (w : World) :
  (escalates request w
   /\ sent (snd (decide client JSON_parse request w))
      = sent w ++ [askOpusParams request (extractPattern request)])
  \/ (~ escalates request w
      /\ sent (snd (decide client JSON_parse request w)) = sent w).
Proof.
  destruct (decide_decides client JSON_parse request w) as (d & w' & Heq & Hpath).
  rewrite Heq. cbn [snd].
  destruct Hpath as [cached Hhit|Hmiss Hdeny|Hmiss Hdeny Hallow| | |]; cbn.
  - right. split; [|reflexivity]. intros (Hmiss & _). congruence.
  - right. split; [|reflexivity]. intros (_ & Hno & _). congruence.
  - right. split; [|reflexivity]. intros (_ & _ & Hno). congruence.
  - left. split; [assumption|reflexivity].
  - left. split; [assumption|reflexivity].
  - left. split; [assumption|reflexivity].
Qed.

Lemma parseResponse_allow_false response :
  allow (parseResponse JSON_parse response) = false ->
  exists parsed,
    JSON_parse (cleanText (responseText response)) = Ok parsed
    /\ getProp parsed "allow" = Ok (Some (JBool false)).
Proof.
  unfold parseResponse, parseBody.
  destruct (JSON_parse (cleanText (responseText response))) as [parsed|e]; [|discriminate].
  destruct (getProp parsed "allow") as [[[]|]|e'] eqn:Hallow; cbn; try discriminate.
  intros ->. eauto.
Qed.

Lemma persistOfString_always s : persistOfString s = Some always -> s = "always".
Proof.
  unfold persistOfString.
  destruct (String.eqb s "once"); [discriminate|].
  destruct (String.eqb s "session"); [discriminate|].
  destruct (String.eqb s "always") eqn:H; [|discriminate].
  intros _. now apply String.eqb_eq.
Qed.

Lemma parseResponse_always response :
  persist (parseResponse JSON_parse response) = always ->
  exists parsed a,
    JSON_parse (cleanText (responseText response)) = Ok parsed
    /\ getProp parsed "allow" = Ok (Some (JBool a))
    /\ getProp parsed "persist" = Ok (Some (JString "always"))
    /\ allow (parseResponse JSON_parse response) = a.
Proof.
  unfold parseResponse, parseBody.
  destruct (JSON_parse (cleanText (responseText response))) as [parsed|e]; [|discriminate].
  destruct (getProp parsed "allow") as [[[] | ]|e'] eqn:Hallow; cbn; try discriminate.
  destruct (getProp parsed "persist") as [[[] | ]|e''] eqn:Hp; cbn; try discriminate.
  destruct (persistOfString s) as [[]|] eqn:Hs; cbn; try discriminate.
  intros _. apply persistOfString_always in Hs. subst. eauto 6.
Qed.

(** X6 (grounds for a denial).  [decide] denies a request only on one of
    three grounds: the cache holds [false] for its Pattern, a deny matcher
    matches its literal, or the adjudicator answered with JSON whose [allow]
    is [false].  No failure of the adjudicator or of the parsing denies. *)
Theorem denial_has_grounds (request : ApprovalRequest) (w w' : World) (d : ApprovalDecision) :
  decide client JSON_parse request w = (Ok d, w') ->
  allow d = false ->
  persistedRules (this w) !! extractPattern request = Some false
  \/ existsb (fun re => RegExp.test re (literalOf request)) (INSTANT_DENY (this w)) = true
  \/ exists response parsed,
       client (sent w) (askOpusParams request (extractPattern request)) = Ok response
       /\ JSON_parse (cleanText (responseText response)) = Ok parsed
       /\ getProp parsed "allow" = Ok (Some (JBool false)).
Proof.
  intros Heq Hdeny. apply decide_inv in Heq.
  destruct Heq as [cached Hhit| | | |response ? Hcall ?|response ? Hcall ?]; cbn in Hdeny.
  - left. congruence.
  - right. left. assumption.
  - discriminate.
  - discriminate.
  - right. right. destruct (parseResponse_allow_false _ Hdeny) as (parsed & ? & ?). eauto.
  - right. right. destruct (parseResponse_allow_false _ Hdeny) as (parsed & ? & ?). eauto.
Qed.

(** X7 (what the adjudicator can write).  When a request goes to the
    adjudicator, the cache changes only if the reply is JSON with a boolean
    [allow] and [persist] equal to "always", and then by that one entry. *)
Theorem adjudicator_writes_only_always (request : ApprovalRequest) (w w' : World)
    (d : ApprovalDecision) :
  escalates request w ->
  decide client JSON_parse request w = (Ok d, w') ->
  persistedRules (this w') <> persistedRules (this w) ->
  exists response parsed a,
    client (sent w) (askOpusParams request (extractPattern request)) = Ok response
    /\ JSON_parse (cleanText (responseText response)) = Ok parsed
    /\ getProp parsed "allow" = Ok (Some (JBool a))
    /\ getProp parsed "persist" = Ok (Some (JString "always"))
    /\ persistedRules (this w') = <[extractPattern request := a]> (persistedRules (this w)).
Proof.
  intros Hesc Heq Hchanged. apply decide_inv in Heq.
  destruct Hesc as (Hmiss & Hnodeny & Hnoallow).
  destruct Heq as [cached Hhit| | | |response ? Hcall Hp|response ? Hcall Hp];
    cbn in Hchanged; try congruence.
  destruct (parseResponse_always _ Hp) as (parsed & a & Hj & Ha & Hpa & Hallow).
  exists response, parsed, a. cbn. rewrite Hallow. repeat split; assumption.
Qed.

End MoreEngine.

(** ** Exporting, importing and clearing the cache *)

Section CachePersistence.

Variable client : list MessageCreateParams -> MessageCreateParams -> Result Message.
Variable JSON_parse : string -> Result JsValue.

(** X8 (export and import).  [importRules] sets every imported entry and
    keeps the cached entries it does not name; the rules exported from an
    engine, imported into the cleared engine, give back the cache that was
    exported. *)
Theorem export_import_round_trip (w : World) (rules : gmap string bool) (pattern : string) :
  exportRules (snd (importRules rules w)) !! pattern =
    match rules !! pattern with
    | Some b => Some b
    | None => exportRules w !! pattern
    end
  /\ exportRules (snd (clearPersistedRules w)) = ∅
  /\ exportRules (snd (importRules (exportRules w) (snd (clearPersistedRules w))))
     = exportRules w.
Proof.
  unfold exportRules, importRules, clearPersistedRules, modify. cbn.
  split; [|split; [reflexivity|]].
  - rewrite lookup_union. destruct (rules !! pattern), (persistedRules (this w) !! pattern);
      reflexivity.
  - apply map_union_empty.
Qed.

(** X9 (imported rules decide).  An imported rule is in force at once: the
    next [decide] on a request with that Pattern returns the imported boolean
    as a cached rule, whatever the matcher lists say about the request, and
    sends nothing to the adjudicator. *)
Theorem imported_rule_decides (w : World) (rules : gmap string bool)
    (request : ApprovalRequest) (b : bool) :
  rules !! extractPattern request = Some b ->
  decide client JSON_parse request (snd (importRules rules w)) =
    (Ok {| allow := b; persist := always; reasoning := "Cached rule" |},
     snd (importRules rules w)).
Proof.
  intros Hrule. apply decide_cached. unfold importRules, modify. cbn.
  rewrite lookup_union, Hrule. now destruct (persistedRules (this w) !! extractPattern request).
Qed.

(** X10 (clearing gives the matchers their say back).  After
    [clearPersistedRules] a request whose literal matches a deny matcher is
    blocked, whatever the cache held for its Pattern before. *)
Theorem clear_restores_deny (w : World) (request : ApprovalRequest) :
  existsb (fun re => RegExp.test re (literalOf request)) (INSTANT_DENY (this w)) = true ->
  decide client JSON_parse request (snd (clearPersistedRules w)) =
    (Ok {| allow := false; persist := always; reasoning := "Blocked pattern" |},
     setRule (extractPattern request) false (snd (clearPersistedRules w))).
Proof.
  intros Hdeny. apply decide_denied; unfold clearPersistedRules, modify; cbn.
  - apply lookup_empty.
  - exact Hdeny.
Qed.

(** ** Whole families of requests *)

(** X11 (literal deny matchers).  When the deny list holds a matcher of the
    form [/^p/] for a literal text [p], every request whose literal begins
    with [p] and whose Pattern is not cached is blocked. *)
Theorem literal_deny_blocks (w : World) (request : ApprovalRequest) (re : RegExp.t)
    (p rest : list ascii) :
  In re (INSTANT_DENY (this w)) ->
  RegExp.node re = RegExp.NSeq RegExp.NBol (literalNode p) ->
  RegExp.ignoreCase re = false ->
  literalOf request = Js.str (p ++ rest) ->
  persistedRules (this w) !! extractPattern request = None ->
  decide client JSON_parse request w =
    (Ok {| allow := false; persist := always; reasoning := "Blocked pattern" |},
     setRule (extractPattern request) false w).
Proof.
  intros Hin Hnode Hcase Hlit Hmiss. apply decide_denied; [exact Hmiss|].
  apply existsb_exists. exists re. split; [exact Hin|].
  rewrite Hlit. now apply test_literal_prefix.
Qed.

Lemma literalOf_string request :
  literalOf request
  = actionString (action request) +:+ ":" +:+ normalizeSeparators (target request).
Proof. unfold literalOf. now rewrite replace_separators. Qed.

(** X12 (reads).  With the built-in deny list, every read request whose
    Pattern is not cached is allowed as a safe pattern, whatever its target:
    no deny matcher is about reads, and the first allow matcher takes them
    all.  Nothing is sent to the adjudicator. *)
Theorem every_read_is_allowed (w : World) (request : ApprovalRequest)
    (customs : list RegExp.t) :
  action request = read ->
  INSTANT_DENY (this w) = default_INSTANT_DENY ->
  INSTANT_ALLOW (this w) = default_INSTANT_ALLOW ++ customs ->
  persistedRules (this w) !! extractPattern request = None ->
  decide client JSON_parse request w =
    (Ok {| allow := true; persist := always; reasoning := "Safe pattern" |},
     setRule (extractPattern request) true w).
Proof.
  intros Hread Hdeny Hallow Hmiss.
  assert (Hlit : literalOf request =
                 String "r" ("ead:" +:+ normalizeSeparators (target request))).
  { rewrite literalOf_string, Hread. reflexivity. }
  apply decide_allowed; [exact Hmiss| |].
  - rewrite Hdeny, Hlit. apply noneStartsWith_test. vm_compute. reflexivity.
  - rewrite Hallow, existsb_app. apply orb_true_iff. left.
    change default_INSTANT_ALLOW
      with (RegExp.lit "^read:" "" :: tl default_INSTANT_ALLOW).
    cbn [existsb]. apply orb_true_iff. left.
    rewrite literalOf_string, Hread.
    change (actionString read +:+ ":" +:+ normalizeSeparators (target request))
      with (Js.str (Js.chars "read:") +:+ normalizeSeparators (target request)).
    rewrite <- (str_chars (normalizeSeparators (target request))), <- str_app.
    apply test_literal_prefix; reflexivity.
Qed.

(** X13 (deletes).  With the built-in lists and no custom pattern, every
    delete request whose Pattern is not cached goes to the adjudicator: no
    matcher of either list is about deletes.  Exactly one message is sent. *)
Theorem every_delete_is_escalated (w : World) (request : ApprovalRequest) :
  action request = delete ->
  INSTANT_DENY (this w) = default_INSTANT_DENY ->
  INSTANT_ALLOW (this w) = default_INSTANT_ALLOW ->
  persistedRules (this w) !! extractPattern request = None ->
  escalates request w
  /\ decide client JSON_parse request w =
       askOpus client JSON_parse request (extractPattern request) w
  /\ sent (snd (decide client JSON_parse request w))
     = sent w ++ [askOpusParams request (extractPattern request)].
Proof.
  intros Hdelete Hdeny Hallow Hmiss.
  assert (Hlit : literalOf request =
                 String "d" ("elete:" +:+ normalizeSeparators (target request))).
  { rewrite literalOf_string, Hdelete. reflexivity. }
  assert (Hesc : escalates request w).
  { split; [exact Hmiss|]. rewrite Hdeny, Hallow, Hlit.
    split; apply noneStartsWith_test; vm_compute; reflexivity. }
  split; [exact Hesc|]. split; [now apply decide_escalated|].
  rewrite (decide_escalated _ _ _ _ Hesc).
  destruct (client (sent w) (askOpusParams request (extractPattern request)))
    as [response|e] eqn:Hcall.
  - rewrite (askOpus_answers _ _ _ _ _ _ Hcall). cbn [snd].
    now destruct (Persist_eqb _ _).
  - now rewrite (askOpus_throws _ _ _ _ _ _ Hcall).
Qed.

End CachePersistence.

(** * What the engine never looks at *)

Section Unused.

Variable client : list MessageCreateParams -> MessageCreateParams -> Result Message.
Variable JSON_parse : string -> Result JsValue.

(** X14 (what is never read).  [decide] reads neither the
    [previousDecisions] of the request nor the engine's configuration
    record: with any other previous decisions and any other configuration,
    an engine whose [enabled] flag is off included, the decision, the cache
    and the messages sent are the same. *)
Theorem decide_never_reads (request : ApprovalRequest) (decisions : gmap string string)
    (cfg : ApprovalOracleConfig) (w : World) :
  decide client JSON_parse (withPreviousDecisions request decisions) (withConfig cfg w)
  = (fst (decide client JSON_parse request w),
     withConfig cfg (snd (decide client JSON_parse request w))).
Proof.
  change (decide client JSON_parse (withPreviousDecisions request decisions) (withConfig cfg w))
    with (decide client JSON_parse request (withConfig cfg w)).
  destruct (persistedRules (this w) !! extractPattern request) as [cached|] eqn:Hhit.
  { rewrite (decide_cached client JSON_parse request w cached Hhit).
    now rewrite (decide_cached client JSON_parse request (withConfig cfg w) cached Hhit). }
  destruct (existsb (fun re => RegExp.test re (literalOf request)) (INSTANT_DENY (this w)))
    eqn:Hdeny.
  { rewrite (decide_denied client JSON_parse request w Hhit Hdeny).
    now rewrite (decide_denied client JSON_parse request (withConfig cfg w) Hhit Hdeny). }
  destruct (existsb (fun re => RegExp.test re (literalOf request)) (INSTANT_ALLOW (this w)))
    eqn:Hallow.
  { rewrite (decide_allowed client JSON_parse request w Hhit Hdeny Hallow).
    now rewrite (decide_allowed client JSON_parse request (withConfig cfg w) Hhit Hdeny Hallow). }
  rewrite (decide_escalated client JSON_parse request w (conj Hhit (conj Hdeny Hallow))).
  rewrite (decide_escalated client JSON_parse request (withConfig cfg w)
             (conj Hhit (conj Hdeny Hallow))).
  destruct (client (sent w) (askOpusParams request (extractPattern request)))
    as [response|e] eqn:Hcall.
  - rewrite (askOpus_answers client JSON_parse request _ w response Hcall).
    rewrite (askOpus_answers client JSON_parse request _ (withConfig cfg w) response Hcall).
    now destruct (Persist_eqb _ always).
  - rewrite (askOpus_throws client JSON_parse request _ w e Hcall).
    now rewrite (askOpus_throws client JSON_parse request _ (withConfig cfg w) e Hcall).
Qed.

End Unused.

(** * The code fence of a reply *)

Lemma fence_literal : RegExp.lit "```json\n?|\n?```" "g" = RegExp.mk fenceNode false true.
Proof. vm_compute. reflexivity. Qed.

(** The fence pattern matches at no place where the text goes on with a
    character other than a backtick, followed by another such character. *)
Lemma m_fence_none {A} total c s caps (k : list ascii -> RegExp.Captures -> option A) :
  Ascii.eqb c "`"%char = false ->
  startsWithBacktick s = false ->
  RegExp.m false total fenceNode (c :: s) caps k = None.
Proof.
  intros Hc Hs. unfold fenceNode.
  cbn [RegExp.m RegExp.one RegExp.charEq RegExp.repeat RegExp.progress].
  rewrite (Ascii.eqb_sym "`"%char c), Hc.
  destruct (Ascii.eqb "010"%char c); [|reflexivity].
  unfold RegExp.progress.
  destruct (Nat.ltb (length s) (length (c :: s))); [|reflexivity].
  destruct s as [|d s]; [reflexivity|]. cbn in Hs.
  cbn [RegExp.one RegExp.charEq].
  now rewrite (Ascii.eqb_sym "`"%char d), Hs.
Qed.

Lemma search_fence_skip total body rest skipped :
  forallb (fun c => negb (Ascii.eqb c "`"%char)) body = true ->
  startsWithBacktick rest = false ->
  RegExp.search false total fenceNode skipped (body ++ rest)
  = RegExp.search false total fenceNode (rev body ++ skipped) rest.
Proof.
  revert skipped. induction body as [|c body IH]; intros skipped Hbody Hrest; [reflexivity|].
  cbn [forallb] in Hbody. apply andb_prop in Hbody as [Hc Hbody].
  apply negb_true_iff in Hc.
  cbn [app]. rewrite search_unfold, m_fence_none; [|exact Hc|].
  - rewrite (IH _ Hbody Hrest). cbn [rev]. now rewrite <- app_assoc.
  - destruct body as [|d body]; [exact Hrest|].
    cbn [forallb] in Hbody. apply andb_prop in Hbody as [Hd _].
    now apply negb_true_iff in Hd.
Qed.

Lemma firstn_consumed {A} (p r : list A) : firstn (length (p ++ r) - length r) (p ++ r) = p.
Proof.
  rewrite length_app. replace (length p + length r - length r) with (length p) by lia.
  rewrite firstn_app, Nat.sub_diag, firstn_all. cbn. apply app_nil_r.
Qed.

(** The opening fence is found at the start of the text. *)
Lemma search_opening_fence total rest :
  RegExp.search false total fenceNode [] (Js.chars "```json
" ++ rest)
  = Some (RegExp.mkMatch [] (Js.chars "```json
") rest []).
Proof.
  rewrite search_unfold.
  change (Js.chars "```json
") with ["`"; "`"; "`"; "j"; "s"; "o"; "n"; "010"]%char.
  set (opening := ["`"; "`"; "`"; "j"; "s"; "o"; "n"; "010"]%char).
  unfold fenceNode.
  cbn [RegExp.m RegExp.one RegExp.charEq RegExp.repeat app opening].
  cbn [Ascii.eqb Bool.eqb]. unfold RegExp.progress.
  assert (Hlt : Nat.ltb (length rest) (length ("010"%char :: rest)) = true)
    by (apply Nat.ltb_lt; cbn; lia).
  rewrite Hlt. cbn [rev]. f_equal. f_equal.
  apply (firstn_consumed opening rest).
Qed.

(** The closing fence is found where the text ends with it. *)
Lemma search_closing_fence total skipped :
  RegExp.search false total fenceNode skipped (Js.chars "
```")
  = Some (RegExp.mkMatch (rev skipped) (Js.chars "
```") [] []).
Proof. reflexivity. Qed.

Lemma replaceLoop_plain fuel total s :
  forallb (fun c => negb (Ascii.eqb c "`"%char)) s = true ->
  RegExp.replaceLoop fuel false total fenceNode [] s = s.
Proof.
  intros Hs. destruct fuel as [|fuel]; [reflexivity|]. cbn [RegExp.replaceLoop].
  rewrite <- (app_nil_r s) at 1.
  rewrite (search_fence_skip total s [] [] Hs eq_refl). reflexivity.
Qed.

Lemma replaceLoop_fenced fuel total body :
  forallb (fun c => negb (Ascii.eqb c "`"%char)) body = true ->
  RegExp.replaceLoop (S (S fuel)) false total fenceNode []
    (Js.chars "```json
" ++ body ++ Js.chars "
```") = body.
Proof.
  intros Hbody. cbn [RegExp.replaceLoop].
  rewrite search_opening_fence.
  cbn [RegExp.before RegExp.matched RegExp.after RegExp.substitute app].
  change (Js.chars "```json
") with ["`"; "`"; "`"; "j"; "s"; "o"; "n"; "010"]%char. cbv iota.
  rewrite (search_fence_skip total body (Js.chars "
```") [] Hbody eq_refl), search_closing_fence.
  cbn [RegExp.before RegExp.matched RegExp.after RegExp.substitute app].
  change (Js.chars "
```") with ["010"; "`"; "`"; "`"]%char. cbv iota.
  rewrite app_nil_r, rev_involutive.
  destruct fuel; cbn; now rewrite app_nil_r.
Qed.

Lemma cleanText_plain text : noBacktick text = true -> cleanText text = Js.trim text.
Proof.
  intros H. unfold cleanText, RegExp.replace. rewrite fence_literal.
  cbn [RegExp.global RegExp.ignoreCase RegExp.node].
  change (Js.chars "") with (@nil ascii).
  now rewrite (replaceLoop_plain _ _ _ H), str_chars.
Qed.

Lemma cleanText_fenced body : noBacktick body = true -> cleanText (fenced body) = Js.trim body.
Proof.
  intros H. unfold cleanText, RegExp.replace, fenced. rewrite fence_literal.
  cbn [RegExp.global RegExp.ignoreCase RegExp.node].
  change (Js.chars "") with (@nil ascii).
  rewrite !chars_append.
  rewrite length_app. cbn [length Js.chars list_ascii_of_string plus].
  now rewrite (replaceLoop_fenced _ _ _ H), str_chars.
Qed.

Section Fences.

Variable JSON_parse : string -> Result JsValue.

(** X15 (code fence).  A reply wrapped in a JSON code fence is read as the
    reply without the fence, whatever the reply says, as long as the reply
    itself holds no backtick: the decision is the same. *)
Theorem fenced_reply_reads_as_plain (body : string) :
  noBacktick body = true ->
  cleanText (fenced body) = cleanText body
  /\ parseResponse JSON_parse (textReply (fenced body))
     = parseResponse JSON_parse (textReply body).
Proof.
  intros H.
  assert (Hclean : cleanText (fenced body) = cleanText body)
    by now rewrite cleanText_fenced, cleanText_plain.
  split; [exact Hclean|].
  unfold parseResponse, parseBody, textReply. cbn [responseText blocks text].
  now rewrite Hclean.
Qed.

End Fences.

Lemma fenced_reply_reads_as_plain_witness :
  let body := replyText "false" "always" "never force-push" in
  cleanText (fenced body) = cleanText body
  /\ parseResponse Json.parse (textReply (fenced body))
     = parseResponse Json.parse (textReply body).
Proof.
  intros body. apply (fenced_reply_reads_as_plain Json.parse body).
  vm_compute. reflexivity.
Defined.

(** * More properties of the orchestration loop *)

Section MoreLoop.

Variable createMessage : list RoleCall -> RoleCall -> Result (list ApiStreamChunk).
Variable config : ArchitectConfig.
Variable architectureAnalyzer : option ArchitectureAnalyzer.

(** The planning call throws: the pass ends there, after one update. *)
Lemma pass_plan_fails task ctx s e :
  let n := (currentIteration (state s) + 1)%Z in
  let c1 := planCall config task ctx in
  createMessage (calls s) c1 = Throw e ->
  pass createMessage config architectureAnalyzer task ctx s =
   (Throw e,
    {| state := {| phase := planning; currentIteration := n; plan := plan (state s);
                   implementation := implementation (state s);
                   evaluation := evaluation (state s);
                   thinkingContent := thinkingContent (state s) |};
       calls := calls s ++ [c1];
       emitted := emitted s ++ [phase_update planning n] |}).
Proof.
  intros n c1 H1. unfold pass, bind, setState, yield, modify, iterationNow, gets, reviewArchitecture, lift, ret.
  rewrite architectPlan_call. cbn [state calls emitted recordCall].
  fold c1. rewrite H1. reflexivity.
Qed.

(** The editor call throws: the plan has been yielded, nothing more. *)
Lemma pass_editor_fails task ctx s stream1 e :
  let n := (currentIteration (state s) + 1)%Z in
  let c1 := planCall config task ctx in
  let plan := extractThinkingAndContent (blocksOf stream1) in
  let c2 := editorCall config (snd plan) ctx in
  createMessage (calls s) c1 = Ok stream1 ->
  createMessage (calls s ++ [c1]) c2 = Throw e ->
  pass createMessage config architectureAnalyzer task ctx s =
   (Throw e,
    {| state := {| phase := implementing; currentIteration := n; plan := Some (snd plan);
                   implementation := implementation (state s);
                   evaluation := evaluation (state s);
                   thinkingContent := Some (fst plan) |};
       calls := calls s ++ [c1; c2];
       emitted := emitted s ++ [phase_update planning n] ++ thinkingUpdates (fst plan)
                  ++ [plan_update (snd plan) (fst plan); phase_update implementing n] |}).
Proof.
  intros n c1 plan c2 H1 H2. unfold pass, bind, setState, yield, modify, iterationNow, gets, reviewArchitecture, lift, ret.
  rewrite architectPlan_call. cbn [state calls emitted recordCall].
  fold c1. rewrite H1. fold plan.
  destruct (PersonaLoader.isEmpty (fst plan)) eqn:Hpt.
  all: rewrite editorImplement_call; cbn [state calls emitted recordCall setPhase setPlan incrementIteration currentIteration].
  all: fold c2; rewrite H2.
  all: unfold thinkingUpdates; rewrite Hpt.
  all: unfold recordCall; cbn [state calls emitted].
  all: unfold setPhase, setEvaluation, setImplementation, setPlan, incrementIteration;
        cbn [phase currentIteration plan implementation evaluation thinkingContent].
  all: rewrite <- ?app_assoc; cbn [app]; fold n.
  all: reflexivity.
Qed.

(** The analyzer throws during the advisory review: the pass ends before
    the evaluation call is made. *)
Lemma pass_review_fails task ctx s stream1 stream2 e :
  let n := (currentIteration (state s) + 1)%Z in
  let c1 := planCall config task ctx in
  let plan := extractThinkingAndContent (blocksOf stream1) in
  let c2 := editorCall config (snd plan) ctx in
  let impl := extractContent (blocksOf stream2) in
  createMessage (calls s) c1 = Ok stream1 ->
  createMessage (calls s ++ [c1]) c2 = Ok stream2 ->
  architectureReview architectureAnalyzer (length (calls s ++ [c1; c2])) impl = Throw e ->
  pass createMessage config architectureAnalyzer task ctx s =
   (Throw e,
    {| state := {| phase := implementing; currentIteration := n; plan := Some (snd plan);
                   implementation := Some impl;
                   evaluation := evaluation (state s);
                   thinkingContent := Some (fst plan) |};
       calls := calls s ++ [c1; c2];
       emitted := emitted s ++ [phase_update planning n] ++ thinkingUpdates (fst plan)
                  ++ [plan_update (snd plan) (fst plan); phase_update implementing n;
                      implementation_update impl] |}).
Proof.
  intros n c1 plan c2 impl H1 H2 Hr. unfold pass, bind, setState, yield, modify, iterationNow, gets, reviewArchitecture, lift, ret.
  rewrite architectPlan_call. cbn [state calls emitted recordCall].
  fold c1. rewrite H1. fold plan.
  destruct (PersonaLoader.isEmpty (fst plan)) eqn:Hpt.
  all: rewrite editorImplement_call; cbn [state calls emitted recordCall setPhase setPlan incrementIteration currentIteration].
  all: fold c2; rewrite H2; fold impl.
  all: unfold bind, gets; cbn [state calls emitted].
  all: rewrite <- (app_assoc (calls s)); change ([c1] ++ [c2]) with [c1; c2]; rewrite Hr.
  all: unfold thinkingUpdates; rewrite Hpt.
  all: unfold recordCall; cbn [state calls emitted].
  all: unfold setPhase, setEvaluation, setImplementation, setPlan, incrementIteration;
        cbn [phase currentIteration plan implementation evaluation thinkingContent].
  all: rewrite <- ?app_assoc; cbn [app]; fold n.
  all: reflexivity.
Qed.

(** The evaluation call throws: no verdict, no terminal update. *)
Lemma pass_evaluate_fails task ctx s stream1 stream2 review e :
  let n := (currentIteration (state s) + 1)%Z in
  let c1 := planCall config task ctx in
  let plan := extractThinkingAndContent (blocksOf stream1) in
  let c2 := editorCall config (snd plan) ctx in
  let impl := extractContent (blocksOf stream2) in
  let c3 := evaluateCall config architectureAnalyzer task (snd plan) impl ctx in
  createMessage (calls s) c1 = Ok stream1 ->
  createMessage (calls s ++ [c1]) c2 = Ok stream2 ->
  architectureReview architectureAnalyzer (length (calls s ++ [c1; c2])) impl = Ok review ->
  createMessage (calls s ++ [c1; c2]) c3 = Throw e ->
  pass createMessage config architectureAnalyzer task ctx s =
   (Throw e,
    {| state := {| phase := evaluating; currentIteration := n; plan := Some (snd plan);
                   implementation := Some impl;
                   evaluation := evaluation (state s);
                   thinkingContent := Some (fst plan) |};
       calls := calls s ++ [c1; c2; c3];
       emitted := emitted s ++ [phase_update planning n] ++ thinkingUpdates (fst plan)
                  ++ [plan_update (snd plan) (fst plan); phase_update implementing n;
                      implementation_update impl]
                  ++ advisoryUpdates review ++ [phase_update evaluating n] |}).
Proof.
  intros n c1 plan c2 impl c3 H1 H2 Hr H3. unfold pass, bind, setState, yield, modify, iterationNow, gets, reviewArchitecture, lift, ret.
  rewrite architectPlan_call. cbn [state calls emitted recordCall].
  fold c1. rewrite H1. fold plan.
  destruct (PersonaLoader.isEmpty (fst plan)) eqn:Hpt.
  all: rewrite editorImplement_call; cbn [state calls emitted recordCall setPhase setPlan incrementIteration currentIteration].
  all: fold c2; rewrite H2; fold impl.
  all: unfold bind, gets; cbn [state calls emitted].
  all: rewrite <- (app_assoc (calls s)); change ([c1] ++ [c2]) with [c1; c2]; rewrite Hr.
  all: destruct review as [u|]; cbn [state calls emitted].
  all: rewrite architectEvaluate_call; cbn [state calls emitted recordCall].
  all: fold c3; rewrite H3.
  all: unfold thinkingUpdates, advisoryUpdates; rewrite Hpt.
  all: unfold recordCall; cbn [state calls emitted].
  all: unfold setPhase, setEvaluation, setImplementation, setPlan, incrementIteration;
        cbn [phase currentIteration plan implementation evaluation thinkingContent].
  all: rewrite <- ?app_assoc; cbn [app]; fold n.
  all: reflexivity.
Qed.

Lemma noTerminalUpdate_app a b :
  noTerminalUpdate (a ++ b) = noTerminalUpdate a && noTerminalUpdate b.
Proof. apply forallb_app. Qed.

Lemma noTerminalUpdate_thinking t : noTerminalUpdate (thinkingUpdates t) = true.
Proof. unfold thinkingUpdates. now destruct (PersonaLoader.isEmpty t). Qed.

Lemma noTerminalUpdate_advisory review :
  isAdvisory review -> noTerminalUpdate (advisoryUpdates review) = true.
Proof. destruct review as [[]|]; cbn; intros H; try contradiction; reflexivity. Qed.

Lemma noTerminalUpdate_cycle n plan impl review ev :
  isAdvisory review -> noTerminalUpdate (cycleUpdates n plan impl review ev) = true.
Proof.
  intros H. unfold cycleUpdates.
  rewrite !noTerminalUpdate_app, !noTerminalUpdate_thinking, (noTerminalUpdate_advisory _ H).
  reflexivity.
Qed.

(** What a pass leaves behind, for each way it can end. *)
Lemma pass_outcome task ctx s r s' :
  pass createMessage config architectureAnalyzer task ctx s = (r, s') ->
  let n := (currentIteration (state s) + 1)%Z in
  currentIteration (state s') = n
  /\ (exists cs, calls s' = calls s ++ cs /\ length cs <= 3)
  /\ exists updates,
       noTerminalUpdate updates = true
       /\ match r with
          | Ok Converged =>
              emitted s' = emitted s ++ updates ++ [complete_update n]
              /\ phase (state s') = complete
          | Ok (Continue _) =>
              emitted s' = emitted s ++ updates /\ phase (state s') = evaluating
          | Throw _ =>
              emitted s' = emitted s ++ updates /\ inProgress (phase (state s')) = true
          end.
Proof.
  intros Hpass n.
  set (c1 := planCall config task ctx).
  destruct (createMessage (calls s) c1) as [stream1|e1] eqn:H1.
  2:{ rewrite (pass_plan_fails _ _ _ _ H1) in Hpass. injection Hpass as <- <-.
      split; [reflexivity|]. split; [exists [c1]; split; [reflexivity|cbn; lia]|].
      exists [phase_update planning n]. split; [reflexivity|]. split; reflexivity. }
  set (plan := extractThinkingAndContent (blocksOf stream1)).
  set (c2 := editorCall config (snd plan) ctx).
  destruct (createMessage (calls s ++ [c1]) c2) as [stream2|e2] eqn:H2.
  2:{ rewrite (pass_editor_fails _ _ _ _ _ H1 H2) in Hpass. injection Hpass as <- <-.
      split; [reflexivity|]. split; [exists [c1; c2]; split; [reflexivity|cbn; lia]|].
      exists ([phase_update planning n] ++ thinkingUpdates (fst plan)
              ++ [plan_update (snd plan) (fst plan); phase_update implementing n]).
      split; [|split; reflexivity].
      rewrite !noTerminalUpdate_app, noTerminalUpdate_thinking. reflexivity. }
  set (impl := extractContent (blocksOf stream2)).
  destruct (architectureReview architectureAnalyzer (length (calls s ++ [c1; c2])) impl)
    as [review|e] eqn:Hr.
  2:{ rewrite (pass_review_fails _ _ _ _ _ _ H1 H2 Hr) in Hpass. injection Hpass as <- <-.
      split; [reflexivity|]. split; [exists [c1; c2]; split; [reflexivity|cbn; lia]|].
      exists ([phase_update planning n] ++ thinkingUpdates (fst plan)
              ++ [plan_update (snd plan) (fst plan); phase_update implementing n;
                  implementation_update impl]).
      split; [|split; reflexivity].
      rewrite !noTerminalUpdate_app, noTerminalUpdate_thinking. reflexivity. }
  pose proof (architectureReview_advisory _ _ _ _ Hr) as Hadv.
  set (c3 := evaluateCall config architectureAnalyzer task (snd plan) impl ctx).
  destruct (createMessage (calls s ++ [c1; c2]) c3) as [stream3|e3] eqn:H3.
  2:{ rewrite (pass_evaluate_fails _ _ _ _ _ _ _ H1 H2 Hr H3) in Hpass.
      injection Hpass as <- <-.
      split; [reflexivity|]. split; [exists [c1; c2; c3]; split; [reflexivity|cbn; lia]|].
      exists ([phase_update planning n] ++ thinkingUpdates (fst plan)
              ++ [plan_update (snd plan) (fst plan); phase_update implementing n;
                  implementation_update impl]
              ++ advisoryUpdates review ++ [phase_update evaluating n]).
      split; [|split; reflexivity].
      rewrite !noTerminalUpdate_app, noTerminalUpdate_thinking,
        (noTerminalUpdate_advisory _ Hadv). reflexivity. }
  rewrite (pass_ok _ _ _ _ _ _ _ _ _ _ H1 H2 Hr H3) in Hpass.
  injection Hpass as <- <-.
  split; [reflexivity|]. split; [exists [c1; c2; c3]; split; [reflexivity|cbn; lia]|].
  exists (cycleUpdates n plan impl review (extractThinkingAndContent (blocksOf stream3))).
  split; [exact (noTerminalUpdate_cycle _ _ _ _ _ Hadv)|].
  cbn [emitted state phase].
  destruct (isComplete _); split; try reflexivity.
  now rewrite app_nil_r.
Qed.

(** How the loop ends, whatever the fuel: at most three role calls for each
    iteration counted, an iteration count within the budget, and one
    terminal update exactly when the loop returns. *)
Lemma runLoop_outcome fuel task ctx s r s' :
  runLoop createMessage config architectureAnalyzer fuel task ctx s = Some (r, s') ->
  length (calls s')
    <= length (calls s) + 3 * Z.to_nat (currentIteration (state s') - currentIteration (state s))
  /\ (currentIteration (state s) <= currentIteration (state s'))%Z
  /\ (currentIteration (state s')
        <= Z.max (currentIteration (state s)) (maxIterations config))%Z
  /\ exists updates,
       noTerminalUpdate updates = true
       /\ match r with
          | Ok _ =>
              (emitted s' = emitted s ++ updates
                              ++ [complete_update (currentIteration (state s'))]
               /\ phase (state s') = complete
               /\ (currentIteration (state s) < currentIteration (state s'))%Z)
              \/ (emitted s' = emitted s ++ updates
                                 ++ [max_iterations_update (currentIteration (state s'))]
                  /\ phase (state s') = failed
                  /\ (maxIterations config <= currentIteration (state s'))%Z)
          | Throw _ =>
              emitted s' = emitted s ++ updates
              /\ inProgress (phase (state s')) = true
          end.
Proof.
  revert ctx s. induction fuel as [|fuel IH]; intros ctx s; cbn [runLoop].
  - destruct (Z.ltb_spec (currentIteration (state s)) (maxIterations config));
      [discriminate|].
    rewrite exhausted_shape. intros H0; injection H0 as <- <-. cbn.
    split; [lia|]. split; [lia|]. split; [lia|].
    exists []. split; [reflexivity|]. right. split; [reflexivity|]. split; [reflexivity|lia].
  - destruct (Z.ltb_spec (currentIteration (state s)) (maxIterations config)) as [Hlt|Hge].
    2:{ rewrite exhausted_shape. intros H0; injection H0 as <- <-. cbn.
        split; [lia|]. split; [lia|]. split; [lia|].
        exists []. split; [reflexivity|]. right.
        split; [reflexivity|]. split; [reflexivity|lia]. }
    destruct (pass _ _ _ task ctx s) as [r1 s1] eqn:Hpass.
    destruct (pass_outcome _ _ _ _ _ Hpass) as (Hiter & (cs & Hcalls & Hcs) & updates & Hnt & Hr1).
    assert (Hlen : length (calls s1) <= length (calls s) + 3)
      by (rewrite Hcalls, length_app; lia).
    destruct r1 as [[|ctx']|e].
    + intros H0; injection H0 as <- <-. destruct Hr1 as [Hem Hph].
      split; [rewrite Hiter; lia|]. split; [lia|]. split; [lia|].
      exists updates. split; [exact Hnt|]. left.
      rewrite Hiter. split; [exact Hem|]. split; [exact Hph|lia].
    + intros Hloop. destruct Hr1 as [Hem _].
      destruct (IH _ _ Hloop) as (Hc & Hlo & Hhi & updates2 & Hnt2 & Hr).
      split; [rewrite Hiter in Hc; lia|]. split; [lia|]. split; [lia|].
      exists (updates ++ updates2).
      split; [rewrite noTerminalUpdate_app, Hnt, Hnt2; reflexivity|].
      destruct r as [[]|e].
      * destruct Hr as [(Hem2 & Hph & Hgt)|(Hem2 & Hph & Hmax)]; [left|right].
        -- split; [rewrite Hem2, Hem, <- !app_assoc; reflexivity|]. split; [exact Hph|lia].
        -- split; [rewrite Hem2, Hem, <- !app_assoc; reflexivity|]. split; [exact Hph|lia].
      * destruct Hr as [Hem2 Hph]. split; [|exact Hph].
        rewrite Hem2, Hem, <- !app_assoc; reflexivity.
    + intros H0; injection H0 as <- <-. destruct Hr1 as [Hem Hph].
      split; [rewrite Hiter; lia|]. split; [lia|]. split; [lia|].
      exists updates. split; [exact Hnt|]. split; assumption.
Qed.


(** X17 (normal return).  When [run] returns, the last update it yielded is
    the only terminal one, and it agrees with the final state: completion
    with phase [complete], or budget exhaustion with phase [failed] and the
    iteration count at or past the budget; both carry the final count. *)
Theorem run_return_is_announced task ctx s s' :
  run createMessage config architectureAnalyzer task ctx s = Some (Ok tt, s') ->
  exists updates last,
    emitted s' = emitted s ++ updates ++ [last]
    /\ noTerminalUpdate updates = true
    /\ ((last = complete_update (currentIteration (state s'))
         /\ phase (state s') = complete
         /\ (currentIteration (state s) < currentIteration (state s'))%Z)
        \/ (last = max_iterations_update (currentIteration (state s'))
            /\ phase (state s') = failed
            /\ (maxIterations config <= currentIteration (state s'))%Z)).
Proof.
  intros Hrun.
  destruct (runLoop_outcome _ _ _ _ _ _ Hrun) as (_ & _ & _ & updates & Hnt & Hr).
  exists updates.
  destruct Hr as [(Hem & Hph & Hgt)|(Hem & Hph & Hmax)]; eexists;
    (split; [exact Hem|]); (split; [exact Hnt|]); [left|right]; repeat split; assumption.
Qed.

(** X18 (exception).  When an exception leaves [run], no terminal update has
    been yielded by it and the state is left in the phase that was under
    way: the [failed] phase is never set for an exception. *)
Theorem run_exception_is_silent task ctx s e s' :
  run createMessage config architectureAnalyzer task ctx s = Some (Throw e, s') ->
  exists updates,
    emitted s' = emitted s ++ updates
    /\ noTerminalUpdate updates = true
    /\ inProgress (phase (state s')) = true.
Proof.
  intros Hrun.
  destruct (runLoop_outcome _ _ _ _ _ _ Hrun) as (_ & _ & _ & updates & Hnt & Hem & Hph).
  exists updates. repeat split; assumption.
Qed.

Lemma collectIssues_throws analyzer now found mt e :
  In mt found ->
  analyzeChange analyzer now (matchPath mt) (matchContent mt) = Throw e ->
  exists e', collectIssues analyzer now found = Throw e'.
Proof.
  induction found as [|first found IH]; [intros []|].
  intros Hin Hthrow. cbn [collectIssues]. fold (matchPath first) (matchContent first).
  destruct (analyzeChange analyzer now (matchPath first) (matchContent first))
    as [review|e1] eqn:Hfirst; [|now exists e1].
  destruct Hin as [->|Hin]; [congruence|].
  destruct (IH Hin Hthrow) as [e' ->]. now exists e'.
Qed.

(** X19 (the review is not optional).  The review is called advisory, but an
    exception of the analyzer on any file element of the implementation is
    not caught: it leaves [run] at once, with the implementation as the last
    update, the phase still [implementing], and no evaluation call made. *)
Theorem review_failure_aborts_run (task codebaseContext : string) (s : RunState)
    (stream1 stream2 : list ApiStreamChunk) (analyzer : ArchitectureAnalyzer)
    (mt : RegExp.Match) (e : string) :
  let ctx := withTypesContext architectureAnalyzer codebaseContext in
  let n := (currentIteration (state s) + 1)%Z in
  let c1 := planCall config task ctx in
  let plan := extractThinkingAndContent (blocksOf stream1) in
  let c2 := editorCall config (snd plan) ctx in
  let impl := extractContent (blocksOf stream2) in
  (currentIteration (state s) < maxIterations config)%Z ->
  createMessage (calls s) c1 = Ok stream1 ->
  createMessage (calls s ++ [c1]) c2 = Ok stream2 ->
  architectureAnalyzer = Some analyzer ->
  In mt (RegExp.execAll filePattern impl) ->
  analyzeChange analyzer (length (calls s ++ [c1; c2])) (matchPath mt) (matchContent mt)
    = Throw e ->
  exists e' s',
    run createMessage config architectureAnalyzer task codebaseContext s = Some (Throw e', s')
    /\ calls s' = calls s ++ [c1; c2]
    /\ emitted s' = emitted s ++ [phase_update planning n] ++ thinkingUpdates (fst plan)
                    ++ [plan_update (snd plan) (fst plan); phase_update implementing n;
                        implementation_update impl]
    /\ phase (state s') = implementing.
Proof.
  intros ctx n c1 plan c2 impl Hlt H1 H2 Han Hin Hthrow.
  destruct (collectIssues_throws _ _ _ _ _ Hin Hthrow) as [e' Hissues].
  assert (Hr : architectureReview architectureAnalyzer (length (calls s ++ [c1; c2])) impl
               = Throw e').
  { unfold architectureReview. rewrite Han, Hissues. reflexivity. }
  exists e'. eexists. split; [|split; [|split]].
  - unfold run. fold ctx.
    destruct (Z.to_nat (maxIterations config - currentIteration (state s))) as [|fuel] eqn:Hfuel;
      [lia|].
    cbn [runLoop]. destruct (Z.ltb_spec (currentIteration (state s)) (maxIterations config));
      [|lia].
    rewrite (pass_review_fails _ _ _ _ _ _ H1 H2 Hr). reflexivity.
  - reflexivity.
  - reflexivity.
  - reflexivity.
Qed.

End MoreLoop.

(** * Properties of the text helpers of the orchestrator *)

Lemma append_nil_r (s : string) : s +:+ "" = s.
Proof.
  induction s as [|c s IH]; [reflexivity|].
  change (String c (s +:+ "") = String c s). now rewrite IH.
Qed.

Lemma concat_empty_cons (x : string) (l : list string) :
  String.concat "" (x :: l) = x +:+ String.concat "" l.
Proof. destruct l; cbn; [now rewrite append_nil_r|reflexivity]. Qed.

Lemma extractContent_text (t : string) (response : list Block) :
  extractContent (text_block t :: response) = t +:+ extractContent response.
Proof. unfold extractContent. cbn -[String.concat]. apply concat_empty_cons. Qed.

Lemma extractThinkingAndContent_from (response : list Block) (thinking content : string) :
  snd (foldl (fun '(thinking, content) block =>
                match block with
                | thinking_block t => (thinking +:+ t, content)
                | text_block t => (thinking, content +:+ t)
                end) (thinking, content) response)
  = content +:+ extractContent response.
Proof.
  revert thinking content.
  induction response as [|[t|t] response IH]; intros thinking content.
  - cbn. now rewrite append_nil_r.
  - cbn [foldl]. rewrite IH, (extractContent_text t response). now rewrite append_assoc.
  - cbn [foldl]. rewrite IH. reflexivity.
Qed.

(** X21 (two extractions).  The editor's reply is read with [extractContent]
    and the architect's with [extractThinkingAndContent]; on the text of a
    response the two agree, wherever the thinking blocks stand. *)
Theorem extractContent_agrees (response : list Block) :
  extractContent response = snd (extractThinkingAndContent response).
Proof.
  unfold extractThinkingAndContent. now rewrite extractThinkingAndContent_from.
Qed.

(** ** The approval token *)

Lemma isSpace_upper c : Js.isSpace c = true -> Js.upper c = c.
Proof.
  destruct c as [[] [] [] [] [] [] [] []]; vm_compute; intros H;
    try reflexivity; discriminate H.
Qed.

Lemma dropSpace_leading sp l :
  forallb Js.isSpace sp = true -> Js.dropSpace (sp ++ l) = Js.dropSpace l.
Proof.
  induction sp as [|c sp IH]; [reflexivity|]. cbn [forallb app Js.dropSpace].
  intros H. apply andb_prop in H as [Hc Hsp]. rewrite Hc. now apply IH.
Qed.

Lemma dropSpace_split l :
  exists sp, l = sp ++ Js.dropSpace l /\ forallb Js.isSpace sp = true.
Proof.
  induction l as [|c l (sp & Hl & Hsp)]; [now exists []|]. cbn [Js.dropSpace].
  destruct (Js.isSpace c) eqn:Hc.
  - exists (c :: sp). cbn [app forallb]. rewrite Hc, Hsp. split; [now f_equal|reflexivity].
  - now exists [].
Qed.

Lemma dropSpace_keeps a c b :
  Js.isSpace c = false -> Js.dropSpace (a ++ c :: b) = Js.dropSpace a ++ c :: b.
Proof.
  intros Hc. induction a as [|x a IH]; cbn [app Js.dropSpace]; [now rewrite Hc|].
  destruct (Js.isSpace x); [exact IH|reflexivity].
Qed.

(** What [trim] does at the end of a text. *)
Lemma rtrim_keeps w c r :
  Js.isSpace c = false ->
  rev (Js.dropSpace (rev ((w ++ [c]) ++ r))) = (w ++ [c]) ++ rev (Js.dropSpace (rev r)).
Proof.
  intros Hc. rewrite !rev_app_distr. cbn [rev app].
  rewrite (dropSpace_keeps _ _ _ Hc), rev_app_distr. cbn [rev].
  now rewrite rev_involutive.
Qed.

Lemma rtrim_split l : exists trail, l = rev (Js.dropSpace (rev l)) ++ trail.
Proof.
  destruct (dropSpace_split (rev l)) as (sp & Hl & _).
  exists (rev sp). rewrite <- rev_app_distr, <- Hl. now rewrite rev_involutive.
Qed.

Lemma prefixb_app p l : Js.prefixb p (p ++ l) = true.
Proof.
  induction p as [|c p IH]; [now destruct l|]. cbn. now rewrite Ascii.eqb_refl.
Qed.

Lemma prefixb_split p l : Js.prefixb p l = true -> exists rest, l = p ++ rest.
Proof.
  revert l. induction p as [|c p IH]; intros l; [now exists l|].
  destruct l as [|x l]; cbn; [discriminate|].
  intros H. apply andb_prop in H as [Hc Hp]. apply Ascii.eqb_eq in Hc as ->.
  destruct (IH _ Hp) as [rest ->]. now exists rest.
Qed.

Lemma isComplete_chars evaluation :
  isComplete evaluation
  = Js.prefixb (Js.chars "APPROVED")
      (map Js.upper (rev (Js.dropSpace (rev (Js.dropSpace (Js.chars evaluation)))))).
Proof.
  unfold isComplete, Js.startsWith, Js.toUpperCase, Js.trim. now rewrite !chars_str.
Qed.

Lemma approved_word w :
  map Js.upper w = Js.chars "APPROVED" ->
  exists first middle last,
    w = first :: middle ++ [last] /\ Js.isSpace first = false /\ Js.isSpace last = false.
Proof.
  intros H.
  destruct w as [|c1 [|c2 [|c3 [|c4 [|c5 [|c6 [|c7 [|c8 [|c9 w]]]]]]]]]; try discriminate H.
  injection H as H1 _ _ _ _ _ _ H8.
  exists c1, [c2; c3; c4; c5; c6; c7], c8. split; [reflexivity|]. split.
  - destruct (Js.isSpace c1) eqn:Hs; [|reflexivity].
    rewrite (isSpace_upper _ Hs) in H1. subst c1. discriminate Hs.
  - destruct (Js.isSpace c8) eqn:Hs; [|reflexivity].
    rewrite (isSpace_upper _ Hs) in H8. subst c8. discriminate Hs.
Qed.

(** X22 (approval token).  [isComplete] holds exactly for the evaluations
    that consist of white space, then the word APPROVED in any mix of upper
    and lower case, then anything. *)
Theorem isComplete_iff (evaluation : string) :
  isComplete evaluation = true
  <-> exists pad word rest,
        evaluation = pad +:+ word +:+ rest
        /\ allSpace pad = true
        /\ Js.toUpperCase word = "APPROVED".
Proof.
  rewrite isComplete_chars. split.
  - intros H. apply prefixb_split in H as [x Hx].
    apply map_eq_app in Hx as (w & t' & Ht & Hw & _).
    destruct (dropSpace_split (Js.chars evaluation)) as (sp & Hl & Hsp).
    destruct (rtrim_split (Js.dropSpace (Js.chars evaluation))) as [trail Htrail].
    exists (Js.str sp), (Js.str w), (Js.str (t' ++ trail)).
    split; [|split].
    + rewrite <- !str_app, <- (str_chars evaluation). f_equal.
      rewrite Hl at 1. f_equal. rewrite Htrail at 1. rewrite Ht. now rewrite <- app_assoc.
    + unfold allSpace. now rewrite chars_str.
    + unfold Js.toUpperCase. rewrite chars_str, Hw. apply str_chars.
  - intros (pad & word & rest & -> & Hpad & Hword).
    assert (Hw : map Js.upper (Js.chars word) = Js.chars "APPROVED").
    { rewrite <- Hword. unfold Js.toUpperCase. now rewrite chars_str. }
    destruct (approved_word _ Hw) as (c1 & middle & c8 & Hcw & H1 & H8).
    rewrite !chars_append, (dropSpace_leading _ _ Hpad).
    assert (Hdrop : Js.dropSpace (Js.chars word ++ Js.chars rest)
                    = Js.chars word ++ Js.chars rest).
    { rewrite Hcw. cbn [app Js.dropSpace]. now rewrite H1. }
    rewrite Hdrop.
    assert (Hrt : rev (Js.dropSpace (rev (Js.chars word ++ Js.chars rest)))
                  = Js.chars word ++ rev (Js.dropSpace (rev (Js.chars rest)))).
    { rewrite Hcw. change (c1 :: middle ++ [c8]) with ((c1 :: middle) ++ [c8]).
      now apply rtrim_keeps. }
    rewrite Hrt, map_app, Hw. apply prefixb_app.
Qed.

(** ** Personas and the system prompts *)

Lemma trim_blank persona : allSpace persona = true -> Js.trim persona = "".
Proof.
  unfold allSpace, Js.trim. intros H.
  rewrite <- (app_nil_r (Js.chars persona)), (dropSpace_leading _ _ H). reflexivity.
Qed.

Lemma inject_keeps_prompt (systemPrompt persona : string)
    (position : PersonaLoader.Position) :
  occursIn systemPrompt (PersonaLoader.inject systemPrompt persona position).
Proof.
  unfold PersonaLoader.inject.
  destruct (PersonaLoader.isEmpty (Js.trim persona)).
  - exists "", "". now rewrite append_nil_r.
  - destruct position.
    + set (wrapped := _ +:+ Js.trim persona +:+ _).
      exists (wrapped +:+ "

"), "". now rewrite append_nil_r, append_assoc.
    + exists "". eexists. reflexivity.
Qed.

Lemma injectFromConfig_keeps_prompt systemPrompt config role :
  occursIn systemPrompt (PersonaLoader.injectFromConfig systemPrompt config role).
Proof.
  unfold PersonaLoader.injectFromConfig.
  assert (Hsame : occursIn systemPrompt systemPrompt)
    by (exists "", ""; now rewrite append_nil_r).
  destruct config as [c|]; [|exact Hsame].
  destruct (negb _ || _); [exact Hsame|].
  destruct (PersonaLoader.applies _ _); [apply inject_keeps_prompt|exact Hsame].
Qed.

(** X23 (base prompt kept).  Whatever persona is configured, the system
    prompt of each of the three role calls still holds the base prompt of
    its role in full. *)
Theorem role_calls_keep_base_prompt (config : ArchitectConfig)
    (analyzer : option ArchitectureAnalyzer)
    (task plan implementation context : string) :
  occursIn planSystemPrompt (systemPrompt (planCall config task context))
  /\ occursIn editorSystemPrompt (systemPrompt (editorCall config plan context))
  /\ occursIn (systemPrompt (evaluateCall {| maxIterations := maxIterations config;
                                             persona := None |}
                                          analyzer task plan implementation context))
              (systemPrompt (evaluateCall config analyzer task plan implementation context)).
Proof.
  split; [|split]; apply injectFromConfig_keeps_prompt.
Qed.

(** X24 (blank persona).  A persona of white space only changes no prompt. *)
Theorem blank_persona_is_ignored (systemPrompt : string)
    (c : PersonaLoader.PersonaConfig) (role : PersonaLoader.Role) :
  allSpace (PersonaLoader.markdown c) = true ->
  PersonaLoader.injectFromConfig systemPrompt (Some c) role = systemPrompt.
Proof.
  intros H. unfold PersonaLoader.injectFromConfig, PersonaLoader.inject.
  rewrite (trim_blank _ H).
  destruct (negb _ || _); [reflexivity|].
  now destruct (PersonaLoader.applies _ _).
Qed.

(** A persona for the editor leaves the two prompts of the architect as
    they are without it, and a persona for the architect leaves the prompt
    of the editor. *)
Lemma persona_reaches_only_its_role (budget : Z) (on : bool) (text : string)
    (where_ : PersonaLoader.Position) (analyzer : option ArchitectureAnalyzer) :
  let persona_for target :=
    {| maxIterations := budget;
       persona := Some {| PersonaLoader.enabled := on; PersonaLoader.markdown := text;
                          PersonaLoader.applyTo := target;
                          PersonaLoader.position := where_ |} |} in
  let plain := {| maxIterations := budget; persona := None |} in
  planSystem (persona_for PersonaLoader.toEditor) = planSystem plain
  /\ evaluateSystem (persona_for PersonaLoader.toEditor) analyzer
     = evaluateSystem plain analyzer
  /\ editorSystem (persona_for PersonaLoader.toArchitect) = editorSystem plain.
Proof.
  unfold planSystem, evaluateSystem, editorSystem, PersonaLoader.injectFromConfig.
  cbn [persona PersonaLoader.applyTo PersonaLoader.applies PersonaLoader.enabled
       PersonaLoader.markdown].
  destruct (negb _ || _); repeat split; reflexivity.
Qed.

(** ** The advisory review *)

Lemma concat_occurs (sep x : string) (l : list string) :
  In x l -> occursIn x (String.concat sep l).
Proof.
  induction l as [|y l IH]; [intros []|].
  intros [->|Hin].
  - destruct l as [|z l].
    + exists "", "". cbn. now rewrite append_nil_r.
    + exists "", (sep +:+ String.concat sep (z :: l)). reflexivity.
  - destruct l as [|z l]; [destruct Hin|].
    destruct (IH Hin) as (before & after & Heq).
    exists (y +:+ sep +:+ before), after.
    change (String.concat sep (y :: z :: l)) with (y +:+ sep +:+ String.concat sep (z :: l)).
    rewrite Heq. now rewrite !append_assoc.
Qed.

Lemma collectIssues_In analyzer now found issues issue :
  collectIssues analyzer now found = Ok issues ->
  In issue issues ->
  exists mt review,
    In mt found
    /\ analyzeChange analyzer now (matchPath mt) (matchContent mt) = Ok review
    /\ needsReview review = true
    /\ issue = issueText (matchPath mt) review.
Proof.
  revert issues. induction found as [|mt found IH]; intros issues; cbn [collectIssues].
  - intros H; injection H as <-. intros [].
  - fold (matchPath mt) (matchContent mt).
    destruct (analyzeChange analyzer now (matchPath mt) (matchContent mt))
      as [review|e] eqn:Hreview; [|discriminate].
    destruct (collectIssues analyzer now found) as [rest|e]; [|discriminate].
    intros H; injection H as <-.
    destruct (needsReview review) eqn:Hneeds.
    + intros [<-|Hin].
      * exists mt, review. repeat split; [now left|assumption..].
      * destruct (IH _ eq_refl Hin) as (mt' & review' & Hmt & Hrest).
        exists mt', review'. split; [now right|exact Hrest].
    + intros Hin. destruct (IH _ eq_refl Hin) as (mt' & review' & Hmt & Hrest).
      exists mt', review'. split; [now right|exact Hrest].
Qed.

(** X20 (review on a signal only).  When [reviewArchitecture] raises a review,
    an analyzer is configured and it has flagged a file element of the
    implementation; the review quotes that file's issue and always offers
    the same two options. *)
Theorem review_needs_flagged_file (analyzerOpt : option ArchitectureAnalyzer)
    (now : nat) (implementation : string) (u : ArchitectUpdate) :
  architectureReview analyzerOpt now implementation = Ok (Some u) ->
  exists analyzer mt review message,
    analyzerOpt = Some analyzer
    /\ In mt (RegExp.execAll filePattern implementation)
    /\ analyzeChange analyzer now (matchPath mt) (matchContent mt) = Ok review
    /\ needsReview review = true
    /\ u = architecture_review_update message reviewOptions
    /\ occursIn (issueText (matchPath mt) review) message.
Proof.
  unfold architectureReview. destruct analyzerOpt as [analyzer|]; [|discriminate].
  destruct (collectIssues _ _ _) as [[|issue issues]|e] eqn:Hissues; try discriminate.
  intros H; injection H as <-.
  destruct (collectIssues_In _ _ _ _ issue Hissues (or_introl eq_refl))
    as (mt & review & Hmt & Hreview & Hneeds & ->).
  exists analyzer, mt, review. eexists.
  split; [reflexivity|]. split; [exact Hmt|]. split; [exact Hreview|].
  split; [exact Hneeds|]. split; [reflexivity|].
  destruct (concat_occurs "

" (issueText (matchPath mt) review) (issueText (matchPath mt) review :: issues)
              (or_introl eq_refl)) as (before & after & Heq).
  exists ("Architectural concerns detected:

" +:+ before), after.
  rewrite append_assoc, <- Heq. reflexivity.
Qed.

(** ** The Max Iterations field *)

(** X25 (clamp).  The handler of the Max Iterations field keeps exactly the
    values from 1 to 10 as typed, and applying it to its own result changes
    nothing. *)
Theorem maxIterationsOnChange_fixed_points (v : Z) (parsed : option Z) :
  (maxIterationsOnChange (Some v) = v <-> (1 <= v <= 10)%Z)
  /\ maxIterationsOnChange (Some (maxIterationsOnChange parsed))
     = maxIterationsOnChange parsed.
Proof.
  split; [split|].
  - intros <-. apply clamp_range.
  - intros H. unfold maxIterationsOnChange.
    destruct (Z.eqb_spec v 0); lia.
  - pose proof (clamp_range parsed) as H. set (x := maxIterationsOnChange parsed) in *.
    unfold maxIterationsOnChange. destruct (Z.eqb_spec x 0); lia.
Qed.

(** * Properties of the context manager *)

Lemma existsb_eqb_In (x : string) (l : list string) :
  existsb (String.eqb x) l = true <-> In x l.
Proof.
  rewrite existsb_exists. split.
  - intros (y & Hin & Heq). apply String.eqb_eq in Heq. now subst.
  - intros Hin. exists x. split; [exact Hin|apply String.eqb_refl].
Qed.

Lemma NoDup_snoc (x : string) (l : list string) :
  List.NoDup l -> ~ In x l -> List.NoDup (l ++ [x]).
Proof.
  intros Hl Hx. induction Hl as [|y l Hy Hl IH]; cbn.
  - constructor; [intros []|constructor].
  - constructor.
    + rewrite in_app_iff. intros [H|[H|[]]]; [contradiction|]. subst. apply Hx. now left.
    + apply IH. intros H. apply Hx. now right.
Qed.

Lemma NoDup_skipn (n : nat) (l : list string) : List.NoDup l -> List.NoDup (skipn n l).
Proof.
  revert l. induction n as [|n IH]; intros l Hl; [exact Hl|].
  destruct l as [|x l]; [constructor|]. cbn. apply IH. now inversion Hl.
Qed.

Lemma lastN_snoc {A} (n : nat) (l : list A) (x : A) :
  0 < n -> exists kept, LLMContextManager.lastN n (l ++ [x]) = kept ++ [x].
Proof.
  intros Hn. unfold LLMContextManager.lastN. rewrite length_app. cbn [length].
  exists (skipn (length l + 1 - n) l). rewrite skipn_app.
  replace (length l + 1 - n - length l) with 0 by lia. reflexivity.
Qed.

Lemma hotFiles_addHotFile (filePath : string) (c : LLMContextManager.LLMContext) :
  LLMContextManager.hotFiles (LLMContextManager.addHotFile filePath c)
  = let l := LLMContextManager.hotFiles c in
    if existsb (String.eqb filePath) l then l
    else if 10 <? length (l ++ [filePath])
         then LLMContextManager.lastN 10 (l ++ [filePath]) else l ++ [filePath].
Proof. reflexivity. Qed.

Lemma addHotFile_present (filePath : string) (c : LLMContextManager.LLMContext)
    (fl : LLMContextManager.ContextFiles) (l : list string) :
  LLMContextManager.files c = Some fl ->
  LLMContextManager.hot fl = Some l ->
  In filePath l ->
  LLMContextManager.addHotFile filePath c = c.
Proof.
  intros Hfiles Hhot Hin. apply existsb_eqb_In in Hin.
  destruct c as [st fls m]. cbn in Hfiles. subst fls.
  destruct fl as [h md dn]. cbn in Hhot. subst h.
  unfold LLMContextManager.addHotFile, LLMContextManager.setHot. cbn. now rewrite Hin.
Qed.

(** X27 (hot files).  [addHotFile] leaves the file in the list; a list
    without duplicates stays so; the list grows past ten entries only if it
    was already longer (a list that was too long is not cut down when the
    file is already in it); and adding the same file again changes
    nothing. *)
Theorem addHotFile_keeps_list_small (filePath : string)
    (c : LLMContextManager.LLMContext) :
  let before := LLMContextManager.hotFiles c in
  let after := LLMContextManager.hotFiles (LLMContextManager.addHotFile filePath c) in
  In filePath after
  /\ length after <= Nat.max 10 (length before)
  /\ (List.NoDup before -> List.NoDup after)
  /\ LLMContextManager.addHotFile filePath (LLMContextManager.addHotFile filePath c)
     = LLMContextManager.addHotFile filePath c.
Proof.
  intros before after.
  assert (Hin : In filePath after).
  { unfold after. rewrite hotFiles_addHotFile. cbv zeta. fold before.
    destruct (existsb (String.eqb filePath) before) eqn:Hhas;
      [now apply existsb_eqb_In|].
    destruct (10 <? length (before ++ [filePath])).
    - destruct (lastN_snoc 10 before filePath) as [kept ->]; [lia|].
      apply in_app_iff. right. now left.
    - apply in_app_iff. right. now left. }
  split; [exact Hin|]. split; [|split].
  - unfold after. rewrite hotFiles_addHotFile. cbv zeta. fold before.
    destruct (existsb (String.eqb filePath) before); [lia|].
    destruct (Nat.ltb_spec 10 (length (before ++ [filePath]))) as [Hlong|Hshort].
    + unfold LLMContextManager.lastN. rewrite length_skipn. lia.
    + lia.
  - intros Hnodup. unfold after. rewrite hotFiles_addHotFile. cbv zeta. fold before.
    destruct (existsb (String.eqb filePath) before) eqn:Hhas; [exact Hnodup|].
    assert (Hnot : ~ In filePath before).
    { intros H. apply existsb_eqb_In in H. congruence. }
    pose proof (NoDup_snoc _ _ Hnodup Hnot) as Hpushed.
    destruct (10 <? length (before ++ [filePath])); [|exact Hpushed].
    now apply NoDup_skipn.
  - eapply addHotFile_present; [reflexivity|reflexivity|exact Hin].
Qed.

(** X28 (blockers).  Removing the blocker of a task removes every blocker
    recorded for that task, also the ones recorded before the last one, and
    no other; and the count [updateMomentum] stores is the number of
    blockers at that moment. *)
Theorem removeBlocker_clears_task (t why : string) (v : LLMContextManager.Velocity)
    (r : option string) (c : LLMContextManager.LLMContext) :
  LLMContextManager.blockers
    (LLMContextManager.removeBlocker t (LLMContextManager.addBlocker t why c))
  = List.filter (fun b => negb (String.eqb (LLMContextManager.task b) t))
           (LLMContextManager.blockers c)
  /\ LLMContextManager.blockers (LLMContextManager.removeBlocker t c)
     = List.filter (fun b => negb (String.eqb (LLMContextManager.task b) t))
              (LLMContextManager.blockers c)
  /\ option_map LLMContextManager.blockers_count
       (LLMContextManager.momentum
          (LLMContextManager.updateMomentum v r (LLMContextManager.addBlocker t why c)))
     = Some (Some (S (length (LLMContextManager.blockers c)))).
Proof.
  unfold LLMContextManager.blockers, LLMContextManager.removeBlocker,
    LLMContextManager.addBlocker, LLMContextManager.updateMomentum.
  destruct c as [[st|] fl m]; cbn.
  - destruct st as [a [l|] n g s1 s2]; cbn.
    + rewrite List.filter_app. cbn. rewrite String.eqb_refl. cbn.
      rewrite app_nil_r, length_app. cbn. repeat split. f_equal. f_equal. lia.
    + rewrite String.eqb_refl. cbn. repeat split.
  - rewrite String.eqb_refl. cbn. repeat split.
Qed.

(** * Properties of the architecture analyzer *)

Lemma prefixb_stop (word t rest : list ascii) (d : ascii) :
  forallb (fun c => negb (Ascii.eqb c d)) word = true ->
  Js.prefixb word (t ++ d :: rest) = Js.prefixb word t.
Proof.
  revert t. induction word as [|n word IH]; intros t Hd; [now destruct t|].
  cbn [forallb] in Hd. apply andb_prop in Hd as [Hn Hword].
  apply negb_true_iff in Hn.
  destruct t as [|c t]; cbn [app Js.prefixb].
  - now rewrite Hn.
  - now rewrite (IH t Hword).
Qed.

(** A word cannot lie across a character it does not hold. *)
Lemma includesFrom_stop (word a rest : list ascii) (d : ascii) :
  word <> [] ->
  forallb (fun c => negb (Ascii.eqb c d)) word = true ->
  Analyzer.includesFrom (a ++ d :: rest) word
  = Analyzer.includesFrom a word || Analyzer.includesFrom rest word.
Proof.
  intros Hne Hd. induction a as [|c a IH].
  - cbn [app Analyzer.includesFrom].
    pose proof (prefixb_stop word [] rest d Hd) as Hstop. cbn [app] in Hstop.
    rewrite Hstop. destruct word as [|n word]; [contradiction|]. reflexivity.
  - cbn [app Analyzer.includesFrom].
    pose proof (prefixb_stop word (c :: a) rest d Hd) as Hstop. cbn [app] in Hstop.
    rewrite Hstop, IH. now rewrite orb_assoc.
Qed.

Lemma quiet_spec s :
  quiet s = true <-> forall word, In word Analyzer.keywords -> Analyzer.includes s word = false.
Proof.
  unfold quiet. rewrite forallb_forall. split; intros H word Hin.
  - apply negb_true_iff. now apply H.
  - apply negb_true_iff. now apply H.
Qed.

(** Joining quiet texts with a comma and a blank gives a quiet text. *)
Lemma quiet_join (matches : list string) :
  forallb quiet matches = true -> quiet (String.concat ", " matches) = true.
Proof.
  induction matches as [|m matches IH]; [reflexivity|].
  cbn [forallb]. intros H. apply andb_prop in H as [Hm Hrest].
  destruct matches as [|m' matches]; [exact Hm|].
  specialize (IH Hrest).
  change (String.concat ", " (m :: m' :: matches))
    with (m +:+ ", " +:+ String.concat ", " (m' :: matches)).
  set (tail := String.concat ", " (m' :: matches)) in *.
  apply quiet_spec. intros word Hin.
  pose proof (proj1 (quiet_spec m) Hm word Hin) as H1.
  pose proof (proj1 (quiet_spec tail) IH word Hin) as H2.
  unfold Analyzer.includes in *. rewrite !chars_append.
  change (Js.chars ", ") with [","; " "]%char. cbn [app].
  destruct Hin as [<-|[<-|[<-|[<-|[]]]]].
  all: rewrite includesFrom_stop by (try discriminate; reflexivity).
  all: rewrite H1; cbn [orb Analyzer.includesFrom Js.prefixb Js.chars list_ascii_of_string].
  all: cbn [Ascii.eqb Bool.eqb andb orb]; exact H2.
Qed.

Lemma forallb_firstn {A} (p : A -> bool) (n : nat) (l : list A) :
  forallb p l = true -> forallb p (firstn n l) = true.
Proof.
  revert l. induction n as [|n IH]; intros l H; [reflexivity|].
  destruct l as [|x l]; [reflexivity|]. cbn in *.
  apply andb_prop in H as [Hx Hl]. now rewrite Hx, IH.
Qed.

(** The two signals of [checkNamingConventions] are quiet when the matched
    texts they quote are. *)
Lemma quiet_naming_signal (joined : string) :
  quiet joined = true ->
  quiet ("Found camelCase identifiers (expected snake_case): " +:+ joined +:+ "...") = true
  /\ quiet ("Found incorrect ID format (expected *_id): " +:+ joined +:+ "...") = true.
Proof.
  intros Hq. split; apply quiet_spec; intros word Hin.
  all: pose proof (proj1 (quiet_spec joined) Hq word Hin) as Hj.
  all: unfold Analyzer.includes in *; rewrite !chars_append.
  all: change (Js.chars "...") with ["."; "."; "."]%char.
  all: destruct Hin as [<-|[<-|[<-|[<-|[]]]]].
  all: cbn [Js.chars list_ascii_of_string app Analyzer.includesFrom Js.prefixb
            Ascii.eqb Bool.eqb andb orb] in *.
  all: rewrite includesFrom_stop by (try discriminate; reflexivity).
  all: rewrite Hj; reflexivity.
Qed.

Lemma quiet_signals_general (style : Analyzer.ArchitectureStyle) (signals : list string)
    (filePath : string) :
  forallb quiet signals = true ->
  Analyzer.isMonolith style = false ->
  Analyzer.buildRecommendation style signals filePath = Analyzer.generalRecommendation
  /\ Analyzer.buildOptions style signals filePath = [].
Proof.
  intros Hq Hstyle.
  assert (Hnone : forall word, In word Analyzer.keywords ->
                    existsb (fun s => Analyzer.includes s word) signals = false).
  { intros word Hin. induction signals as [|s signals IH]; [reflexivity|].
    cbn [forallb existsb] in *. apply andb_prop in Hq as [Hs Hrest].
    now rewrite (proj1 (quiet_spec s) Hs word Hin), IH. }
  assert (Hsize : existsb (fun s => Analyzer.includes s "exceeds" || Analyzer.includes s "files")
                    signals = false).
  { pose proof (Hnone "exceeds" (or_introl eq_refl)) as H1.
    pose proof (Hnone "files" (or_intror (or_introl eq_refl))) as H2.
    clear Hnone Hq. induction signals as [|s signals IH]; [reflexivity|].
    cbn [existsb] in *. apply orb_false_elim in H1 as [H1 H1'].
    apply orb_false_elim in H2 as [H2 H2']. now rewrite H1, H2, IH. }
  unfold Analyzer.buildRecommendation, Analyzer.buildOptions.
  rewrite Hstyle, Hsize.
  rewrite (Hnone "domain imports"), (Hnone "naming"); cbn; tauto.
Qed.

(** X29 (options and recommendation).  For every style but monolith,
    [buildOptions] offers nothing exactly when [buildRecommendation] falls
    back on its general sentence.  For a monolith the recommendation is
    always that no extraction is needed, while the options are those of a
    modular monolith, the extraction options included. *)
Theorem options_follow_recommendation (style : Analyzer.ArchitectureStyle)
    (signals : list string) (filePath : string) :
  (Analyzer.isMonolith style = false ->
     (Analyzer.buildOptions style signals filePath = []
      <-> Analyzer.buildRecommendation style signals filePath
          = Analyzer.generalRecommendation))
  /\ Analyzer.buildRecommendation Analyzer.monolith signals filePath
     = "Monolith style: Consider refactoring for clarity but no extraction needed."
  /\ Analyzer.buildOptions Analyzer.monolith signals filePath
     = Analyzer.buildOptions Analyzer.modular_monolith signals filePath.
Proof.
  split; [|split; reflexivity].
  intros Hstyle. unfold Analyzer.buildOptions, Analyzer.buildRecommendation.
  rewrite Hstyle.
  destruct (existsb (fun s => Analyzer.includes s "exceeds" || Analyzer.includes s "files")
                    signals);
    destruct (existsb (fun s => Analyzer.includes s "domain imports") signals);
    destruct (existsb (fun s => Analyzer.includes s "naming") signals);
    destruct style; cbn; split; intros H; try reflexivity; discriminate.
Qed.

(** X30 (naming signals).  The signals of the naming check mention none of
    the words the recommendation and the options are chosen by, unless a
    matched text itself holds one: a file that breaks the naming
    conventions only is reported with the general recommendation and
    without options, never with the naming recommendation. *)
Theorem naming_signals_offer_nothing (conventions : option Analyzer.NamingConventions)
    (content : string) (style : Analyzer.ArchitectureStyle) (filePath : string) :
  forallb quiet (Analyzer.matchAll Analyzer.camelCasePattern content
                 ++ Analyzer.matchAll Analyzer.badIdPattern content) = true ->
  Analyzer.isMonolith style = false ->
  let signals := Analyzer.checkNamingConventions conventions content in
  Analyzer.buildRecommendation style signals filePath = Analyzer.generalRecommendation
  /\ Analyzer.buildOptions style signals filePath = [].
Proof.
  intros Hq Hstyle signals. apply quiet_signals_general; [|exact Hstyle].
  rewrite forallb_app in Hq. apply andb_prop in Hq as [Hcamel Hid].
  unfold signals, Analyzer.checkNamingConventions.
  destruct conventions as [conventions|]; [|reflexivity].
  rewrite forallb_app. apply andb_true_intro. split.
  - destruct (Analyzer.case conventions) as [convention|]; [|reflexivity].
    destruct (String.eqb convention "snake_case"); [|reflexivity].
    destruct (Analyzer.matchAll Analyzer.camelCasePattern content) as [|m ms] eqn:Hms;
      [reflexivity|].
    cbn [forallb]. rewrite andb_true_r.
    apply quiet_naming_signal, quiet_join, forallb_firstn, Hcamel.
  - destruct (Analyzer.ids conventions) as [expected|]; [|reflexivity].
    destruct (PersonaLoader.isEmpty expected); [reflexivity|].
    destruct (Analyzer.includes expected "_id"); [|reflexivity].
    destruct (Analyzer.matchAll Analyzer.badIdPattern content) as [|m ms] eqn:Hms;
      [reflexivity|].
    cbn [forallb]. rewrite andb_true_r.
    apply quiet_naming_signal, quiet_join, forallb_firstn, Hid.
Qed.

Lemma naming_signals_offer_nothing_witness :
  let content := "{ 'userName' : 1, 'userId': 2 }" in
  let signals := Analyzer.checkNamingConventions (Some snakeCaseConventions) content in
  Analyzer.buildRecommendation Analyzer.microservices signals "src/api/user.ts"
    = Analyzer.generalRecommendation
  /\ Analyzer.buildOptions Analyzer.microservices signals "src/api/user.ts" = [].
Proof.
  intros content.
  apply (naming_signals_offer_nothing (Some snakeCaseConventions) content
           Analyzer.microservices "src/api/user.ts").
  - vm_compute. reflexivity.
  - reflexivity.
Defined.

(** The naming check does raise both signals on that content. *)
Example naming_signals_raised :
  Analyzer.checkNamingConventions (Some snakeCaseConventions)
    "{ 'userName' : 1, 'userId': 2 }"
  = ["Found camelCase identifiers (expected snake_case): 'userName' :, 'userId':...";
     "Found incorrect ID format (expected *_id): 'userId'..."].
Proof. vm_compute. reflexivity. Qed.

(** * Properties of the Domains field *)

Lemma dropSpace_idempotent l : Js.dropSpace (Js.dropSpace l) = Js.dropSpace l.
Proof.
  induction l as [|c l IH]; [reflexivity|]. cbn [Js.dropSpace].
  destruct (Js.isSpace c) eqn:Hc; [exact IH|]. cbn [Js.dropSpace]. now rewrite Hc.
Qed.

Lemma dropSpace_head l :
  match Js.dropSpace l with
  | [] => True
  | c :: _ => Js.isSpace c = false
  end.
Proof.
  induction l as [|c l IH]; [exact I|]. cbn [Js.dropSpace].
  destruct (Js.isSpace c) eqn:Hc; [exact IH|exact Hc].
Qed.

Lemma In_dropSpace c l : In c (Js.dropSpace l) -> In c l.
Proof.
  induction l as [|x l IH]; [intros []|]. cbn [Js.dropSpace].
  destruct (Js.isSpace x); [intros H; right; now apply IH|exact (fun H => H)].
Qed.

Lemma trim_chars s :
  Js.chars (Js.trim s) = rev (Js.dropSpace (rev (Js.dropSpace (Js.chars s)))).
Proof. unfold Js.trim. apply chars_str. Qed.

Lemma In_trim c s : In c (Js.chars (Js.trim s)) -> In c (Js.chars s).
Proof.
  rewrite trim_chars. intros H. apply in_rev in H. apply In_dropSpace in H.
  apply in_rev in H. now apply In_dropSpace in H.
Qed.

Lemma trim_idempotent s : Js.trim (Js.trim s) = Js.trim s.
Proof.
  unfold Js.trim at 1. rewrite trim_chars.
  set (x := Js.dropSpace (Js.chars s)).
  assert (Hhead : Js.dropSpace (rev (Js.dropSpace (rev x))) = rev (Js.dropSpace (rev x))).
  { pose proof (dropSpace_head (Js.chars s)) as Hx. fold x in Hx.
    destruct x as [|c x]; [reflexivity|].
    pose proof (rtrim_keeps [] c x Hx) as Hkeep. cbn [app] in Hkeep.
    rewrite Hkeep. cbn [Js.dropSpace]. now rewrite Hx. }
  rewrite Hhead, rev_involutive, dropSpace_idempotent. reflexivity.
Qed.

Lemma trim_leading_blank l :
  Js.trim (Js.str (" "%char :: l)) = Js.trim (Js.str l).
Proof.
  unfold Js.trim. rewrite !chars_str. reflexivity.
Qed.

Lemma splitChars_cons sep l : exists first rest, splitChars sep l = first :: rest.
Proof.
  destruct l as [|c l]; [now exists [], []|]. cbn [splitChars].
  destruct (Ascii.eqb c sep); [now eexists _, _|].
  destruct (splitChars sep l); now eexists _, _.
Qed.

Lemma splitChars_no_sep sep l piece :
  In piece (splitChars sep l) -> ~ In sep piece.
Proof.
  revert piece. induction l as [|c l IH]; intros piece.
  - intros [<-|[]] [].
  - cbn [splitChars]. destruct (Ascii.eqb_spec c sep) as [->|Hne].
    + intros [<-|Hin]; [intros []|now apply IH].
    + destruct (splitChars sep l) as [|first rest].
      * intros [<-|[]] [H|[]]. now apply Hne.
      * intros [<-|Hin].
        -- intros [H|H]; [now apply Hne|]. apply (IH first); [now left|exact H].
        -- apply IH. now right.
Qed.

Lemma splitChars_app sep a rest :
  ~ In sep a -> splitChars sep (a ++ sep :: rest) = a :: splitChars sep rest.
Proof.
  induction a as [|c a IH]; intros Hno.
  - cbn [app splitChars]. now rewrite Ascii.eqb_refl.
  - cbn [app splitChars]. destruct (Ascii.eqb_spec c sep) as [->|Hne].
    + exfalso. apply Hno. now left.
    + rewrite IH; [reflexivity|]. intros H. apply Hno. now right.
Qed.

Lemma splitChars_whole sep a : ~ In sep a -> splitChars sep a = [a].
Proof.
  induction a as [|c a IH]; intros Hno; [reflexivity|].
  cbn [splitChars]. destruct (Ascii.eqb_spec c sep) as [->|Hne].
  - exfalso. apply Hno. now left.
  - rewrite IH; [reflexivity|]. intros H. apply Hno. now right.
Qed.

(** The domains read from the characters of the field. *)
Lemma domainsOnChange_chars value :
  domainsOnChange value
  = List.filter (fun d => negb (PersonaLoader.isEmpty d))
           (map (fun d => Js.trim (Js.str d)) (splitChars ","%char (Js.chars value))).
Proof. reflexivity. Qed.

Lemma domains_leading_blank l :
  map (fun d => Js.trim (Js.str d)) (splitChars ","%char (" "%char :: l))
  = map (fun d => Js.trim (Js.str d)) (splitChars ","%char l).
Proof.
  cbn [splitChars]. change (Ascii.eqb " " ",") with false. cbv iota.
  destruct (splitChars_cons ","%char l) as (first & rest & ->).
  cbn [map]. now rewrite trim_leading_blank.
Qed.

Lemma domains_round_trip (domains : list string) :
  Forall (fun d => d <> "" /\ Js.trim d = d /\ ~ In ","%char (Js.chars d)) domains ->
  domainsOnChange (domainsValue domains) = domains.
Proof.
  unfold domainsValue. induction 1 as [|d domains (Hne & Htrim & Hcomma) Hrest IH];
    [reflexivity|].
  assert (Hkeep : negb (PersonaLoader.isEmpty d) = true) by (now destruct d).
  destruct domains as [|d' domains].
  - rewrite domainsOnChange_chars. cbn [String.concat].
    rewrite (splitChars_whole _ _ Hcomma). cbn [map List.filter].
    rewrite str_chars, Htrim. cbn [List.filter]. now rewrite Hkeep.
  - change (String.concat ", " (d :: d' :: domains))
      with (d +:+ ", " +:+ String.concat ", " (d' :: domains)).
    rewrite domainsOnChange_chars, !chars_append.
    change (Js.chars ", ") with [","; " "]%char. cbn [app].
    rewrite (splitChars_app _ _ _ Hcomma). cbn [map].
    rewrite domains_leading_blank, str_chars, Htrim. cbn [List.filter]. rewrite Hkeep.
    f_equal. exact IH.
Qed.

(** X26 (domains field).  Every domain the Domains field stores is
    non-empty, trimmed and free of commas, whatever was typed; and the text
    the field shows for the stored domains reads back as the same domains. *)
Theorem domains_field_is_stable (value : string) :
  let domains := domainsOnChange value in
  Forall (fun d => d <> "" /\ Js.trim d = d /\ ~ In ","%char (Js.chars d)) domains
  /\ domainsOnChange (domainsValue domains) = domains.
Proof.
  intros domains.
  assert (Hall : Forall (fun d => d <> "" /\ Js.trim d = d /\ ~ In ","%char (Js.chars d))
                        domains).
  { apply List.Forall_forall. intros d Hin. unfold domains in Hin.
    rewrite domainsOnChange_chars in Hin.
    apply filter_In in Hin as [Hin Hkeep]. apply in_map_iff in Hin as (piece & <- & Hpiece).
    split; [|split].
    - intros Heq. rewrite Heq in Hkeep. discriminate Hkeep.
    - apply trim_idempotent.
    - intros Hc. apply In_trim in Hc. rewrite chars_str in Hc.
      exact (splitChars_no_sep _ _ _ Hpiece Hc). }
  split; [exact Hall|now apply domains_round_trip].
Qed.

(** * Instances *)


Lemma denial_has_grounds_witness :
  let client := replying (replyText "false" "once" "too risky") in
  let request := requestOf delete "/var/data/1" in
  persistedRules (this freshWorld) !! extractPattern request = Some false
  \/ existsb (fun re => RegExp.test re (literalOf request)) (INSTANT_DENY (this freshWorld))
     = true
  \/ exists response parsed,
       client (sent freshWorld) (askOpusParams request (extractPattern request)) = Ok response
       /\ Json.parse (cleanText (responseText response)) = Ok parsed
       /\ getProp parsed "allow" = Ok (Some (JBool false)).
Proof.
  intros client request.
  apply (denial_has_grounds client Json.parse request freshWorld
           (snd (decide client Json.parse request freshWorld))
           {| allow := false; persist := once; reasoning := "too risky" |}).
  - vm_compute. reflexivity.
  - reflexivity.
Defined.

Lemma adjudicator_writes_only_always_witness :
  let client := replying (replyText "true" "always" "scratch data") in
  let request := requestOf delete "/var/data/1" in
  let w' := snd (decide client Json.parse request freshWorld) in
  exists response parsed a,
    client (sent freshWorld) (askOpusParams request (extractPattern request)) = Ok response
    /\ Json.parse (cleanText (responseText response)) = Ok parsed
    /\ getProp parsed "allow" = Ok (Some (JBool a))
    /\ getProp parsed "persist" = Ok (Some (JString "always"))
    /\ persistedRules (this w')
       = <[extractPattern request := a]> (persistedRules (this freshWorld)).
Proof.
  intros client request w'.
  apply (adjudicator_writes_only_always client Json.parse request freshWorld w'
           {| allow := true; persist := always; reasoning := "scratch data" |}).
  - repeat split; vm_compute; reflexivity.
  - vm_compute. reflexivity.
  - intros H. apply (f_equal (fun m => m !! extractPattern request)) in H.
    vm_compute in H. discriminate H.
Defined.

Lemma imported_rule_decides_witness :
  let rules : gmap string bool :=
    <[extractPattern (requestOf write "/proj/src/app.ts") := false]> ∅ in
  let request := requestOf write "/proj/src/main.ts" in
  decide unreachable Json.parse request (snd (importRules rules freshWorld)) =
    (Ok {| allow := false; persist := always; reasoning := "Cached rule" |},
     snd (importRules rules freshWorld)).
Proof.
  intros rules request.
  apply (imported_rule_decides unreachable Json.parse freshWorld rules request false).
  vm_compute. reflexivity.
Defined.

Lemma clear_restores_deny_witness :
  let request := requestOf execute "sudo rm -rf /srv" in
  let w := snd (importRules (<[extractPattern request := true]> ∅) freshWorld) in
  decide unreachable Json.parse request (snd (clearPersistedRules w)) =
    (Ok {| allow := false; persist := always; reasoning := "Blocked pattern" |},
     setRule (extractPattern request) false (snd (clearPersistedRules w))).
Proof.
  intros request w.
  apply (clear_restores_deny unreachable Json.parse w request).
  vm_compute. reflexivity.
Defined.

Lemma literal_deny_blocks_witness :
  let request := requestOf execute "sudo apt install nmap" in
  decide unreachable Json.parse request freshWorld =
    (Ok {| allow := false; persist := always; reasoning := "Blocked pattern" |},
     setRule (extractPattern request) false freshWorld).
Proof.
  intros request.
  apply (literal_deny_blocks unreachable Json.parse freshWorld request
           (RegExp.lit "^execute:sudo " "")
           (Js.chars "execute:sudo ") (Js.chars "apt install nmap")).
  - apply (nth_error_In _ 49). vm_compute. reflexivity.
  - vm_compute. reflexivity.
  - reflexivity.
  - vm_compute. reflexivity.
  - vm_compute. reflexivity.
Defined.

Lemma every_read_is_allowed_witness :
  let request := requestOf read "/home/dev/.ssh/id_rsa" in
  decide unreachable Json.parse request freshWorld =
    (Ok {| allow := true; persist := always; reasoning := "Safe pattern" |},
     setRule (extractPattern request) true freshWorld).
Proof.
  intros request.
  apply (every_read_is_allowed unreachable Json.parse freshWorld request []).
  - reflexivity.
  - reflexivity.
  - symmetry. apply app_nil_r.
  - vm_compute. reflexivity.
Defined.

Lemma every_delete_is_escalated_witness :
  let request := requestOf delete "/tmp/build.log" in
  escalates request freshWorld
  /\ decide unreachable Json.parse request freshWorld =
       askOpus unreachable Json.parse request (extractPattern request) freshWorld
  /\ sent (snd (decide unreachable Json.parse request freshWorld))
     = sent freshWorld ++ [askOpusParams request (extractPattern request)].
Proof.
  intros request.
  apply (every_delete_is_escalated unreachable Json.parse freshWorld request).
  - reflexivity.
  - reflexivity.
  - reflexivity.
  - vm_compute. reflexivity.
Defined.

Lemma run_return_is_announced_witness :
  exists s',
    run approving (budget 2) None "Add a parser" "repo" newRun = Some (Ok tt, s')
    /\ exists updates last,
         emitted s' = emitted newRun ++ updates ++ [last]
         /\ noTerminalUpdate updates = true
         /\ ((last = complete_update (currentIteration (state s'))
              /\ phase (state s') = complete
              /\ (currentIteration (state newRun) < currentIteration (state s'))%Z)
             \/ (last = max_iterations_update (currentIteration (state s'))
                 /\ phase (state s') = failed
                 /\ (maxIterations (budget 2) <= currentIteration (state s'))%Z)).
Proof.
  eexists. split; [vm_compute; reflexivity|].
  apply (run_return_is_announced approving (budget 2) None "Add a parser" "repo" newRun).
  vm_compute. reflexivity.
Defined.

Lemma run_exception_is_silent_witness :
  exists s',
    run editorDown (budget 3) None "Add a parser" "repo" newRun
      = Some (Throw "503 Service Unavailable", s')
    /\ exists updates,
         emitted s' = emitted newRun ++ updates
         /\ noTerminalUpdate updates = true
         /\ inProgress (phase (state s')) = true.
Proof.
  eexists. split; [vm_compute; reflexivity|].
  apply (run_exception_is_silent editorDown (budget 3) None "Add a parser" "repo" newRun
           "503 Service Unavailable").
  vm_compute. reflexivity.
Defined.

Lemma review_failure_aborts_run_witness :
  let backends := roleBackends "1. Add src/parser.ts"
                    (oneFile "src/parser.ts" "export const parse = JSON.parse")
                    "APPROVED" in
  exists e' s',
    run backends (budget 3) (Some throwingAnalyzer) "Add a parser" "repo" newRun
      = Some (Throw e', s')
    /\ length (calls s') = 2
    /\ phase (state s') = implementing.
Proof.
  intros backends.
  destruct (review_failure_aborts_run backends (budget 3) (Some throwingAnalyzer)
              "Add a parser" "repo" newRun
              [text_chunk "1. Add src/parser.ts"]
              [text_chunk (oneFile "src/parser.ts" "export const parse = JSON.parse")]
              throwingAnalyzer
              (hd (RegExp.mkMatch [] [] [] [])
                  (RegExp.execAll filePattern
                     (oneFile "src/parser.ts" "export const parse = JSON.parse")))
              "SyntaxError: Invalid regular expression")
    as (e' & s' & Hrun & Hcalls & _ & Hphase).
  - reflexivity.
  - reflexivity.
  - reflexivity.
  - reflexivity.
  - vm_compute. left. reflexivity.
  - reflexivity.
  - exists e', s'. split; [exact Hrun|]. split; [now rewrite Hcalls|exact Hphase].
Defined.

Lemma review_needs_flagged_file_witness :
  let implementation := oneFile "src/legacy/big.ts" "export {}" in
  exists u analyzer mt review message,
    architectureReview (Some legacyAnalyzer) 2 implementation = Ok (Some u)
    /\ Some legacyAnalyzer = Some analyzer
    /\ In mt (RegExp.execAll filePattern implementation)
    /\ analyzeChange analyzer 2 (matchPath mt) (matchContent mt) = Ok review
    /\ needsReview review = true
    /\ u = architecture_review_update message reviewOptions
    /\ occursIn (issueText (matchPath mt) review) message.
Proof.
  intros implementation. eexists.
  assert (H : architectureReview (Some legacyAnalyzer) 2 implementation = Ok (Some _))
    by (vm_compute; reflexivity).
  destruct (review_needs_flagged_file _ _ _ _ H) as (analyzer & mt & review & message & Hrest).
  exists analyzer, mt, review, message. split; [exact H|exact Hrest].
Defined.

Lemma blank_persona_is_ignored_witness :
  PersonaLoader.injectFromConfig planSystemPrompt
    (Some {| PersonaLoader.enabled := true; PersonaLoader.markdown := "
   ";
             PersonaLoader.applyTo := PersonaLoader.both;
             PersonaLoader.position := PersonaLoader.prepend |})
    PersonaLoader.architect = planSystemPrompt.
Proof.
  apply blank_persona_is_ignored. reflexivity.
Defined.
